(** * Change detection in the car-listing monitors

    A shallow embedding of the three monitors of the repository

    - [car_scraper.py]             (class [CarScraper]),
    - [yad2_monitor.py]            (class [Yad2MultiMonitor]),
    - [smart_autodeal_monitor.py]  (class [SmartAutoDealMonitor]),

    followed by the properties of their change-detection logic.

    Conventions of the embedding.
    - A Python [str] is the [string] of its UTF-8 bytes; [len], slices,
      [strip], [split] and the patterns of [re] work on characters, not
      bytes.  White space ([\s], [strip], [split]) and digits ([\d],
      [isdigit], [int]) are those of Unicode 14.0, the data of CPython
      3.11; [lower] changes the letters A to Z only.
    - A Python [int] is a [Z]; [None] in an [Optional] is [None].
    - A [dict] used as a map is a [gmap], a [set] of strings is a [gset].
    - Everything a method reads from the outside world (the fetched page,
      the clock, whether the browser driver could be started) is an explicit
      argument; everything it does to the outside world (sending a message,
      writing the storage file) is an entry of the returned trace. *)

From Stdlib Require Import ZArith String Ascii List Lia.
From stdpp Require Import base option list gmap sets strings fin_maps.
Import ListNotations.

#[local] Open Scope string_scope.
#[local] Open Scope list_scope.

(** ** Python built-ins used by the monitors *)

Module Py.

(** [sub in s] on strings. *)
Definition contains (sub s : string) : bool :=
  match String.index 0 sub s with
  | Some _ => true
  | None => false
  end.

(** A byte that continues a multi-byte character. *)
Definition is_continuation (c : ascii) : bool :=
  let n := nat_of_ascii c in
  (128 <=? n)%nat && (n <? 192)%nat.

(** [len(s)]: the number of characters. *)
Fixpoint len (s : string) : nat :=
  match s with
  | String c s' => ((if is_continuation c then 0 else 1) + len s')%nat
  | EmptyString => 0%nat
  end.

(** [s[:n]] on strings: the first [n] characters. *)
Fixpoint str_take (n : nat) (s : string) : string :=
  match s with
  | String c s' =>
      if is_continuation c then String c (str_take n s')
      else match n with
           | O => EmptyString
           | S n' => String c (str_take n' s')
           end
  | EmptyString => EmptyString
  end.

(** [s.startswith(p)]. *)
Definition startswith (p s : string) : bool := String.prefix p s.

(** [l[-n:]] for a positive literal [n]: the last [n] items, all of them
    when the list is shorter. *)
Definition last_n {A} (n : nat) (l : list A) : list A :=
  drop (length l - n) l.

(** [''.join(l)]. *)
Fixpoint concat (l : list string) : string :=
  match l with
  | [] => EmptyString
  | x :: l' => x +:+ concat l'
  end.

Definition starts_with_continuation (s : string) : bool :=
  match s with
  | String c _ => is_continuation c
  | EmptyString => false
  end.

(** The characters of a string, in order.  A character is the string of
    the bytes of its encoding: a byte and the continuation bytes after
    it. *)
Fixpoint chars (s : string) : list string :=
  match s with
  | EmptyString => []
  | String c s' =>
      match chars s' with
      | ch :: rest =>
          if starts_with_continuation ch then String c ch :: rest
          else String c EmptyString :: ch :: rest
      | [] => [String c EmptyString]
      end
  end.

(** [ord(ch)]: the code point that the bytes of a character encode
    (UTF-8, shortest form only). *)
Definition ord (ch : string) : option N :=
  let continues (b : ascii) (k : N -> option N) : option N :=
    if is_continuation b then k (N_of_ascii b - 128)%N else None in
  match list_ascii_of_string ch with
  | [a] =>
      let a := N_of_ascii a in
      if (a <? 128)%N then Some a else None
  | [a; b] =>
      let a := N_of_ascii a in
      if (194 <=? a)%N && (a <? 224)%N
      then continues b (fun b => Some ((a - 192) * 64 + b)%N)
      else None
  | [a; b; c] =>
      let a := N_of_ascii a in
      if (224 <=? a)%N && (a <? 240)%N
      then continues b (fun b => continues c (fun c =>
             let cp := (((a - 224) * 64 + b) * 64 + c)%N in
             if (2048 <=? cp)%N then Some cp else None))
      else None
  | [a; b; c; d] =>
      let a := N_of_ascii a in
      if (240 <=? a)%N && (a <? 245)%N
      then continues b (fun b => continues c (fun c => continues d (fun d =>
             let cp := ((((a - 240) * 64 + b) * 64 + c) * 64 + d)%N in
             if (65536 <=? cp)%N && (cp <=? 1114111)%N then Some cp else None)))
      else None
  | _ => None
  end.

Definition in_ranges (cp : N) (ranges : list (N * N)) : bool :=
  existsb (fun r => (fst r <=? cp)%N && (cp <=? snd r)%N) ranges.

(** The white space of [str.strip], [str.split] and the class [\s]:
    the characters for which [str.isspace] holds. *)
Definition space_ranges : list (N * N) :=
  [ (0x9, 0xD); (0x1C, 0x20); (0x85, 0x85); (0xA0, 0xA0); (0x1680, 0x1680);
    (0x2000, 0x200A); (0x2028, 0x2029); (0x202F, 0x202F); (0x205F, 0x205F);
    (0x3000, 0x3000) ]%N.

Definition is_space (ch : string) : bool :=
  match ord ch with
  | Some cp => in_ranges cp space_ranges
  | None => false
  end.

(** The decimal digits of the class [\d] and of [int]: the characters
    of category Nd (Unicode 14.0, the data of CPython 3.11).  They come
    in runs of ten, from the digit zero up; the table lists the zeros. *)
Definition decimal_zeros : list N :=
  [ 0x30; 0x660; 0x6F0; 0x7C0; 0x966; 0x9E6; 0xA66; 0xAE6; 0xB66; 0xBE6;
    0xC66; 0xCE6; 0xD66; 0xDE6; 0xE50; 0xED0; 0xF20; 0x1040; 0x1090; 0x17E0;
    0x1810; 0x1946; 0x19D0; 0x1A80; 0x1A90; 0x1B50; 0x1BB0; 0x1C40; 0x1C50;
    0xA620; 0xA8D0; 0xA900; 0xA9D0; 0xA9F0; 0xAA50; 0xABF0; 0xFF10; 0x104A0;
    0x10D30; 0x11066; 0x110F0; 0x11136; 0x111D0; 0x112F0; 0x11450; 0x114D0;
    0x11650; 0x116C0; 0x11730; 0x118E0; 0x11950; 0x11C50; 0x11D50; 0x11DA0;
    0x16A60; 0x16AC0; 0x16B50; 0x1D7CE; 0x1D7D8; 0x1D7E2; 0x1D7EC; 0x1D7F6;
    0x1E140; 0x1E2F0; 0x1E950; 0x1FBF0 ]%N.

(** The value of a decimal digit; [None] for any other character. *)
Definition decimal (ch : string) : option N :=
  match ord ch with
  | Some cp =>
      option_map (fun zero => (cp - zero)%N)
        (find (fun zero => (zero <=? cp)%N && (cp <=? zero + 9)%N) decimal_zeros)
  | None => None
  end.

Definition is_decimal (ch : string) : bool :=
  match decimal ch with Some _ => true | None => false end.

(** [ch.isdigit()]: the decimal digits and the other characters that
    stand for a digit (superscripts, circled digits and the like). *)
Definition digit_ranges : list (N * N) :=
  [ (0x30, 0x39); (0xB2, 0xB3); (0xB9, 0xB9); (0x660, 0x669); (0x6F0, 0x6F9);
    (0x7C0, 0x7C9); (0x966, 0x96F); (0x9E6, 0x9EF); (0xA66, 0xA6F);
    (0xAE6, 0xAEF); (0xB66, 0xB6F); (0xBE6, 0xBEF); (0xC66, 0xC6F);
    (0xCE6, 0xCEF); (0xD66, 0xD6F); (0xDE6, 0xDEF); (0xE50, 0xE59);
    (0xED0, 0xED9); (0xF20, 0xF29); (0x1040, 0x1049); (0x1090, 0x1099);
    (0x1369, 0x1371); (0x17E0, 0x17E9); (0x1810, 0x1819); (0x1946, 0x194F);
    (0x19D0, 0x19DA); (0x1A80, 0x1A89); (0x1A90, 0x1A99); (0x1B50, 0x1B59);
    (0x1BB0, 0x1BB9); (0x1C40, 0x1C49); (0x1C50, 0x1C59); (0x2070, 0x2070);
    (0x2074, 0x2079); (0x2080, 0x2089); (0x2460, 0x2468); (0x2474, 0x247C);
    (0x2488, 0x2490); (0x24EA, 0x24EA); (0x24F5, 0x24FD); (0x24FF, 0x24FF);
    (0x2776, 0x277E); (0x2780, 0x2788); (0x278A, 0x2792); (0xA620, 0xA629);
    (0xA8D0, 0xA8D9); (0xA900, 0xA909); (0xA9D0, 0xA9D9); (0xA9F0, 0xA9F9);
    (0xAA50, 0xAA59); (0xABF0, 0xABF9); (0xFF10, 0xFF19); (0x104A0, 0x104A9);
    (0x10A40, 0x10A43); (0x10D30, 0x10D39); (0x10E60, 0x10E68);
    (0x11052, 0x1105A); (0x11066, 0x1106F); (0x110F0, 0x110F9);
    (0x11136, 0x1113F); (0x111D0, 0x111D9); (0x112F0, 0x112F9);
    (0x11450, 0x11459); (0x114D0, 0x114D9); (0x11650, 0x11659);
    (0x116C0, 0x116C9); (0x11730, 0x11739); (0x118E0, 0x118E9);
    (0x11950, 0x11959); (0x11C50, 0x11C59); (0x11D50, 0x11D59);
    (0x11DA0, 0x11DA9); (0x16A60, 0x16A69); (0x16AC0, 0x16AC9);
    (0x16B50, 0x16B59); (0x1D7CE, 0x1D7FF); (0x1E140, 0x1E149);
    (0x1E2F0, 0x1E2F9); (0x1E950, 0x1E959); (0x1F100, 0x1F10A);
    (0x1FBF0, 0x1FBF9) ]%N.

Definition isdigit (ch : string) : bool :=
  match ord ch with
  | Some cp => in_ranges cp digit_ranges
  | None => false
  end.

Fixpoint drop_while {A} (p : A -> bool) (l : list A) : list A :=
  match l with
  | x :: l' => if p x then drop_while p l' else l
  | [] => []
  end.

Fixpoint take_while {A} (p : A -> bool) (l : list A) : list A :=
  match l with
  | x :: l' => if p x then x :: take_while p l' else []
  | [] => []
  end.

(** White space removed at the start, at the end, and at both ends of a
    list of characters. *)
Definition lstrip_chars (l : list string) : list string := drop_while is_space l.
Definition rstrip_chars (l : list string) : list string :=
  rev (drop_while is_space (rev l)).
Definition strip_chars (l : list string) : list string :=
  rstrip_chars (lstrip_chars l).

(** [s.lstrip()], [s.rstrip()] and [s.strip()]. *)
Definition lstrip (s : string) : string := concat (lstrip_chars (chars s)).
Definition rstrip (s : string) : string := concat (rstrip_chars (chars s)).
Definition strip (s : string) : string := concat (strip_chars (chars s)).

Definition lower_char (c : ascii) : ascii :=
  let n := nat_of_ascii c in
  if (65 <=? n)%nat && (n <=? 90)%nat then ascii_of_nat (n + 32) else c.

(** [s.lower()], on the letters A to Z. *)
Fixpoint lower (s : string) : string :=
  match s with
  | String c s' => String (lower_char c) (lower s')
  | EmptyString => EmptyString
  end.

(** Truthiness of a string: non-empty. *)
Definition truthy (s : string) : bool :=
  match s with
  | EmptyString => false
  | String _ _ => true
  end.

(** [s.split()]: the maximal runs of non-whitespace characters. *)
Fixpoint split_ws_aux (cur : string) (l : list string) : list string :=
  match l with
  | [] => if truthy cur then [cur] else []
  | ch :: l' =>
      if is_space ch
      then (if truthy cur then [cur] else []) ++ split_ws_aux EmptyString l'
      else split_ws_aux (cur +:+ ch) l'
  end.

Definition split_ws (s : string) : list string := split_ws_aux EmptyString (chars s).

(** [sep.join(l)]. *)
Fixpoint join (sep : string) (l : list string) : string :=
  match l with
  | [] => EmptyString
  | [x] => x
  | x :: l' => x +:+ sep +:+ join sep l'
  end.

(** [str(l)] for a list of plain strings: ['a', 'b']. *)
Definition repr_list (l : list string) : string :=
  "[" +:+ join ", " (map (fun t => "'" +:+ t +:+ "'") l) +:+ "]".

(** The number that a list of decimal digits denotes. *)
Definition digit_value (ch : string) : Z :=
  match decimal ch with
  | Some v => Z.of_N v
  | None => 0%Z
  end.

Definition int_of_chars (digits : list string) : Z :=
  fold_left (fun acc ch => (10 * acc + digit_value ch)%Z) digits 0%Z.

Definition int_of_digits (s : string) : Z := int_of_chars (chars s).

(** The longest string of digits that [int] converts
    ([sys.int_info.default_max_str_digits]). *)
Definition max_str_digits : nat := 4300.

(** [int(s)] for a string of decimal digits; [None] when the string is
    too long and [int] raises [ValueError]. *)
Definition int (s : string) : option Z :=
  if (max_str_digits <? length (chars s))%nat then None
  else Some (int_of_digits s).

(** The first maximal run of characters of a class. *)
Fixpoint first_run (p : string -> bool) (l : list string) : option (list string) :=
  match l with
  | ch :: l' => if p ch then Some (take_while p l) else first_run p l'
  | [] => None
  end.

(** [re.findall(r'\d+', s)[0]] when there is one: the first maximal run
    of decimal digits. *)
Definition first_number (s : string) : option string :=
  concat <$> first_run is_decimal (chars s).

(** A [None] slot of an f-string prints as [None]. *)
Definition fmt_opt (o : option string) : string :=
  match o with
  | Some s => s
  | None => "None"
  end.

(** [c in s] for a one-character needle. *)
Fixpoint has_char (c : ascii) (s : string) : bool :=
  match s with
  | String x s' => Ascii.eqb x c || has_char c s'
  | EmptyString => false
  end.

(** [s.replace(a, b)] for one-character [a] and [b]. *)
Fixpoint replace_char (a b : ascii) (s : string) : string :=
  match s with
  | String x s' => String (if Ascii.eqb x a then b else x) (replace_char a b s')
  | EmptyString => EmptyString
  end.

(** [s.split(sep)] for a one-character separator: never empty. *)
Fixpoint split_on (sep : ascii) (s : string) : list string :=
  match s with
  | String x s' =>
      if Ascii.eqb x sep then EmptyString :: split_on sep s'
      else match split_on sep s' with
           | piece :: pieces => String x piece :: pieces
           | [] => [String x EmptyString]
           end
  | EmptyString => [EmptyString]
  end.

(** [s.split(sep, 1)] for a one-character separator that occurs in [s]:
    what is in front of the first separator, and what follows it. *)
Fixpoint split_first (sep : ascii) (s : string) : string * string :=
  match s with
  | String x s' =>
      if Ascii.eqb x sep then (EmptyString, s')
      else let '(a, b) := split_first sep s' in (String x a, b)
  | EmptyString => (EmptyString, EmptyString)
  end.

End Py.

(** ** hashlib.md5 (RFC 1321), on the bytes of the encoded text *)

Module Md5.

#[local] Open Scope Z_scope.

Definition mask32 (x : Z) : Z := Z.land x 0xffffffff.
Definition add32 (x y : Z) : Z := mask32 (x + y).
Definition not32 (x : Z) : Z := Z.lxor x 0xffffffff.
Definition rotl32 (x n : Z) : Z :=
  mask32 (Z.lor (Z.shiftl x n) (Z.shiftr x (32 - n))).

Definition K : list Z :=
  [ 0xd76aa478; 0xe8c7b756; 0x242070db; 0xc1bdceee; 0xf57c0faf; 0x4787c62a;
    0xa8304613; 0xfd469501; 0x698098d8; 0x8b44f7af; 0xffff5bb1; 0x895cd7be;
    0x6b901122; 0xfd987193; 0xa679438e; 0x49b40821; 0xf61e2562; 0xc040b340;
    0x265e5a51; 0xe9b6c7aa; 0xd62f105d; 0x02441453; 0xd8a1e681; 0xe7d3fbc8;
    0x21e1cde6; 0xc33707d6; 0xf4d50d87; 0x455a14ed; 0xa9e3e905; 0xfcefa3f8;
    0x676f02d9; 0x8d2a4c8a; 0xfffa3942; 0x8771f681; 0x6d9d6122; 0xfde5380c;
    0xa4beea44; 0x4bdecfa9; 0xf6bb4b60; 0xbebfbc70; 0x289b7ec6; 0xeaa127fa;
    0xd4ef3085; 0x04881d05; 0xd9d4d039; 0xe6db99e5; 0x1fa27cf8; 0xc4ac5665;
    0xf4292244; 0x432aff97; 0xab9423a7; 0xfc93a039; 0x655b59c3; 0x8f0ccc92;
    0xffeff47d; 0x85845dd1; 0x6fa87e4f; 0xfe2ce6e0; 0xa3014314; 0x4e0811a1;
    0xf7537e82; 0xbd3af235; 0x2ad7d2bb; 0xeb86d391 ].

Definition shifts : list Z :=
  [ 7; 12; 17; 22; 7; 12; 17; 22; 7; 12; 17; 22; 7; 12; 17; 22;
    5; 9; 14; 20; 5; 9; 14; 20; 5; 9; 14; 20; 5; 9; 14; 20;
    4; 11; 16; 23; 4; 11; 16; 23; 4; 11; 16; 23; 4; 11; 16; 23;
    6; 10; 15; 21; 6; 10; 15; 21; 6; 10; 15; 21; 6; 10; 15; 21 ].

Definition state : Type := Z * Z * Z * Z.

Definition init : state := (0x67452301, 0xefcdab89, 0x98badcfe, 0x10325476).

Definition step (M : list Z) (st : state) (i : nat) : state :=
  let '(a, b, c, d) := st in
  let '(f, g) :=
    if (i <? 16)%nat then
      (Z.lor (Z.land b c) (Z.land (not32 b) d), i)
    else if (i <? 32)%nat then
      (Z.lor (Z.land d b) (Z.land (not32 d) c), ((5 * i + 1) mod 16)%nat)
    else if (i <? 48)%nat then
      (Z.lxor b (Z.lxor c d), ((3 * i + 5) mod 16)%nat)
    else
      (Z.lxor c (Z.lor b (not32 d)), ((7 * i) mod 16)%nat) in
  let f' := add32 (add32 (add32 f a) (nth i K 0)) (nth g M 0) in
  (d, add32 b (rotl32 f' (nth i shifts 0)), b, c).

Definition compress (st : state) (M : list Z) : state :=
  let '(a, b, c, d) := st in
  let '(a', b', c', d') := fold_left (step M) (seq 0 64) st in
  (add32 a a', add32 b b', add32 c c', add32 d d').

(** Little-endian bytes of a number, and back. *)
Fixpoint le_bytes (n : nat) (x : Z) : list Z :=
  match n with
  | O => []
  | S n' => Z.land x 0xff :: le_bytes n' (Z.shiftr x 8)
  end.

Fixpoint le_word (bs : list Z) : Z :=
  match bs with
  | [] => 0
  | b :: bs' => b + Z.shiftl (le_word bs') 8
  end.

(** Cut a list into consecutive pieces of [k] items ([n] pieces). *)
Fixpoint chunks {A} (k n : nat) (l : list A) : list (list A) :=
  match n with
  | O => []
  | S n' => take k l :: chunks k n' (drop k l)
  end.

Definition pad (msg : list Z) : list Z :=
  let len := Z.of_nat (length msg) in
  msg ++ [0x80] ++ replicate (Z.to_nat ((55 - len) mod 64)) 0
      ++ le_bytes 8 (8 * len).

Definition digest (msg : list Z) : list Z :=
  let p := pad msg in
  let blocks := chunks 64 (length p / 64) p in
  let words (blk : list Z) := map le_word (chunks 4 16 blk) in
  let '(a, b, c, d) :=
    fold_left (fun st blk => compress st (words blk)) blocks init in
  le_bytes 4 a ++ le_bytes 4 b ++ le_bytes 4 c ++ le_bytes 4 d.

Definition hex_digit (x : Z) : ascii :=
  if x <? 10 then ascii_of_nat (Z.to_nat (48 + x))
  else ascii_of_nat (Z.to_nat (87 + x)).

Fixpoint hex (bs : list Z) : string :=
  match bs with
  | [] => EmptyString
  | b :: bs' =>
      String (hex_digit (Z.shiftr b 4)) (String (hex_digit (Z.land b 0xf)) (hex bs'))
  end.


(** [text.encode()]: the bytes of the text. *)
Definition encode (s : string) : list Z :=
  map (fun c => Z.of_nat (nat_of_ascii c)) (list_ascii_of_string s).

(** [hashlib.md5(text.encode()).hexdigest()]. *)
Definition hexdigest (s : string) : string := hex (digest (encode s)).

End Md5.

(** ** The regular expressions of the field extractors

    The patterns of the source are concatenations of bounded or unbounded
    greedy repetitions of a character class, with at most one capture
    group.  [Many lo hi p] is [p{lo,hi}] ([hi = None]: unbounded).  The
    matcher returns what is left of the subject after a match, one entry per
    way of matching, in the order the backtracking engine of [re] tries
    them (longest repetition first). *)

Module Re.

(** A class of characters and the number of its repetitions. *)
Inductive atom : Type :=
| Many (lo : nat) (hi : option nat) (p : string -> bool).

Definition re : Type := list atom.

Definition chr (c : string) : atom := Many 1 (Some 1) (String.eqb c).
Definition cls (p : string -> bool) : atom := Many 1 (Some 1) p.
Definition lit (s : string) : re := map chr (Py.chars s).

(** [[a-b]]: a character of one byte, between [a] and [b]. *)
Definition range (a b : ascii) (ch : string) : bool :=
  match ch with
  | String c EmptyString =>
      (nat_of_ascii a <=? nat_of_ascii c)%nat && (nat_of_ascii c <=? nat_of_ascii b)%nat
  | _ => false
  end.
Definition one_of (s : string) (ch : string) : bool :=
  existsb (String.eqb ch) (Py.chars s).

(** [s] with 0, 1, 2, ... leading characters of class [p] removed. *)
Fixpoint runs (p : string -> bool) (s : list string) : list (list string) :=
  s :: match s with
       | c :: s' => if p c then runs p s' else []
       | [] => []
       end.

Definition match_atom (a : atom) (s : list string) : list (list string) :=
  let 'Many lo hi p := a in
  let rs := runs p s in
  let rs := match hi with Some k => take (S k) rs | None => rs end in
  rev (drop lo rs).

Fixpoint match_re (r : re) (s : list string) : list (list string) :=
  match r with
  | [] => [s]
  | a :: r' => flat_map (match_re r') (match_atom a s)
  end.

(** The part of [s] in front of its suffix [rest]. *)
Definition consumed (s rest : list string) : list string :=
  take (length s - length rest) s.

(** A match of [pre (grp) post] at the start of [s]:
    the whole match ([group()]) and the group ([group(1)]). *)
Definition match_here (pre grp post : re) (s : list string)
  : option (list string * list string) :=
  head (flat_map (fun r1 =>
          flat_map (fun r2 =>
            map (fun r3 => (consumed s r3, consumed r1 r2)) (match_re post r2))
            (match_re grp r1))
          (match_re pre s)).

(** The match at the leftmost position that has one. *)
Fixpoint search_chars (pre grp post : re) (s : list string)
  : option (list string * list string) :=
  match match_here pre grp post s with
  | Some m => Some m
  | None =>
      match s with
      | _ :: s' => search_chars pre grp post s'
      | [] => None
      end
  end.

(** [re.search]: the whole match and the group, as strings. *)
Definition search (pre grp post : re) (s : string) : option (string * string) :=
  (fun m => (Py.concat (fst m), Py.concat (snd m)))
    <$> search_chars pre grp post (Py.chars s).

(** [m.group()] and [m.group(1)] of a search. *)
Definition group0 (pre grp post : re) (s : string) : option string :=
  fst <$> search pre grp post s.
Definition group1 (pre grp post : re) (s : string) : option string :=
  snd <$> search pre grp post s.

(** The language of a pattern: the lists of characters that are a
    concatenation of one admissible repetition per atom. *)
Fixpoint accepts (r : re) (w : list string) : Prop :=
  match r with
  | [] => w = []
  | Many lo hi p :: r' =>
      exists w1 w2,
        w = w1 ++ w2
        /\ forallb p w1 = true
        /\ (lo <= length w1)%nat
        /\ match hi with Some k => (length w1 <= k)%nat | None => True end
        /\ accepts r' w2
  end.

End Re.

(** ** The CSS selectors of the selector tables

    Every selector of the source is an optional tag name followed by
    attribute tests: [tag[a*="v"]], [tag[a="v"]], [tag.c] or [.c]. *)

Module Css.

Inductive cond : Type :=
| AttrContains (a v : string)   (* [a*="v"] *)
| AttrEquals (a v : string)     (* [a="v"]  *)
| HasClass (c : string).        (* .c       *)

Record selector : Type := Selector {
  sel_tag : option string;
  sel_conds : list cond
}.

Definition attrs : Type := list (string * string).

Fixpoint get_attr (a : string) (l : attrs) : option string :=
  match l with
  | [] => None
  | (k, v) :: l' => if String.eqb k a then Some v else get_attr a l'
  end.

Definition has_attr (a : string) (l : attrs) : bool :=
  match get_attr a l with Some _ => true | None => false end.

Definition cond_holds (l : attrs) (c : cond) : bool :=
  match c with
  | AttrContains a v =>
      match get_attr a l with
      | Some x => Py.truthy v && Py.contains v x
      | None => false
      end
  | AttrEquals a v =>
      match get_attr a l with
      | Some x => String.eqb x v
      | None => false
      end
  | HasClass c =>
      match get_attr "class" l with
      | Some x => existsb (String.eqb c) (Py.split_ws x)
      | None => false
      end
  end.

Definition matches (s : selector) (tag : string) (l : attrs) : bool :=
  match sel_tag s with
  | Some t => String.eqb t tag
  | None => true
  end && forallb (cond_holds l) (sel_conds s).

(** Shorthands that read like the source's selector strings. *)
Definition tag_attr_contains (t a v : string) : selector :=
  Selector (Some t) [AttrContains a v].
Definition any_attr_contains (a v : string) : selector :=
  Selector None [AttrContains a v].
Definition tag_only (t : string) : selector := Selector (Some t) [].
Definition class_only (c : string) : selector := Selector None [HasClass c].

End Css.

(** The first non-empty result of a list of attempts, or the empty list:
    [for x in xs: r = f(x); if r: break]. *)
Fixpoint first_nonempty {A} (attempts : list (list A)) : list A :=
  match attempts with
  | [] => []
  | r :: rest => match r with [] => first_nonempty rest | _ => r end
  end.

(** The first attempt that produced something:
    [for x in xs: r = f(x); if r: ...; break]. *)
Fixpoint first_some {A} (attempts : list (option A)) : option A :=
  match attempts with
  | [] => None
  | Some x :: _ => Some x
  | None :: rest => first_some rest
  end.

(** ** car_scraper.py: the set-based scraper *)

Module CarScraper.

(** The parsed page ([BeautifulSoup]): text nodes and tags. *)
#[warnings="-register-all"] Inductive node : Type :=
| Text (s : string)
| Tag (name : string) (attrs : Css.attrs) (children : list node).

Definition is_tag (n : node) : bool :=
  match n with Tag _ _ _ => true | Text _ => false end.

Definition node_matches (s : Css.selector) (n : node) : bool :=
  match n with
  | Tag t a _ => Css.matches s t a
  | Text _ => false
  end.

(** The strings below a node, in document order. *)
Fixpoint strings (n : node) : list string :=
  match n with
  | Text s => [s]
  | Tag _ _ cs =>
      (fix go (l : list node) : list string :=
         match l with
         | [] => []
         | c :: l' => strings c ++ go l'
         end) cs
  end.

(** [n.get_text(strip=True)]: every string stripped, the empty ones
    dropped, the rest concatenated. *)
Definition get_text (n : node) : string :=
  Py.join "" (filter (fun s => Py.truthy s) (map Py.strip (strings n))).

(** The tags below a node, in document order. *)
Fixpoint descendants (n : node) : list node :=
  match n with
  | Text _ => []
  | Tag _ _ cs =>
      (fix go (l : list node) : list node :=
         match l with
         | [] => []
         | c :: l' => (if is_tag c then [c] else []) ++ descendants c ++ go l'
         end) cs
  end.

(** [n.select(selector)] and [n.select_one(selector)]. *)
Definition select (s : Css.selector) (n : node) : list node :=
  filter (fun d => node_matches s d) (descendants n).
Definition select_one (s : Css.selector) (n : node) : option node :=
  head (select s n).

Definition node_attrs (n : node) : Css.attrs :=
  match n with Tag _ a _ => a | Text _ => [] end.

(** [soup.find_all('div', class_=True)]. *)
Definition find_all_div_with_class (n : node) : list node :=
  filter (fun d => node_matches (Css.tag_only "div") d
                   && Css.has_attr "class" (node_attrs d)) (descendants n).

(** [n.find('a', href=True)]. *)
Definition find_a_with_href (n : node) : option node :=
  head (filter (fun d => node_matches (Css.tag_only "a") d
                         && Css.has_attr "href" (node_attrs d)) (descendants n)).

(** The [link] field: the [href] as found, or what the call
    [urljoin(self.url, href)] returns, which is kept symbolic. *)
Inductive link_value : Type :=
| Href (href : string)
| UrlJoin (base href : string).

(** The [car_data] dictionary; a key that may be missing is an option. *)
Record car : Type := Car {
  id : string;
  raw_text : string;
  title : option string;
  price : option string;
  link : option link_value;
  year : option string;
  mileage : option string
}.

Definition listing_selectors : list Css.selector :=
  [ Css.tag_attr_contains "article" "data-testid" "listing";
    Css.tag_attr_contains "div" "class" "listing-item";
    Css.tag_attr_contains "div" "class" "car-item";
    Css.tag_attr_contains "div" "class" "vehicle-card";
    Css.tag_attr_contains "div" "class" "result-item";
    Css.tag_attr_contains "div" "class" "ad-listing";
    Css.tag_attr_contains "li" "class" "listing";
    Css.tag_attr_contains "div" "class" "offer-item";
    Css.tag_attr_contains "article" "class" "car";
    Css.tag_attr_contains "div" "data-qa" "listing" ].

Definition fallback_keywords : list string :=
  [ "listing"; "item"; "card"; "result"; "offer"; "vehicle"; "car" ].

Definition title_selectors : list Css.selector :=
  [ Css.tag_only "h2"; Css.tag_only "h3"; Css.tag_only "h4";
    Css.tag_attr_contains "a" "class" "title";
    Css.tag_attr_contains "a" "class" "name";
    Css.class_only "title"; Css.class_only "name" ].

Definition price_selectors : list Css.selector :=
  [ Css.any_attr_contains "class" "price";
    Css.any_attr_contains "class" "cost";
    Css.any_attr_contains "class" "amount";
    Css.tag_attr_contains "span" "data-testid" "price" ].

(** ['20[0-2][0-9]'] and ['19[5-9][0-9]']. *)
Definition year_patterns : list Re.re :=
  [ Re.lit "20" ++ [Re.cls (Re.range "0" "2"); Re.cls (Re.range "0" "9")];
    Re.lit "19" ++ [Re.cls (Re.range "5" "9"); Re.cls (Re.range "0" "9")] ].

(** [(\d{1,3}[,.\s]?\d{0,3})\s*[kK][mM]], group and tail. *)
Definition km_group : Re.re :=
  [ Re.Many 1 (Some 3) Py.is_decimal;
    Re.Many 0 (Some 1) (fun c => Re.one_of ",." c || Py.is_space c);
    Re.Many 0 (Some 3) Py.is_decimal ].
Definition km_tail : Re.re :=
  [ Re.Many 0 None Py.is_space; Re.cls (Re.one_of "kK"); Re.cls (Re.one_of "mM") ].

(** The identity of a listing: the MD5 digest of its text
    (lines 113-114 of the source). *)
Definition identity (text_content : string) : string :=
  Md5.hexdigest text_content.

(** [CarScraper.extract_car_data]: the dictionary that the method
    returns; [url] is [self.url].  The method returns unless the call of
    [urljoin] raises, see [extraction_raises]. *)
Definition extract_car_data (url : string) (listing_element : node) : car :=
  let text_content := get_text listing_element in
  let unique_id := identity text_content in
  {| id := unique_id;
     raw_text := Py.str_take 500 text_content;
     title :=
       get_text <$>
         first_some (map (fun s => select_one s listing_element) title_selectors);
     price :=
       get_text <$>
         first_some (map (fun s => select_one s listing_element) price_selectors);
     link :=
       match find_a_with_href listing_element with
       | Some a =>
           let href := default "" (Css.get_attr "href" (node_attrs a)) in
           Some (if Py.startswith "/" href then UrlJoin url href else Href href)
       | None => None
       end;
     year :=
       first_some (map (fun p => Re.group0 [] p [] text_content) year_patterns);
     mileage := Re.group0 [] km_group km_tail text_content |}.

(** The generic approach of [scrape_cars], taken when no selector matched:
    every [div] with a class whose class list mentions a keyword. *)
Definition generic_listings (soup : node) : list node :=
  filter (fun container =>
            let classes :=
              Py.split_ws (default "" (Css.get_attr "class" (node_attrs container))) in
            existsb (fun keyword => Py.contains keyword (Py.lower (Py.repr_list classes)))
                    fallback_keywords)
         (find_all_div_with_class soup).

(** The candidate containers of a page. *)
Definition listings_of (soup : node) : list node :=
  match first_nonempty (map (fun s => select s soup) listing_selectors) with
  | [] => generic_listings soup
  | ls => ls
  end.

(** Whether [extract_car_data] raises on a container.  The one call of
    the method that can raise is [urljoin(self.url, href)], made for a
    link that starts with a slash; [urljoin_fails base href] says that
    this call raises [ValueError]. *)
Definition extraction_raises (urljoin_fails : string -> string -> bool)
    (url : string) (listing_element : node) : bool :=
  match link (extract_car_data url listing_element) with
  | Some (UrlJoin base href) => urljoin_fails base href
  | _ => false
  end.

(** [CarScraper.scrape_cars]; [response] is the parsed page, [None] when
    the request failed (the exception is caught and no car is returned).
    An exception raised while a container is extracted is caught as well:
    it ends the loop, and the cars found so far are returned. *)
Definition scrape_cars (urljoin_fails : string -> string -> bool)
    (url : string) (response : option node) : list car :=
  match response with
  | None => []
  | Some soup =>
      filter (fun car_data => Py.truthy (id car_data))
             (map (extract_car_data url)
                  (Py.take_while
                     (fun listing => negb (extraction_raises urljoin_fails url listing))
                     (listings_of soup)))
  end.

(** [CarScraper.load_seen_cars]; [stored] is the [seen_ids] list of the
    storage file, [None] when there is no (readable) file. *)
Definition load_seen_cars (stored : option (list string)) : gset string :=
  match stored with
  | Some seen_ids => list_to_set seen_ids
  | None => ∅
  end.

Inductive message : Type :=
| NewCarListed (c : car)                       (* format_car_message(car) *)
| NewCarsSummary (count : nat) (url : string)  (* "Found n new cars total!" *)
| MonitorInitialized (count : nat) (url : string). (* "Car monitor initialized!" *)

Inductive event : Type :=
| Send (m : message)                           (* send_telegram_message *)
| Save (seen_ids : gset string) (now : string). (* save_seen_cars *)

(** One turn of the loop of lines 220-223. *)
Definition find_new_step (acc : list car * gset string) (c : car)
  : list car * gset string :=
  let '(new_cars, seen_cars) := acc in
  if bool_decide (id c ∈ seen_cars) then (new_cars, seen_cars)
  else (new_cars ++ [c], {[ id c ]} ∪ seen_cars).

Definition find_new (cars : list car) (seen_cars : gset string)
  : list car * gset string :=
  fold_left find_new_step cars ([], seen_cars).

(** The body of [CarScraper.run] after [cars = self.scrape_cars()]:
    the final [seen_cars], what was sent and saved, and the return value
    [len(new_cars)]. *)
Definition run_on (url : string) (cars : list car) (now : string)
    (seen_cars : gset string) : gset string * list event * nat :=
  let '(new_cars, seen_cars) := find_new cars seen_cars in
  let notifications :=
    match new_cars with
    | [] => []
    | _ =>
        map (fun c => Send (NewCarListed c)) (take 5 new_cars)
        ++ (if (5 <? length new_cars)%nat
            then [Send (NewCarsSummary (length new_cars) url)] else [])
        ++ [Save seen_cars now]
    end in
  let first_run :=
    if (size seen_cars <=? length cars)%nat
    then [Send (MonitorInitialized (length cars) url)] else [] in
  (seen_cars, notifications ++ first_run, length new_cars).

(** [CarScraper.run]. *)
Definition run (urljoin_fails : string -> string -> bool) (url : string)
    (response : option node) (now : string)
    (seen_cars : gset string) : gset string * list event * nat :=
  run_on url (scrape_cars urljoin_fails url response) now seen_cars.

(** Successive runs of the scraper, each starting from the set the previous
    one left: the final set and everything that was sent and saved. *)
Fixpoint runs (urljoin_fails : string -> string -> bool) (url : string)
    (inputs : list (option node * string))
    (seen_cars : gset string) : gset string * list event :=
  match inputs with
  | [] => (seen_cars, [])
  | (response, now) :: inputs' =>
      let '(seen1, trace1, _) := run urljoin_fails url response now seen_cars in
      let '(seen2, trace2) := runs urljoin_fails url inputs' seen1 in
      (seen2, trace1 ++ trace2)
  end.

(** The cars a trace reports as new, one message each. *)
Definition reported_new (trace : list event) : list car :=
  omap (fun e => match e with Send (NewCarListed c) => Some c | _ => None end) trace.

Definition is_save (e : event) : bool :=
  match e with Save _ _ => true | Send _ => false end.

Definition is_summary (e : event) : bool :=
  match e with Send (NewCarsSummary _ _) => true | _ => false end.

Definition is_new_record_message (e : event) : bool :=
  match e with
  | Send (NewCarListed _) | Send (NewCarsSummary _ _) => true
  | _ => false
  end.

(** The identity set of an extraction. *)
Definition ids_of (cars : list car) : gset string := list_to_set (map id cars).

End CarScraper.

(** ** yad2_monitor.py: the multi-URL monitor (counter-based) *)

Module Yad2.

#[local] Open Scope Z_scope.

(** One entry of a search's [history] list. *)
Record history_entry : Type := HistoryEntry {
  h_time : string;
  h_total : Z;
  h_change : Z
}.

(** One value of [self.data['searches']]. *)
Record search : Type := Search {
  s_name : string;
  s_url : string;
  last_total : Z;
  history : list history_entry
}.

(** [self.data]. *)
Record data : Type := Data {
  searches : gmap string search;
  last_check : option string
}.

(** [load_data]: the stored document, or the default when there is none. *)
Definition load_data (stored : option data) : data :=
  match stored with
  | Some d => d
  | None => {| searches := ∅; last_check := None |}
  end.

(** One entry of [self.urls]. *)
Record url_config : Type := UrlConfig {
  name : string;
  url : string
}.

(** What the outside world answers while one URL is checked: the result of
    [get_total_for_url] and the clock. *)
Record probe : Type := Probe {
  fetched : option Z;
  now : string
}.

(** One entry of [all_changes]. *)
Record change : Type := Change {
  c_name : string;
  c_url : string;
  c_previous : Z;
  c_current : Z;
  c_diff : Z
}.

(** One entry of [first_run_searches]. *)
Record first_run : Type := FirstRun {
  f_name : string;
  f_total : Z;
  f_url : string
}.

Inductive message : Type :=
| MonitoringStarted (first_run_searches : list first_run)
| Changes (total_new total_removed : Z) (details : list change)
| FetchErrors (names : list string)
| Status (n_urls : nat) (total_checks : nat)
| GeneralError.

Inductive event : Type :=
| Fetch (u : string)          (* get_total_for_url(url) *)
| Save (d : data)             (* save_data() *)
| Send (m : message).         (* send_telegram_message(message) *)

(** The key of a URL's slot in [searches] (line 260). *)
Definition search_key (u : string) : string := Py.str_take 100 u.

(** The bound on a search's history (lines 311-314). *)
Definition history_bound : nat := 50.

(** Lines 305-314: append, then keep the last 50. *)
Definition push_history (h : list history_entry) (e : history_entry)
  : list history_entry :=
  let h := h ++ [e] in
  if (history_bound <? length h)%nat then Py.last_n history_bound h else h.

(** The variables of the loop of [run]. *)
Record loop_state : Type := LoopState {
  st_searches : gmap string search;
  all_changes : list change;
  first_run_searches : list first_run;
  errors : list string;
  trace : list event
}.

(** The body of the loop of [run] (lines 258-319) for one URL. *)
Definition check_url (st : loop_state) (t : url_config * probe) : loop_state :=
  let '(url_config, world) := t in
  let search_key := search_key (url url_config) in
  let tr := trace st ++ [Fetch (url url_config)] in
  match fetched world with
  | None =>
      {| st_searches := st_searches st;
         all_changes := all_changes st;
         first_run_searches := first_run_searches st;
         errors := errors st ++ [name url_config];
         trace := tr |}
  | Some current_total =>
      match st_searches st !! search_key with
      | None =>
          {| st_searches :=
               <[search_key := {| s_name := name url_config;
                                  s_url := url url_config;
                                  last_total := current_total;
                                  history := [] |}]> (st_searches st);
             all_changes := all_changes st;
             first_run_searches :=
               first_run_searches st
               ++ [{| f_name := name url_config;
                      f_total := current_total;
                      f_url := url url_config |}];
             errors := errors st;
             trace := tr |}
      | Some s =>
          let diff := current_total - last_total s in
          if bool_decide (diff ≠ 0) then
            {| st_searches :=
                 <[search_key := {| s_name := s_name s;
                                    s_url := s_url s;
                                    last_total := current_total;
                                    history :=
                                      push_history (history s)
                                        {| h_time := now world;
                                           h_total := current_total;
                                           h_change := diff |} |}]>
                   (st_searches st);
               all_changes :=
                 all_changes st
                 ++ [{| c_name := name url_config;
                        c_url := url url_config;
                        c_previous := last_total s;
                        c_current := current_total;
                        c_diff := diff |}];
               first_run_searches := first_run_searches st;
               errors := errors st;
               trace := tr |}
          else
            {| st_searches := st_searches st;
               all_changes := all_changes st;
               first_run_searches := first_run_searches st;
               errors := errors st;
               trace := tr |}
      end
  end.

Definition initial_state (d : data) : loop_state :=
  {| st_searches := searches d;
     all_changes := [];
     first_run_searches := [];
     errors := [];
     trace := [] |}.

(** The whole loop. *)
Definition check_all (d : data) (targets : list (url_config * probe)) : loop_state :=
  fold_left check_url targets (initial_state d).

Definition sum_Z (l : list Z) : Z := fold_right Z.add 0 l.

(** [format_changes_message]: [None] for an empty list. *)
Definition format_changes_message (all_changes : list change) : option message :=
  match all_changes with
  | [] => None
  | _ =>
      let total_new :=
        sum_Z (map c_diff (filter (fun c => 0 <? c_diff c) all_changes)) in
      let total_removed :=
        sum_Z (map c_diff (filter (fun c => c_diff c <? 0) all_changes)) in
      Some (Changes total_new total_removed all_changes)
  end.

(** Lines 357-360: the number of stored history entries over all searches. *)
Definition total_checks (m : gmap string search) : nat :=
  map_fold (fun _ s acc => (acc + length (history s))%nat) 0%nat m.

(** Lines 324-368: the messages sent after the store was saved. *)
Definition notifications (n_urls : nat) (st : loop_state) : list message :=
  (match first_run_searches st with
   | [] => []
   | frs => [MonitoringStarted frs]
   end)
  ++ (match all_changes st with
      | [] => []
      | cs => match format_changes_message cs with
              | Some m => [m]
              | None => []
              end
      end)
  ++ (match errors st with
      | [] => []
      | es => [FetchErrors es]
      end)
  ++ (let n := total_checks (st_searches st) in
      if (0 <? n)%nat && (n mod 50 =? 0)%nat then [Status n_urls n] else []).

(** What one run is given: whether [setup_driver] succeeded, the configured
    URLs with the world's answers, and the time at which the store is
    saved. *)
Record run_input : Type := RunInput {
  driver_ok : bool;
  targets : list (url_config * probe);
  saved_at : string
}.

(** [Yad2MultiMonitor.run]: the store after the run, and what the run did.
    When the driver cannot be started the exception handler sends one
    message and nothing else happens. *)
Definition run (i : run_input) (d : data) : data * loop_state :=
  if driver_ok i then
    let st := check_all d (targets i) in
    let d' := {| searches := st_searches st; last_check := Some (saved_at i) |} in
    (d', {| st_searches := st_searches st;
            all_changes := all_changes st;
            first_run_searches := first_run_searches st;
            errors := errors st;
            trace := trace st ++ [Save d']
                     ++ map Send (notifications (length (targets i)) st) |})
  else
    (d, {| st_searches := searches d;
           all_changes := [];
           first_run_searches := [];
           errors := [];
           trace := [Send GeneralError] |}).

(** Successive runs of the monitor, each starting from the store the
    previous one left: the final store and the changes each run reported. *)
Fixpoint runs (inputs : list run_input) (d : data) : data * list change :=
  match inputs with
  | [] => (d, [])
  | i :: inputs' =>
      let '(d1, st) := run i d in
      let '(d2, cs) := runs inputs' d1 in
      (d2, all_changes st ++ cs)
  end.

Definition is_save (e : event) : bool :=
  match e with Save _ => true | _ => false end.

(** The history stored under a key (empty when the key has no slot). *)
Definition history_of (m : gmap string search) (k : string) : list history_entry :=
  from_option history [] (m !! k).

(** What a history entry records, and what a reported change records, of
    the same event: the new total and the delta. *)
Definition entry_record (e : history_entry) : Z * Z := (h_total e, h_change e).
Definition change_record (c : change) : Z * Z := (c_current c, c_diff c).

(** The reported changes that belong to the slot of a key. *)
Definition changes_of (k : string) (cs : list change) : list change :=
  filter (fun c => bool_decide (search_key (c_url c) = k)) cs.

(** The test of line 267: the fetch yielded no total. *)
Definition is_failed (t : url_config * probe) : bool :=
  match fetched t.2 with None => true | Some _ => false end.

(** The table of manufacturer codes of [generate_name_from_url]. *)
Definition manufacturers : list (string * string) :=
  [ ("40", "מאזדה"); ("21", "טויוטה"); ("28", "יונדאי");
    ("32", "קיה"); ("55", "סקודה"); ("18", "ניסאן") ].

Fixpoint dict_get (k : string) (table : list (string * string)) : option string :=
  match table with
  | [] => None
  | (k', v) :: table' => if String.eqb k' k then Some v else dict_get k table'
  end.

Definition digit_or_dash (c : string) : bool := Py.is_decimal c || String.eqb c "-".

Definition default_name : string := "חיפוש כללי".

(** The three optional parts of a generated name (lines 68-93). *)
Definition manufacturer_part (u : string) : list string :=
  if Py.contains "manufacturer=" u then
    match Re.group1 (Re.lit "manufacturer=") [Re.Many 1 None Py.is_decimal] [] u with
    | Some code => [default ("יצרן " +:+ code) (dict_get code manufacturers)]
    | None => []
    end
  else [].

Definition price_part (u : string) : list string :=
  if Py.contains "price=" u then
    match Re.group1 (Re.lit "price=") [Re.Many 1 None digit_or_dash] [] u with
    | Some range => ["מחיר " +:+ range]
    | None => []
    end
  else [].

Definition year_part (u : string) : list string :=
  if Py.contains "year=" u then
    match Re.group1 (Re.lit "year=") [Re.Many 1 None digit_or_dash] [] u with
    | Some range => ["שנה " +:+ range]
    | None => []
    end
  else [].

(** [Yad2MultiMonitor.generate_name_from_url]. *)
Definition generate_name_from_url (u : string) : string :=
  let name_parts := manufacturer_part u ++ price_part u ++ year_part u in
  match name_parts with
  | [] => default_name
  | _ => Py.join " " name_parts
  end.

(** Lines 40-58: one entry of the configuration string. *)
Definition parse_entry (entry : string) : option url_config :=
  let entry := Py.strip entry in
  if negb (Py.truthy entry) then None
  else if Py.has_char "|" entry then
    let '(n, u) := Py.split_first "|" entry in
    Some {| name := Py.strip n; url := Py.strip u |}
  else
    Some {| name := generate_name_from_url entry; url := entry |}.

(** [Yad2MultiMonitor.parse_urls]. *)
Definition parse_urls (urls_string : string) : list url_config :=
  omap parse_entry (Py.split_on ";" (Py.replace_char "010" ";" urls_string)).

(** The textual form [NAME|URL;NAME|URL] of a list of searches. *)
Definition format_entry (c : url_config) : string := name c +:+ "|" +:+ url c.
Definition format_urls (cs : list url_config) : string :=
  Py.join ";" (map format_entry cs).

(** A search that the textual form can carry: no separator inside the
    name or the URL, no bar inside the name, no white space around
    either.  (A text starts with a character, not inside one.) *)
Definition plain (s : string) : Prop :=
  Py.has_char ";" s = false /\ Py.has_char "010" s = false
  /\ Py.starts_with_continuation s = false
  /\ Py.strip s = s.

Definition well_formed (c : url_config) : Prop :=
  plain (name c) /\ plain (url c) /\ Py.has_char "|" (name c) = false.

(** Lines 178-183 of [get_total_for_url]: the total that the text of the
    counter element yields ([None]: no element was found).  When [int]
    raises, the handler of the method returns [None]. *)
Definition total_of_text (total_text : option string) : option Z :=
  match total_text with
  | Some t =>
      if Py.truthy t then
        match Py.first_number t with
        | Some number => Py.int number
        | None => None
        end
      else None
  | None => None
  end.

End Yad2.

(** ** smart_autodeal_monitor.py: the single-model monitor *)

Module AutoDeal.

(** An element as the browser driver shows it: its tag, its attributes and
    its rendered text ([element.text]).  A page is the list of its elements
    in document order. *)
Record element : Type := Element {
  e_tag : string;
  e_attrs : Css.attrs;
  e_text : string
}.

Definition page : Type := list element.

(** [driver.find_elements(By.CSS_SELECTOR, selector)]. *)
Definition find_elements_css (s : Css.selector) (p : page) : list element :=
  filter (fun e => Css.matches s (e_tag e) (e_attrs e)) p.

(** [driver.find_elements(By.TAG_NAME, tag)]. *)
Definition find_elements_tag (tag : string) (p : page) : list element :=
  filter (fun e => String.eqb (e_tag e) tag) p.

Definition found_marker : string := "נמצאו".
Definition km_marker : string := "ק״מ".
Definition shekel : string := "₪".
Definition default_target_model : string := "פאביה".

Definition models : list string :=
  [ "פאביה"; "אוקטביה"; "קודיאק"; "סופרב"; "קמיק"; "סקאלה"; "אניאק" ].

Definition listing_selectors : list Css.selector :=
  [ Css.Selector (Some "div") [Css.HasClass "sc-kGhOqx"; Css.HasClass "jdfRse"];
    Css.tag_attr_contains "div" "class" "sc-kGhOqx";
    Css.Selector (Some "div") [Css.AttrEquals "junction" "true"; Css.AttrEquals "depth" "2"];
    Css.tag_attr_contains "article" "class" "car";
    Css.tag_attr_contains "div" "class" "product-card" ].

(** The bound on the containers looked at (line 131). *)
Definition max_elements : nat := 50.

(** The bound on the history (lines 229-230). *)
Definition history_bound : nat := 100.

(** The loop of [get_total_count]: the first number of the first heading
    that has the marker, a digit and a number.  When [int] raises, the
    handler of the method returns [None]. *)
Fixpoint total_of_headings (h1_elements : list element) : option Z :=
  match h1_elements with
  | [] => None
  | h1 :: rest =>
      let text := Py.strip (e_text h1) in
      if Py.contains found_marker text && existsb Py.isdigit (Py.chars text) then
        match Py.first_number text with
        | Some number => Py.int number
        | None => total_of_headings rest
        end
      else total_of_headings rest
  end.

(** [get_total_count]. *)
Definition get_total_count (p : page) : option Z :=
  total_of_headings (find_elements_tag "h1" p).

(** The [car_info] dictionary. *)
Record car_info : Type := CarInfo {
  full_text : string;
  model : option string;
  price : option string;
  year : option string;
  km : option string;
  is_fabia : bool;
  id : string
}.

Definition digit_or_comma (c : string) : bool := Py.is_decimal c || Re.one_of "," c.

(** The composite key of line 164. *)
Definition identity (model year price : option string) : string :=
  Py.fmt_opt model +:+ "_" +:+ Py.fmt_opt year +:+ "_" +:+ Py.fmt_opt price.

(** Lines 133-165: one container; [None] when it is skipped. *)
Definition extract_listing (target_model : string) (e : element) : option car_info :=
  let listing_text := Py.strip (e_text e) in
  if negb (Py.truthy listing_text) || (Py.len listing_text <? 10)%nat then None
  else
    let model := head (filter (fun m => Py.contains m listing_text) models) in
    let price := Re.group1 (Re.lit shekel) [Re.Many 1 None digit_or_comma] [] listing_text in
    let year := Re.group0 [] (Re.lit "20" ++ [Re.Many 2 (Some 2) Py.is_decimal]) [] listing_text in
    let km :=
      Re.group1 [] [Re.Many 1 None digit_or_comma]
                (Re.Many 0 None Py.is_space :: Re.lit km_marker) listing_text in
    Some {| full_text := Py.str_take 500 listing_text;
            model := model;
            price := price;
            year := year;
            km := km;
            is_fabia := Py.contains target_model listing_text;
            id := identity model year price |}.

(** Lines 124-129: the scan over every [div] when no selector matched. *)
Definition generic_elements (p : page) : list element :=
  filter (fun div =>
            let text := Py.strip (e_text div) in
            Py.truthy text
            && (Py.contains km_marker text || Py.contains shekel text)
            && (Py.len text <? 500)%nat)
         (find_elements_tag "div" p).

(** Lines 118-129: the candidate containers of a page. *)
Definition elements_of (p : page) : list element :=
  match first_nonempty (map (fun s => find_elements_css s p) listing_selectors) with
  | [] => generic_elements p
  | es => es
  end.

(** The containers the loop of line 131 looks at. *)
Definition inspected (p : page) : list element := take max_elements (elements_of p).

(** [extract_car_listings]. *)
Definition extract_car_listings (target_model : string) (p : page) : list car_info :=
  omap (extract_listing target_model) (inspected p).

(** One entry of [history]. *)
Record history_entry : Type := HistoryEntry {
  timestamp : string;
  total : option Z;
  fabias : nat
}.

(** [self.data]. *)
Record data : Type := Data {
  last_total : option Z;
  last_fabia_count : nat;
  last_fabia_ids : list string;
  last_check : option string;
  history : list history_entry
}.

(** [load_data]: the stored document, or the default when there is none. *)
Definition load_data (stored : option data) : data :=
  match stored with
  | Some d => d
  | None =>
      {| last_total := Some 0%Z;
         last_fabia_count := 0;
         last_fabia_ids := [];
         last_check := None;
         history := [] |}
  end.

Inductive message : Type :=
| MonitoringStarted (fabia_count : nat)
| NewListings (new_fabias : list car_info)     (* format_notification *)
| ErrorMessage.

Inductive event : Type :=
| Send (m : message)
| Save (d : data).

(** Lines 224-230: append, then keep the last 100. *)
Definition push_history (h : list history_entry) (e : history_entry)
  : list history_entry :=
  let h := h ++ [e] in
  if (history_bound <? length h)%nat then Py.last_n history_bound h else h.

(** What one run is given: the loaded page ([None] when starting the driver
    or loading the page raised) and the clock. *)
Record run_input : Type := RunInput {
  loaded : option page;
  now : string
}.

(** The listings of the target model (line 193). *)
Definition fabia_listings (target_model : string) (p : page) : list car_info :=
  filter (fun l => is_fabia l || bool_decide (model l = Some target_model))
         (extract_car_listings target_model p).

(** The history entry a completed run appends. *)
Definition entry_of (target_model : string) (p : page) (now : string) : history_entry :=
  {| timestamp := now;
     total := get_total_count p;
     fabias := length (fabia_listings target_model p) |}.

(** [SmartAutoDealMonitor.run]. *)
Definition run (target_model : string) (i : run_input) (d : data)
  : data * list event :=
  match loaded i with
  | None => (d, [Send ErrorMessage])
  | Some p =>
      let total_count := get_total_count p in
      let fabia_listings := fabia_listings target_model p in
      let fabia_count := length fabia_listings in
      let current_fabia_ids := map id fabia_listings in
      let previous_fabia_ids := last_fabia_ids d in
      let new_ids : gset string :=
        list_to_set current_fabia_ids ∖ list_to_set previous_fabia_ids in
      let sent :=
        if (last_fabia_count d =? 0)%nat && (length (history d) =? 0)%nat then
          [Send (MonitoringStarted fabia_count)]
        else if bool_decide (new_ids ≠ ∅) then
          [Send (NewListings
                   (filter (fun f => bool_decide (id f ∈ new_ids)) fabia_listings))]
        else [] in
      let d' :=
        {| last_total := total_count;
           last_fabia_count := fabia_count;
           last_fabia_ids := current_fabia_ids;
           last_check := Some (now i);
           history := push_history (history d) (entry_of target_model p (now i)) |} in
      (d', sent ++ [Save d'])
  end.

(** Successive runs, each starting from the store the previous one left. *)
Definition runs (target_model : string) (inputs : list run_input) (d : data) : data :=
  fold_left (fun d i => fst (run target_model i d)) inputs d.

(** The history entries that the completed runs among [inputs] append. *)
Definition appended (target_model : string) (inputs : list run_input)
  : list history_entry :=
  omap (fun i => (fun p => entry_of target_model p (now i)) <$> loaded i) inputs.

Definition is_new_listings (e : event) : bool :=
  match e with Send (NewListings _) => true | _ => false end.

End AutoDeal.

(** ** Concrete inputs used below *)

Module Examples.

(** Two searches whose URLs differ only after their first 100 characters. *)
Definition one_hand : Yad2.url_config :=
  {| Yad2.name := "one hand";
     Yad2.url := "https://www.yad2.co.il/vehicles/cars?manufacturer=40&price=20000-60000&year=2015-2022&km=0-120000&hand=0-1" |}.
Definition two_hands : Yad2.url_config :=
  {| Yad2.name := "two hands";
     Yad2.url := "https://www.yad2.co.il/vehicles/cars?manufacturer=40&price=20000-60000&year=2015-2022&km=0-120000&hand=0-2" |}.

(** A page with one listing that the selector [div[class*="car-item"]]
    finds, and a page of 51 containers that only the generic scan finds.
    Neither page has a link, so [urljoin] is not called; where a run
    needs to be told when that call raises, it is told that the call
    returns. *)
Definition scraper_url : string := "https://cars.example/search".

Definition urljoin_returns : string -> string -> bool := fun _ _ => false.

Definition fabia_listing : CarScraper.node :=
  CarScraper.Tag "div" [("class", "car-item")]
    [ CarScraper.Tag "h2" [] [CarScraper.Text "Skoda Fabia"];
      CarScraper.Tag "span" [("class", "price")] [CarScraper.Text "45,000"];
      CarScraper.Text " 2019, 60,000 km " ].

Definition one_car_page : CarScraper.node :=
  CarScraper.Tag "[document]" [] [CarScraper.Tag "body" [] [fabia_listing]].

Definition crowded_page : CarScraper.node :=
  CarScraper.Tag "[document]" []
    [CarScraper.Tag "body" []
       (replicate 51 (CarScraper.Tag "div" [("class", "car")]
                        [CarScraper.Text "Skoda Octavia 2020"]))].

(** A results page of the single-model monitor with two listings of the
    target model and no heading that carries a total, the same page with a
    third listing, and a store left by an earlier run that saw all three. *)
Definition fabia_2019 : AutoDeal.element :=
  {| AutoDeal.e_tag := "div"; AutoDeal.e_attrs := [("class", "product-card")];
     AutoDeal.e_text := "סקודה פאביה 2019 ₪45,000 30,000 ק״מ" |}.
Definition fabia_2021 : AutoDeal.element :=
  {| AutoDeal.e_tag := "div"; AutoDeal.e_attrs := [("class", "product-card")];
     AutoDeal.e_text := "סקודה פאביה 2021 ₪72,000 10,000 ק״מ" |}.
Definition fabia_2017 : AutoDeal.element :=
  {| AutoDeal.e_tag := "div"; AutoDeal.e_attrs := [("class", "product-card")];
     AutoDeal.e_text := "סקודה פאביה 2017 ₪38,000 95,000 ק״מ" |}.

(** A results page of 60 containers that no selector finds. *)
Definition crowded_results : AutoDeal.page :=
  replicate 60 {| AutoDeal.e_tag := "div"; AutoDeal.e_attrs := [];
                  AutoDeal.e_text := "סקודה קמיק 2022 ₪99,000" |}.

Definition two_fabias : AutoDeal.page := [fabia_2019; fabia_2021].
Definition three_fabias : AutoDeal.page := [fabia_2019; fabia_2021; fabia_2017].

Definition autodeal_store : AutoDeal.data :=
  {| AutoDeal.last_total := Some 37%Z;
     AutoDeal.last_fabia_count := 3;
     AutoDeal.last_fabia_ids :=
       ["פאביה_2019_45,000"; "פאביה_2021_72,000"; "פאביה_2017_38,000"];
     AutoDeal.last_check := Some "t0";
     AutoDeal.history :=
       [{| AutoDeal.timestamp := "t0"; AutoDeal.total := Some 37%Z;
           AutoDeal.fabias := 3 |}] |}.

(** The example listing again, in other markup and with the same text. *)
Definition fabia_listing_restyled : CarScraper.node :=
  CarScraper.Tag "li" [("class", "listing"); ("data-id", "17")]
    [ CarScraper.Text "Skoda Fabia";
      CarScraper.Tag "b" [] [CarScraper.Text "  45,000  "];
      CarScraper.Tag "p" [] [CarScraper.Text "2019, 60,000 km"] ].

Definition fabia_2019_restyled : AutoDeal.element :=
  {| AutoDeal.e_tag := "article"; AutoDeal.e_attrs := [("class", "car")];
     AutoDeal.e_text := AutoDeal.e_text fabia_2019 |}.

(** A run of the multi-URL monitor over the two example searches. *)
Definition yad2_two_searches : Yad2.run_input :=
  {| Yad2.driver_ok := true;
     Yad2.targets :=
       [ (one_hand, {| Yad2.fetched := Some 40%Z; Yad2.now := "t1" |});
         (two_hands, {| Yad2.fetched := Some 43%Z; Yad2.now := "t2" |}) ];
     Yad2.saved_at := "t3" |}.

End Examples.

(** * Properties *)

#[local] Open Scope nat_scope.
#[local] Set Warnings "-clear-no-such-hyp".

(** ** The embedding on known inputs *)

(** The test suite of RFC 1321. *)
Example md5_of_empty : Md5.hexdigest "" = "d41d8cd98f00b204e9800998ecf8427e".
Proof. vm_compute; reflexivity. Qed.

Example md5_of_abc : Md5.hexdigest "abc" = "900150983cd24fb0d6963f7d28e17f72".
Proof. vm_compute; reflexivity. Qed.

Example md5_of_alphabet :
  Md5.hexdigest "abcdefghijklmnopqrstuvwxyz" = "c3fcd3d76192e4007dfb496cca67e13b".
Proof. vm_compute; reflexivity. Qed.

Example md5_of_two_blocks :
  Md5.hexdigest
    "12345678901234567890123456789012345678901234567890123456789012345678901234567890"
  = "57edf4a22be3c955ac49da2e2107b67a".
Proof. vm_compute; reflexivity. Qed.

(** The mileage pattern backtracks as [re] does: the leftmost match wins,
    and the digits in front of it are not part of it. *)
Example mileage_of_text :
  Re.group0 [] CarScraper.km_group CarScraper.km_tail "Skoda 2019 1450000km"
  = Some "450000km".
Proof. vm_compute; reflexivity. Qed.

(** Slices count characters: the sign is one of them. *)
Example slice_counts_characters :
  Py.len "מחיר ₪45,000" = 12 ∧ Py.str_take 6 "מחיר ₪45,000" = "מחיר ₪".
Proof. split; vm_compute; reflexivity. Qed.

(** The example listing of the scraper, extracted. *)
Example fabia_listing_extracted :
  CarScraper.extract_car_data Examples.scraper_url Examples.fabia_listing
  = {| CarScraper.id := Md5.hexdigest "Skoda Fabia45,0002019, 60,000 km";
       CarScraper.raw_text := "Skoda Fabia45,0002019, 60,000 km";
       CarScraper.title := Some "Skoda Fabia";
       CarScraper.price := Some "45,000";
       CarScraper.link := None;
       CarScraper.year := Some "2019";
       CarScraper.mileage := Some "60,000 km" |}.
Proof. vm_compute; reflexivity. Qed.

(** The example listing of the single-model monitor, extracted. *)
Example fabia_2019_extracted :
  AutoDeal.extract_listing AutoDeal.default_target_model Examples.fabia_2019
  = Some {| AutoDeal.full_text := "סקודה פאביה 2019 ₪45,000 30,000 ק״מ";
            AutoDeal.model := Some "פאביה";
            AutoDeal.price := Some "45,000";
            AutoDeal.year := Some "2019";
            AutoDeal.km := Some "30,000";
            AutoDeal.is_fabia := true;
            AutoDeal.id := "פאביה_2019_45,000" |}.
Proof. vm_compute; reflexivity. Qed.

(** ** Filters over traces *)

Section Filters.
Context {A B : Type}.

Lemma filter_fmap_none (P : B → bool) (f : A → B) (l : list A) :
  (∀ x, P (f x) = false) → filter (λ y, P y) (f <$> l) = [].
Proof.
  intros H. induction l as [|x l IH]; [done|]. cbn [fmap list_fmap].
  rewrite filter_cons_False; [exact IH|]. rewrite H. by intros [].
Qed.

Lemma filter_fmap_all (P : B → bool) (f : A → B) (l : list A) :
  (∀ x, P (f x) = true) → filter (λ y, P y) (f <$> l) = f <$> l.
Proof.
  intros H. induction l as [|x l IH]; [done|]. cbn [fmap list_fmap].
  rewrite filter_cons_True; [by f_equal|]. by rewrite H.
Qed.

End Filters.

(** ** Slices and bounded histories *)

Section Slices.
Context {A : Type}.
Implicit Types (l : list A) (n : nat).

Lemma last_n_length n l : length (Py.last_n n l) = min n (length l).
Proof. unfold Py.last_n. rewrite length_drop. lia. Qed.

Lemma last_n_all n l : length l ≤ n → Py.last_n n l = l.
Proof.
  intros H. unfold Py.last_n.
  replace (length l - n) with 0 by lia. reflexivity.
Qed.

(** Trimming twice is trimming once: what was evicted stays evicted, and
    the order of what is kept does not change. *)
Lemma last_n_app n l x : Py.last_n n (Py.last_n n l ++ x) = Py.last_n n (l ++ x).
Proof.
  destruct (decide (length l ≤ n)) as [Hle|Hgt].
  - by rewrite (last_n_all n l).
  - unfold Py.last_n at 1 3.
    rewrite !length_app, last_n_length.
    unfold Py.last_n.
    rewrite <- (drop_app_le l x (length l - n)) by lia.
    rewrite drop_drop. f_equal. lia.
Qed.

Lemma last_n_suffix n l : Py.last_n n l `suffix_of` l.
Proof. apply suffix_drop. Qed.

Lemma last_n_map {B} (f : A → B) n l : f <$> Py.last_n n l = Py.last_n n (f <$> l).
Proof. unfold Py.last_n. by rewrite fmap_drop, length_fmap. Qed.

End Slices.

(** ** The multi-URL monitor *)

Section Yad2Properties.
Import Yad2.
#[local] Open Scope Z_scope.

Implicit Types (st : loop_state) (t : url_config * probe) (d : data).

Lemma yad2_push_history_last_n h e :
  push_history h e = Py.last_n history_bound (h ++ [e]).
Proof.
  unfold push_history. destruct (Nat.ltb_spec history_bound (length (h ++ [e]))).
  - reflexivity.
  - by rewrite last_n_all.
Qed.

Lemma yad2_push_history_last h e : last (push_history h e) = Some e.
Proof.
  rewrite yad2_push_history_last_n.
  destruct (last_n_suffix history_bound (h ++ [e])) as [k Hk].
  assert (Hlen : length (Py.last_n history_bound (h ++ [e])) ≠ 0%nat).
  { rewrite last_n_length, length_app. unfold history_bound. cbn [length]. lia. }
  destruct (Py.last_n history_bound (h ++ [e])) as [|x l'] using rev_ind; [done|].
  rewrite app_assoc in Hk. apply app_inj_tail in Hk as [_ ->].
  apply last_snoc.
Qed.

(** Checking a URL only touches the slot of that URL. *)
Lemma yad2_check_url_other st t k :
  search_key (url t.1) ≠ k →
  st_searches (check_url st t) !! k = st_searches st !! k.
Proof.
  intros Hk. destruct t as [cfg w]. unfold check_url. simpl in *.
  destruct (fetched w); [|done].
  destruct (st_searches st !! search_key (url cfg)); [case_bool_decide|]; simpl;
    by rewrite ?lookup_insert_ne.
Qed.

Lemma yad2_check_all_other (ts : list (url_config * probe)) st k :
  (∀ t, t ∈ ts → search_key (url t.1) ≠ k) →
  st_searches (fold_left check_url ts st) !! k = st_searches st !! k.
Proof.
  revert st. induction ts as [|t ts IH]; intros st Hts; [done|]. simpl.
  rewrite IH by (intros; apply Hts; by right).
  apply yad2_check_url_other, Hts. by left.
Qed.

(** The loop fetches every URL, in order, and does nothing else to the
    outside world. *)
Lemma yad2_check_url_trace st t :
  trace (check_url st t) = trace st ++ [Fetch (url t.1)].
Proof.
  destruct t as [cfg w]. unfold check_url. simpl.
  destruct (fetched w); [|done].
  by destruct (st_searches st !! search_key (url cfg)); [case_bool_decide|].
Qed.

Lemma yad2_fold_trace (ts : list (url_config * probe)) st :
  trace (fold_left check_url ts st) = trace st ++ map (λ t, Fetch (url t.1)) ts.
Proof.
  revert st. induction ts as [|t ts IH]; intros st; simpl.
  - by rewrite app_nil_r.
  - by rewrite IH, yad2_check_url_trace, <- app_assoc.
Qed.

(** The three result lists of the loop only grow. *)
Lemma yad2_check_url_grows st t :
  all_changes st `prefix_of` all_changes (check_url st t)
  ∧ first_run_searches st `prefix_of` first_run_searches (check_url st t)
  ∧ errors st `prefix_of` errors (check_url st t).
Proof.
  destruct t as [cfg w]. unfold check_url. simpl.
  destruct (fetched w); simpl.
  - destruct (st_searches st !! search_key (url cfg)); [case_bool_decide|]; simpl;
      repeat split; try done; by apply prefix_app_r.
  - repeat split; try done. by apply prefix_app_r.
Qed.

Lemma yad2_fold_grows (ts : list (url_config * probe)) st :
  all_changes st `prefix_of` all_changes (fold_left check_url ts st)
  ∧ first_run_searches st `prefix_of` first_run_searches (fold_left check_url ts st)
  ∧ errors st `prefix_of` errors (fold_left check_url ts st).
Proof.
  revert st. induction ts as [|t ts IH]; intros st; simpl; [done|].
  destruct (IH (check_url st t)) as (H1 & H2 & H3).
  destruct (yad2_check_url_grows st t) as (G1 & G2 & G3).
  repeat split; by etrans.
Qed.

(** A non-empty list of changes is sent, whole, as one message; so is a
    non-empty list of errors. *)
Lemma yad2_changes_notified n st :
  all_changes st ≠ [] →
  ∃ total_new total_removed,
    Changes total_new total_removed (all_changes st) ∈ notifications n st.
Proof.
  intros Hne. unfold notifications.
  destruct (all_changes st) as [|c cs] eqn:E; [done|].
  eexists _, _. rewrite !elem_of_app. right. left.
  cbn [format_changes_message]. constructor.
Qed.

Lemma yad2_errors_notified n st :
  errors st ≠ [] → FetchErrors (errors st) ∈ notifications n st.
Proof.
  intros Hne. unfold notifications.
  destruct (errors st) as [|c cs] eqn:E; [done|].
  rewrite !elem_of_app. right. right. left. constructor.
Qed.

(** *** The four outcomes of checking one URL *)

Lemma yad2_check_url_error st (cfg : url_config) (w : probe) :
  fetched w = None →
  check_url st (cfg, w) =
    {| st_searches := st_searches st;
       all_changes := all_changes st;
       first_run_searches := first_run_searches st;
       errors := errors st ++ [name cfg];
       trace := trace st ++ [Fetch (url cfg)] |}.
Proof. intros Hw. unfold check_url. cbn [fst snd]. by rewrite Hw. Qed.

Lemma yad2_check_url_first_run st (cfg : url_config) (w : probe) (current_total : Z) :
  fetched w = Some current_total →
  st_searches st !! search_key (url cfg) = None →
  check_url st (cfg, w) =
    {| st_searches :=
         <[search_key (url cfg) :=
             {| s_name := name cfg; s_url := url cfg;
                last_total := current_total; history := [] |}]> (st_searches st);
       all_changes := all_changes st;
       first_run_searches :=
         first_run_searches st
         ++ [{| f_name := name cfg; f_total := current_total; f_url := url cfg |}];
       errors := errors st;
       trace := trace st ++ [Fetch (url cfg)] |}.
Proof. intros Hw Hs. unfold check_url. cbn [fst snd]. by rewrite Hw, Hs. Qed.

Lemma yad2_check_url_changed st (cfg : url_config) (w : probe)
    (current_total : Z) (s : search) :
  fetched w = Some current_total →
  st_searches st !! search_key (url cfg) = Some s →
  current_total - last_total s ≠ 0 →
  check_url st (cfg, w) =
    {| st_searches :=
         <[search_key (url cfg) :=
             {| s_name := s_name s; s_url := s_url s;
                last_total := current_total;
                history :=
                  push_history (history s)
                    {| h_time := now w; h_total := current_total;
                       h_change := current_total - last_total s |} |}]>
           (st_searches st);
       all_changes :=
         all_changes st
         ++ [{| c_name := name cfg; c_url := url cfg; c_previous := last_total s;
                c_current := current_total;
                c_diff := current_total - last_total s |}];
       first_run_searches := first_run_searches st;
       errors := errors st;
       trace := trace st ++ [Fetch (url cfg)] |}.
Proof.
  intros Hw Hs Hd. unfold check_url. cbn [fst snd]. rewrite Hw, Hs.
  by rewrite bool_decide_eq_true_2.
Qed.

Lemma yad2_check_url_unchanged st (cfg : url_config) (w : probe)
    (current_total : Z) (s : search) :
  fetched w = Some current_total →
  st_searches st !! search_key (url cfg) = Some s →
  current_total - last_total s = 0 →
  check_url st (cfg, w) =
    {| st_searches := st_searches st;
       all_changes := all_changes st;
       first_run_searches := first_run_searches st;
       errors := errors st;
       trace := trace st ++ [Fetch (url cfg)] |}.
Proof.
  intros Hw Hs Hd. unfold check_url. cbn [fst snd]. rewrite Hw, Hs.
  rewrite bool_decide_eq_false_2; [done|]. by intros [].
Qed.

(** *** Diff of a target that has a slot *)

(** C5. Counter-based mode, target with a prior snapshot entry and a total
    that was fetched: the delta is [current_total - last_total].  A non-zero
    delta stores [current_total] as the new [last_total], appends one
    history entry with the new total and the delta (it is the last entry of
    the history, and nothing is evicted below the bound), and appends the
    change to [all_changes], which the run sends as its change message
    however the loop goes on.  A zero delta leaves the store and the list
    of changes as they were.  In both cases the target is neither
    initialized nor errored. *)
Theorem yad2_diff_of_known_target st (cfg : url_config) (w : probe)
    (current_total : Z) (s : search) :
  fetched w = Some current_total →
  st_searches st !! search_key (url cfg) = Some s →
  let st' := check_url st (cfg, w) in
  let diff := current_total - last_total s in
  let entry := {| h_time := now w; h_total := current_total; h_change := diff |} in
  let reported :=
    {| c_name := name cfg; c_url := url cfg; c_previous := last_total s;
       c_current := current_total; c_diff := diff |} in
  first_run_searches st' = first_run_searches st
  ∧ errors st' = errors st
  ∧ (diff ≠ 0 →
       (∃ s', st_searches st' !! search_key (url cfg) = Some s'
              ∧ last_total s' = current_total
              ∧ history s' = push_history (history s) entry
              ∧ last (history s') = Some entry
              ∧ ((length (history s) < history_bound)%nat →
                 history s' = history s ++ [entry]))
       ∧ all_changes st' = all_changes st ++ [reported]
       ∧ ∀ (rest : list (url_config * probe)) (n : nat),
           let final := fold_left check_url rest st' in
           reported ∈ all_changes final
           ∧ ∃ total_new total_removed,
               Changes total_new total_removed (all_changes final)
                 ∈ notifications n final)
  ∧ (diff = 0 →
       st_searches st' = st_searches st ∧ all_changes st' = all_changes st).
Proof.
  intros Hw Hs st' diff entry reported.
  destruct (decide (diff = 0)) as [Hd|Hd].
  - subst st'. rewrite (yad2_check_url_unchanged st cfg w current_total s) by done.
    cbn [first_run_searches errors st_searches all_changes]. by repeat split.
  - assert (Hall : all_changes st' = all_changes st ++ [reported]).
    { subst st'. by rewrite (yad2_check_url_changed st cfg w current_total s). }
    split; [|split; [|split; [|done]]].
    { subst st'. by rewrite (yad2_check_url_changed st cfg w current_total s). }
    { subst st'. by rewrite (yad2_check_url_changed st cfg w current_total s). }
    intros _. split; [|split; [done|]].
    + subst st'. rewrite (yad2_check_url_changed st cfg w current_total s) by done.
      cbn [st_searches]. eexists. rewrite lookup_insert_eq. split; [done|].
      cbn [last_total history]. split; [done|]. split; [done|]. split.
      * apply yad2_push_history_last.
      * intros Hlen. rewrite yad2_push_history_last_n.
        apply last_n_all. rewrite length_app. cbn [length]. lia.
    + intros rest n final.
      destruct (yad2_fold_grows rest st') as ([k Hk] & _ & _).
      fold final in Hk.
      assert (Hin : reported ∈ all_changes final).
      { rewrite Hk, Hall, !elem_of_app. left. right. constructor. }
      split; [done|]. apply yad2_changes_notified.
      intros Hnil. rewrite Hnil in Hin. by apply elem_of_nil in Hin.
Qed.

(** The theorem at a slot with total 120 and a fetched total of 125. *)
Lemma yad2_diff_of_known_target_witness :
  let cfg := {| name := "Mazda"; url := "https://www.yad2.co.il/vehicles/cars?manufacturer=40" |} in
  let s := {| s_name := "Mazda"; s_url := url cfg; last_total := 120; history := [] |} in
  let st := initial_state {| searches := {[ search_key (url cfg) := s ]}; last_check := None |} in
  all_changes (check_url st (cfg, {| fetched := Some 125; now := "t1" |}))
  = [ {| c_name := "Mazda"; c_url := url cfg; c_previous := 120;
         c_current := 125; c_diff := 5 |} ].
Proof.
  intros cfg s st.
  destruct (yad2_diff_of_known_target st cfg {| fetched := Some 125; now := "t1" |}
              125 s eq_refl) as (_ & _ & Hchange & _).
  - apply lookup_singleton_eq.
  - destruct Hchange as (_ & Hall & _); [done|]. exact Hall.
Defined.

(** *** A fetch that yields no total *)

Lemma yad2_run_ok (i : run_input) d :
  driver_ok i = true →
  let st := check_all d (targets i) in
  fst (run i d) = {| searches := st_searches st; last_check := Some (saved_at i) |}
  ∧ st_searches (snd (run i d)) = st_searches st
  ∧ all_changes (snd (run i d)) = all_changes st
  ∧ first_run_searches (snd (run i d)) = first_run_searches st
  ∧ errors (snd (run i d)) = errors st
  ∧ trace (snd (run i d)) =
      map (λ t, Fetch (url t.1)) (targets i)
      ++ [Save (fst (run i d))]
      ++ map Send (notifications (length (targets i)) st).
Proof.
  intros Hok st. unfold run. rewrite Hok. cbn [fst snd].
  repeat split; try reflexivity.
  cbn [trace]. fold st. unfold st at 1, check_all.
  by rewrite yad2_fold_trace.
Qed.

(** C2 (amended). In the multi-URL monitor, when the fetched total of a
    target is null, processing that target leaves the whole store, the list
    of changes and the list of initialized searches as they were and adds
    the target's name to the errors; the run sends the error message with
    that name; and the loop goes on with the remaining targets, each of
    which is fetched. *)
Theorem yad2_null_total_is_isolated (i : run_input) d
    (pre post : list (url_config * probe)) (cfg : url_config) (w : probe) :
  driver_ok i = true →
  targets i = pre ++ (cfg, w) :: post →
  fetched w = None →
  let before := check_all d pre in
  let after := check_url before (cfg, w) in
  let final := snd (run i d) in
  st_searches after = st_searches before
  ∧ all_changes after = all_changes before
  ∧ first_run_searches after = first_run_searches before
  ∧ errors after = errors before ++ [name cfg]
  ∧ name cfg ∈ errors final
  ∧ Send (FetchErrors (errors final)) ∈ trace final
  ∧ check_all d (targets i) = fold_left check_url post after
  ∧ ∀ t, t ∈ post → Fetch (url t.1) ∈ trace final.
Proof.
  intros Hok Hts Hw before after final.
  assert (Hafter : after = {| st_searches := st_searches before;
                              all_changes := all_changes before;
                              first_run_searches := first_run_searches before;
                              errors := errors before ++ [name cfg];
                              trace := trace before ++ [Fetch (url cfg)] |}).
  { subst after. by apply yad2_check_url_error. }
  assert (Hloop : check_all d (targets i) = fold_left check_url post after).
  { unfold check_all. rewrite Hts, fold_left_app. reflexivity. }
  destruct (yad2_run_ok i d Hok) as (_ & _ & _ & _ & Herr & Htr).
  fold final in Herr, Htr.
  assert (Hin : name cfg ∈ errors final).
  { rewrite Herr, Hloop.
    destruct (yad2_fold_grows post after) as (_ & _ & [k Hk]).
    rewrite Hk, Hafter. cbn [errors]. rewrite !elem_of_app. left. right. constructor. }
  rewrite Hafter at 1 2 3 4. cbn [st_searches all_changes first_run_searches errors].
  repeat split; try done.
  - rewrite Htr, !elem_of_app. right. right.
    apply list_elem_of_fmap. eexists. split; [reflexivity|].
    rewrite Herr. apply yad2_errors_notified. rewrite <- Herr.
    intros Hnil. rewrite Hnil in Hin. by apply elem_of_nil in Hin.
  - intros t Ht. rewrite Htr, Hts, !elem_of_app. left.
    apply list_elem_of_fmap. exists t. split; [done|].
    rewrite elem_of_app. right. by right.
Qed.

(** The theorem at a run over two URLs, the first of which yields no total. *)
Lemma yad2_null_total_is_isolated_witness :
  let a := {| name := "A"; url := "https://www.yad2.co.il/vehicles/cars?manufacturer=40" |} in
  let b := {| name := "B"; url := "https://www.yad2.co.il/vehicles/cars?manufacturer=21" |} in
  let i := {| driver_ok := true;
              targets := [(a, {| fetched := None; now := "t1" |});
                          (b, {| fetched := Some 12%Z; now := "t2" |})];
              saved_at := "t3" |} in
  errors (snd (run i (load_data None))) = ["A"]
  ∧ Send (FetchErrors ["A"]) ∈ trace (snd (run i (load_data None))).
Proof.
  intros a b i.
  destruct (yad2_null_total_is_isolated i (load_data None) []
              [(b, {| fetched := Some 12%Z; now := "t2" |})]
              a {| fetched := None; now := "t1" |} eq_refl eq_refl eq_refl)
    as (_ & _ & _ & _ & _ & Hsent & _).
  split; [reflexivity|]. exact Hsent.
Defined.

(** *** Two URLs with one slot *)

(** Once a URL was checked with a total, its slot holds that total. *)
Lemma yad2_slot_after_check st (cfg : url_config) (w : probe) (c : Z) :
  fetched w = Some c →
  ∃ s, st_searches (check_url st (cfg, w)) !! search_key (url cfg) = Some s
       ∧ last_total s = c.
Proof.
  intros Hw. destruct (st_searches st !! search_key (url cfg)) as [s|] eqn:Hs.
  - destruct (decide (c - last_total s = 0)) as [Hd|Hd].
    + rewrite (yad2_check_url_unchanged st cfg w c s) by done.
      exists s. split; [done|]. lia.
    + rewrite (yad2_check_url_changed st cfg w c s) by done.
      eexists. cbn [st_searches]. by rewrite lookup_insert_eq.
  - rewrite (yad2_check_url_first_run st cfg w c) by done.
    eexists. cbn [st_searches]. by rewrite lookup_insert_eq.
Qed.

(** C9 (amended). The slot key of a target is the first 100 characters of
    its URL, so two URLs that agree on them have the same key.  When the
    first of two such targets was checked with a non-null total [c1] (and
    the targets checked in between have other keys), the slot then holds
    [c1]; the second target is not classified as first-run; it is diffed
    against [c1] (a change from [c1] to [c2], of [c2 - c1], is reported when
    they differ, nothing when they are equal), and it writes its total into
    the same slot. *)
Theorem yad2_shared_slot st (cfg1 cfg2 : url_config) (w1 w2 : probe) (c1 c2 : Z)
    (mid : list (url_config * probe)) :
  Py.str_take 100 (url cfg1) = Py.str_take 100 (url cfg2) →
  fetched w1 = Some c1 →
  fetched w2 = Some c2 →
  (∀ t, t ∈ mid → search_key (url t.1) ≠ search_key (url cfg1)) →
  let st1 := fold_left check_url mid (check_url st (cfg1, w1)) in
  let st2 := check_url st1 (cfg2, w2) in
  search_key (url cfg1) = search_key (url cfg2)
  ∧ (∃ s, st_searches st1 !! search_key (url cfg2) = Some s ∧ last_total s = c1)
  ∧ first_run_searches st2 = first_run_searches st1
  ∧ (c2 ≠ c1 →
       all_changes st2 =
         all_changes st1
         ++ [{| c_name := name cfg2; c_url := url cfg2; c_previous := c1;
                c_current := c2; c_diff := c2 - c1 |}]
       ∧ ∃ s', st_searches st2 !! search_key (url cfg1) = Some s'
               ∧ last_total s' = c2)
  ∧ (c2 = c1 →
       all_changes st2 = all_changes st1 ∧ st_searches st2 = st_searches st1).
Proof.
  intros Hpre Hw1 Hw2 Hmid st1 st2.
  assert (Hkey : search_key (url cfg1) = search_key (url cfg2)) by exact Hpre.
  assert (Hslot : ∃ s, st_searches st1 !! search_key (url cfg2) = Some s
                       ∧ last_total s = c1).
  { subst st1. rewrite <- Hkey, yad2_check_all_other by done.
    by apply yad2_slot_after_check. }
  destruct Hslot as (s & Hs & Hc1).
  split; [done|]. split; [by exists s|].
  destruct (decide (c2 = c1)) as [->|Hne].
  - subst st2. rewrite (yad2_check_url_unchanged st1 cfg2 w2 c1 s) by (done || lia).
    cbn [first_run_searches all_changes st_searches]. by repeat split.
  - subst st2. rewrite (yad2_check_url_changed st1 cfg2 w2 c2 s) by (done || lia).
    cbn [first_run_searches all_changes st_searches]. rewrite Hc1.
    split; [done|]. split; [|done]. intros _. split; [done|].
    eexists. by rewrite Hkey, lookup_insert_eq.
Qed.

(** The theorem at the two example searches, first run: 40 then 43. *)
Lemma yad2_shared_slot_witness :
  let st := initial_state (load_data None) in
  let st1 := check_url st (Examples.one_hand, {| fetched := Some 40; now := "t1" |}) in
  let st2 := check_url st1 (Examples.two_hands, {| fetched := Some 43; now := "t2" |}) in
  first_run_searches st2 = first_run_searches st1
  ∧ all_changes st2 =
      [{| c_name := "two hands"; c_url := url Examples.two_hands;
          c_previous := 40; c_current := 43; c_diff := 3 |}].
Proof.
  intros st st1 st2.
  assert (Hprefix : Py.str_take 100 (url Examples.one_hand)
                    = Py.str_take 100 (url Examples.two_hands))
    by (vm_compute; reflexivity).
  destruct (yad2_shared_slot st Examples.one_hand Examples.two_hands
              {| fetched := Some 40; now := "t1" |}
              {| fetched := Some 43; now := "t2" |} 40 43 []
              Hprefix eq_refl eq_refl) as (_ & _ & Hfirst & Hdiff & _).
  - intros t Ht. by apply elem_of_nil in Ht.
  - split; [exact Hfirst|]. destruct Hdiff as [Hall _]; [done|]. exact Hall.
Defined.

(** C9, as stated, fails when the first target's fetch yields no total on
    a store without the slot: the first target is skipped, and the second
    target, with the same key, is classified as first-run. *)
Lemma yad2_shared_slot_counterexample :
  url Examples.one_hand ≠ url Examples.two_hands
  ∧ Py.str_take 100 (url Examples.one_hand) = Py.str_take 100 (url Examples.two_hands)
  ∧ first_run_searches
      (check_all (load_data None)
         [ (Examples.one_hand, {| fetched := None; now := "t1" |});
           (Examples.two_hands, {| fetched := Some 43; now := "t2" |}) ])
    = [ {| f_name := "two hands"; f_total := 43; f_url := url Examples.two_hands |} ].
Proof.
  split; [apply String.eqb_neq; vm_compute; reflexivity|].
  split; vm_compute; reflexivity.
Qed.

(** *** The stored history is the tail of the reported changes *)

Lemma yad2_changes_of_app k (cs1 cs2 : list change) :
  changes_of k (cs1 ++ cs2) = changes_of k cs1 ++ changes_of k cs2.
Proof. unfold changes_of. apply filter_app. Qed.

Lemma yad2_changes_of_hit k (c : change) :
  search_key (c_url c) = k → changes_of k [c] = [c].
Proof.
  intros Hk. unfold changes_of.
  rewrite filter_cons_True by (by apply bool_decide_pack). by rewrite filter_nil.
Qed.

Lemma yad2_changes_of_miss k (c : change) :
  search_key (c_url c) ≠ k → changes_of k [c] = [].
Proof.
  intros Hk. unfold changes_of.
  rewrite filter_cons_False by (intros H; by apply bool_decide_unpack in H).
  by rewrite filter_nil.
Qed.

(** The invariant of the loop, relative to the store [base] the run started
    from: under every key, the stored history records the last 50 of what
    [base] had followed by the changes reported so far for that key. *)
Lemma yad2_check_url_history (base : gmap string search) st t :
  (∀ k, entry_record <$> history_of (st_searches st) k =
        Py.last_n history_bound
          ((entry_record <$> history_of base k)
           ++ (change_record <$> changes_of k (all_changes st)))) →
  ∀ k, entry_record <$> history_of (st_searches (check_url st t)) k =
       Py.last_n history_bound
         ((entry_record <$> history_of base k)
          ++ (change_record <$> changes_of k (all_changes (check_url st t)))).
Proof.
  intros Hinv k. destruct t as [cfg w].
  destruct (fetched w) as [c|] eqn:Hw.
  2:{ rewrite (yad2_check_url_error st cfg w) by done. apply Hinv. }
  destruct (st_searches st !! search_key (url cfg)) as [s|] eqn:Hs.
  - destruct (decide (c - last_total s = 0)) as [Hd|Hd].
    { rewrite (yad2_check_url_unchanged st cfg w c s) by done. apply Hinv. }
    rewrite (yad2_check_url_changed st cfg w c s) by done.
    cbn [st_searches all_changes]. rewrite yad2_changes_of_app.
    unfold history_of at 1. destruct (decide (search_key (url cfg) = k)) as [<-|Hk].
    + rewrite lookup_insert_eq. cbn [from_option history].
      rewrite yad2_push_history_last_n, last_n_map, fmap_app.
      specialize (Hinv (search_key (url cfg))).
      unfold history_of at 1 in Hinv. rewrite Hs in Hinv. cbn [from_option] in Hinv.
      rewrite Hinv, last_n_app.
      rewrite yad2_changes_of_hit by done.
      by rewrite fmap_app, !app_assoc.
    + rewrite lookup_insert_ne by done.
      rewrite yad2_changes_of_miss by done.
      rewrite app_nil_r. apply Hinv.
  - rewrite (yad2_check_url_first_run st cfg w c) by done.
    cbn [st_searches all_changes]. rewrite <- Hinv.
    unfold history_of. destruct (decide (search_key (url cfg) = k)) as [<-|Hk].
    + by rewrite lookup_insert_eq, Hs.
    + by rewrite lookup_insert_ne.
Qed.

Lemma yad2_fold_history (base : gmap string search)
    (ts : list (url_config * probe)) st :
  (∀ k, entry_record <$> history_of (st_searches st) k =
        Py.last_n history_bound
          ((entry_record <$> history_of base k)
           ++ (change_record <$> changes_of k (all_changes st)))) →
  ∀ k, entry_record <$> history_of (st_searches (fold_left check_url ts st)) k =
       Py.last_n history_bound
         ((entry_record <$> history_of base k)
          ++ (change_record <$> changes_of k (all_changes (fold_left check_url ts st)))).
Proof.
  revert st. induction ts as [|t ts IH]; intros st Hinv; [done|].
  cbn [fold_left]. apply IH. by apply yad2_check_url_history.
Qed.

(** One run. *)
Lemma yad2_run_history (i : run_input) d :
  (∀ k, (length (history_of (searches d) k) ≤ history_bound)%nat) →
  ∀ k, entry_record <$> history_of (searches (fst (run i d))) k =
       Py.last_n history_bound
         ((entry_record <$> history_of (searches d) k)
          ++ (change_record <$> changes_of k (all_changes (snd (run i d))))).
Proof.
  intros Hlen k.
  assert (Hinit : ∀ k', entry_record <$> history_of (searches d) k' =
            Py.last_n history_bound
              ((entry_record <$> history_of (searches d) k') ++ (change_record <$> []))).
  { intros k'. cbn [fmap list_fmap]. rewrite app_nil_r, last_n_all; [done|].
    rewrite length_fmap. apply Hlen. }
  unfold run. destruct (driver_ok i); cbn [fst snd searches all_changes].
  - unfold check_all.
    by apply (yad2_fold_history (searches d) (targets i) (initial_state d)).
  - apply Hinit.
Qed.

Lemma yad2_history_bounded_by_record (h : list history_entry) (l : list (Z * Z)) :
  entry_record <$> h = Py.last_n history_bound l →
  (length h ≤ history_bound)%nat.
Proof.
  intros H. apply (f_equal length) in H.
  rewrite length_fmap, last_n_length in H. lia.
Qed.

(** Any number of runs. *)
Lemma yad2_runs_history (inputs : list run_input) d :
  (∀ k, (length (history_of (searches d) k) ≤ history_bound)%nat) →
  ∀ k, entry_record <$> history_of (searches (fst (runs inputs d))) k =
       Py.last_n history_bound
         ((entry_record <$> history_of (searches d) k)
          ++ (change_record <$> changes_of k (snd (runs inputs d)))).
Proof.
  revert d. induction inputs as [|i inputs IH]; intros d Hlen k.
  - cbn [runs fst snd changes_of filter fmap list_fmap].
    rewrite app_nil_r, last_n_all; [done|]. rewrite length_fmap. apply Hlen.
  - cbn [runs]. destruct (run i d) as [d1 st] eqn:Hrun.
    destruct (runs inputs d1) as [d2 cs] eqn:Hruns. cbn [fst snd].
    pose proof (yad2_run_history i d Hlen) as H1. rewrite Hrun in H1. cbn [fst snd] in H1.
    assert (Hlen1 : ∀ k, (length (history_of (searches d1) k) ≤ history_bound)%nat).
    { intros k'. eapply yad2_history_bounded_by_record, H1. }
    specialize (IH d1 Hlen1 k). rewrite Hruns in IH. cbn [fst snd] in IH.
    rewrite IH, H1, last_n_app, yad2_changes_of_app, fmap_app.
    by rewrite !app_assoc.
Qed.

End Yad2Properties.

(** ** The set-based scraper *)

Section CarScraperProperties.
Import CarScraper.

Implicit Types (cars : list car) (seen : gset string).

(** The loop that finds the new cars: it keeps, in extraction order, the
    first occurrence of every identity that is not in the stored set, and
    adds every identity of the batch to the stored set. *)
Lemma scraper_find_new_fold cars (acc : list car) seen :
  ∃ fresh,
    fold_left find_new_step cars (acc, seen) = (acc ++ fresh, seen ∪ ids_of cars)
    ∧ list_to_set (id <$> fresh) = ids_of cars ∖ seen
    ∧ NoDup (id <$> fresh)
    ∧ fresh `sublist_of` cars.
Proof.
  revert acc seen. induction cars as [|c cars IH]; intros acc seen.
  - exists []. cbn [fold_left]. rewrite app_nil_r. unfold ids_of.
    cbn [map list_to_set fmap list_fmap].
    split; [f_equal; set_solver|]. split; [set_solver|]. split; [constructor|done].
  - cbn [fold_left]. unfold find_new_step at 2. case_bool_decide as Hin.
    + destruct (IH acc seen) as (fresh & Hfold & Hset & Hnd & Hsub). clear IH.
      exists fresh. rewrite Hfold. clear Hfold. unfold ids_of in *.
      cbn [map list_to_set]. rewrite Hset.
      generalize (list_to_set (map id cars) : gset string). intros C.
      split; [f_equal; clear -Hin; set_solver|].
      split; [clear -Hin; set_solver|].
      split; [done|]. by apply sublist_cons.
    + destruct (IH (acc ++ [c]) ({[id c]} ∪ seen))
        as (fresh & Hfold & Hset & Hnd & Hsub). clear IH.
      exists (c :: fresh). rewrite Hfold, <- app_assoc. clear Hfold.
      unfold ids_of in *. cbn [map list_to_set fmap list_fmap app].
      assert (Hfresh : id c ∉ id <$> fresh).
      { intros Hc. apply (elem_of_list_to_set (C := gset string)) in Hc.
        rewrite Hset in Hc. clear -Hc. set_solver. }
      rewrite Hset.
      generalize (list_to_set (map id cars) : gset string). intros C.
      split; [f_equal; clear; set_solver|].
      split; [|split; [by apply NoDup_cons | by apply sublist_skip]].
      clear -Hin. apply set_eq. intros x.
      destruct (decide (x = id c)) as [->|Hx]; set_solver.
Qed.

Lemma scraper_find_new cars seen :
  (find_new cars seen).2 = seen ∪ ids_of cars
  ∧ list_to_set (id <$> (find_new cars seen).1) = ids_of cars ∖ seen
  ∧ NoDup (id <$> (find_new cars seen).1)
  ∧ (find_new cars seen).1 `sublist_of` cars.
Proof.
  unfold find_new.
  destruct (scraper_find_new_fold cars [] seen) as (fresh & -> & Hset & Hnd & Hsub).
  by cbn [fst snd app].
Qed.

(** What [run] does, laid out: at most five messages, the summary, the
    save, the initialization message. *)
Lemma scraper_run_on_eq url cars now seen :
  run_on url cars now seen =
    (let new_cars := (find_new cars seen).1 in
     let seen_cars := (find_new cars seen).2 in
     (seen_cars,
      ((λ c, Send (NewCarListed c)) <$> take 5 new_cars)
      ++ (if 5 <? length new_cars
          then [Send (NewCarsSummary (length new_cars) url)] else [])
      ++ (match new_cars with [] => [] | _ => [Save seen_cars now] end)
      ++ (if size seen_cars <=? length cars
          then [Send (MonitorInitialized (length cars) url)] else []),
      length new_cars)).
Proof.
  unfold run_on. destruct (find_new cars seen) as [new_cars seen_cars].
  cbn [fst snd]. destruct new_cars as [|c new_cars]; [done|].
  by rewrite <- !app_assoc.
Qed.

Lemma scraper_reported_new url cars now seen :
  reported_new (run_on url cars now seen).1.2 = take 5 (find_new cars seen).1.
Proof.
  rewrite scraper_run_on_eq. cbn [fst snd]. unfold reported_new.
  rewrite !omap_app.
  set (new_cars := (find_new cars seen).1).
  assert (H1 : omap (λ e, match e with Send (NewCarListed c) => Some c | _ => None end)
                 ((λ c, Send (NewCarListed c)) <$> take 5 new_cars) = take 5 new_cars).
  { induction (take 5 new_cars) as [|c l IH]; [done|]. cbn. by rewrite IH. }
  rewrite H1.
  destruct (5 <? length new_cars), new_cars, (size _ <=? length cars);
    cbn [omap list_omap]; by rewrite ?app_nil_r.
Qed.

Lemma scraper_saves url cars now seen :
  filter (λ e, is_save e) (run_on url cars now seen).1.2 =
    match (find_new cars seen).1 with
    | [] => []
    | _ => [Save (find_new cars seen).2 now]
    end.
Proof.
  rewrite scraper_run_on_eq. cbn [fst snd]. rewrite !filter_app.
  rewrite (filter_fmap_none is_save) by done.
  destruct (5 <? length _), (find_new cars seen).1, (size _ <=? length cars);
    reflexivity.
Qed.

Lemma scraper_summaries url cars now seen :
  filter (λ e, is_summary e) (run_on url cars now seen).1.2 =
    if 5 <? length (find_new cars seen).1
    then [Send (NewCarsSummary (length (find_new cars seen).1) url)] else [].
Proof.
  rewrite scraper_run_on_eq. cbn [fst snd]. rewrite !filter_app.
  rewrite (filter_fmap_none is_summary) by done.
  destruct (5 <? length _), (find_new cars seen).1, (size _ <=? length cars);
    reflexivity.
Qed.

Lemma scraper_new_record_messages url cars now seen :
  filter (λ e, is_new_record_message e) (run_on url cars now seen).1.2 =
    ((λ c, Send (NewCarListed c)) <$> take 5 (find_new cars seen).1)
    ++ (if 5 <? length (find_new cars seen).1
        then [Send (NewCarsSummary (length (find_new cars seen).1) url)] else []).
Proof.
  rewrite scraper_run_on_eq. cbn [fst snd]. rewrite !filter_app.
  rewrite (filter_fmap_all is_new_record_message) by done.
  destruct (5 <? length _), (find_new cars seen).1, (size _ <=? length cars);
    reflexivity.
Qed.

(** C10. Every run of the set-based scraper sends per-record messages for
    the first five new records, in extraction order, and for no other
    record; it sends exactly one summary, stating the number of new
    records, when there are more than five of them, and none otherwise; so
    it never sends more than six new-record messages.  ([run] is [run_on]
    at the cars that [scrape_cars] returned.) *)
Theorem scraper_notifications_capped url cars now seen :
  let trace := (run_on url cars now seen).1.2 in
  let new_cars := (find_new cars seen).1 in
  new_cars `sublist_of` cars
  ∧ reported_new trace = take 5 new_cars
  ∧ length (reported_new trace) ≤ 5
  ∧ filter (λ e, is_summary e) trace =
      (if 5 <? length new_cars
       then [Send (NewCarsSummary (length new_cars) url)] else [])
  ∧ length (filter (λ e, is_new_record_message e) trace) ≤ 6.
Proof.
  intros trace new_cars. subst trace new_cars.
  rewrite scraper_reported_new, scraper_summaries, scraper_new_record_messages.
  rewrite length_app, length_fmap, !length_take.
  split; [apply scraper_find_new|]. split; [done|]. split; [lia|]. split; [done|].
  destruct (5 <? length _); cbn [length]; lia.
Qed.

(** *** The diff of one run, and of many *)

Lemma scraper_diff url cars now seen :
  (run_on url cars now seen).1.1 = seen ∪ ids_of cars
  ∧ (run_on url cars now seen).2 = length (find_new cars seen).1
  ∧ list_to_set (id <$> (find_new cars seen).1) = ids_of cars ∖ seen
  ∧ NoDup (id <$> (find_new cars seen).1).
Proof.
  rewrite scraper_run_on_eq. cbn [fst snd].
  destruct (scraper_find_new cars seen) as (H1 & H2 & H3 & _). by repeat split.
Qed.

(** An identity that is in the stored set stays in it and is not reported
    again, whatever the later pages show. *)
Lemma scraper_runs_never_forget (fails : string → string → bool) url
    (inputs : list (option node * string)) seen x :
  x ∈ seen →
  x ∈ (runs fails url inputs seen).1
  ∧ ∀ c, c ∈ reported_new (runs fails url inputs seen).2 → id c ≠ x.
Proof.
  revert seen. induction inputs as [|[response now] inputs IH]; intros seen Hx.
  - cbn [runs fst snd]. split; [done|]. intros c Hc. by apply elem_of_nil in Hc.
  - cbn [runs]. unfold run.
    pose proof (scraper_diff url (scrape_cars fails url response) now seen)
      as (Hs & _ & Hnew & _).
    pose proof (scraper_reported_new url (scrape_cars fails url response) now seen) as Hrep.
    destruct (run_on url (scrape_cars fails url response) now seen) as [[seen1 trace1] n].
    cbn [fst snd] in Hs, Hrep.
    assert (Hx1 : x ∈ seen1) by (rewrite Hs; set_solver).
    destruct (IH seen1 Hx1) as [Hin Hlater].
    destruct (runs fails url inputs seen1) as [seen2 trace2]. cbn [fst snd] in *.
    split; [done|]. intros c Hc. unfold reported_new in Hc.
    rewrite omap_app in Hc. apply elem_of_app in Hc as [Hc|Hc]; [|by apply Hlater].
    fold (reported_new trace1) in Hc. rewrite Hrep in Hc.
    apply elem_of_take in Hc as (i & Hc & _). apply list_elem_of_lookup_2 in Hc.
    intros Heq. subst x.
    assert (Hid : id c ∈ (list_to_set (id <$> (find_new (scrape_cars fails url response) seen).1)
                          : gset string)).
    { apply elem_of_list_to_set, list_elem_of_fmap. by exists c. }
    rewrite Hnew in Hid. clear -Hid Hx. set_solver.
Qed.

(** *** Two runs of the scraper on one page *)

(** C1, at the set-based scraper.  On the example page, which has one
    listing: the first run (no storage file) reports the listing as a new
    car and then announces initialization; and a later run on the same
    page, with the listing's identity in the stored set, announces
    initialization again. *)
Theorem scraper_initialization_misclassified :
  let url := Examples.scraper_url in
  let page := Examples.one_car_page in
  let car := extract_car_data url Examples.fabia_listing in
  let fails := Examples.urljoin_returns in
  scrape_cars fails url (Some page) = [car]
  ∧ (run fails url (Some page) "t1" (load_seen_cars None)).1.2
    = [ Send (NewCarListed car); Save {[ id car ]} "t1";
        Send (MonitorInitialized 1 url) ]
  ∧ (run fails url (Some page) "t2" (load_seen_cars (Some [id car]))).1.2
    = [ Send (MonitorInitialized 1 url) ].
Proof. split; [|split]; vm_compute; reflexivity. Qed.

(** *** The generic scan *)

(** C7, as stated, fails at the set-based scraper: on the example page of
    51 containers no selector matches, and the generic scan yields all 51
    of them, each of which becomes a record. *)
Lemma scraper_generic_scan_counterexample :
  first_nonempty (map (λ s, select s Examples.crowded_page) listing_selectors) = []
  ∧ length (generic_listings Examples.crowded_page) = 51
  ∧ length (scrape_cars Examples.urljoin_returns Examples.scraper_url
              (Some Examples.crowded_page)) = 51.
Proof. split; [|split]; vm_compute; reflexivity. Qed.

(** *** Persistence is conditional *)

(** C4, as stated, fails at the set-based scraper: a run that finds no new
    record does not save (here, the example page on a later run). *)
Lemma scraper_no_save_counterexample :
  let url := Examples.scraper_url in
  let car := extract_car_data url Examples.fabia_listing in
  let r := run Examples.urljoin_returns url (Some Examples.one_car_page) "t2"
             (load_seen_cars (Some [id car])) in
  r.2 = 0 ∧ filter (λ e, is_save e) r.1.2 = [].
Proof. split; vm_compute; reflexivity. Qed.

End CarScraperProperties.

(** ** The single-model monitor *)

Section AutoDealProperties.
Import AutoDeal.

Implicit Types (d : data) (p : page) (i : run_input).

Lemma autodeal_push_history_last_n h e :
  push_history h e = Py.last_n history_bound (h ++ [e]).
Proof.
  unfold push_history. destruct (Nat.ltb_spec history_bound (length (h ++ [e]))).
  - reflexivity.
  - by rewrite last_n_all.
Qed.

Lemma autodeal_omap_length {A B} (f : A → option B) (l : list A) :
  length (omap f l) ≤ length l.
Proof.
  induction l as [|x l IH]; [done|]. cbn [omap list_omap].
  destruct (f x); cbn [length]; lia.
Qed.

(** C7 (amended). In the single-model monitor the loop over the candidate
    containers looks at the first 50 of them only, whether a selector or
    the generic scan over every [div] produced them; so for every page at
    most 50 containers are inspected and at most 50 records are extracted.
    In particular, when no selector matches, the containers inspected are
    the first 50 that the generic scan found. *)
Theorem autodeal_inspects_at_most_50 (target_model : string) p :
  inspected p = take 50 (elements_of p)
  ∧ length (inspected p) ≤ 50
  ∧ length (extract_car_listings target_model p) ≤ 50
  ∧ (first_nonempty (map (λ s, find_elements_css s p) listing_selectors) = [] →
     inspected p = take 50 (generic_elements p)).
Proof.
  assert (H : length (inspected p) ≤ 50).
  { unfold inspected, max_elements. rewrite length_take. lia. }
  split; [done|]. split; [done|]. split.
  - unfold extract_car_listings. etrans; [apply autodeal_omap_length|done].
  - intros Hnone. unfold inspected, elements_of. by rewrite Hnone.
Qed.

(** The theorem at the example page of 60 containers: the generic scan
    finds all of them, 50 are inspected. *)
Lemma autodeal_inspects_at_most_50_witness :
  length (generic_elements Examples.crowded_results) = 60
  ∧ inspected Examples.crowded_results
    = take 50 (generic_elements Examples.crowded_results).
Proof.
  split; [vm_compute; reflexivity|].
  assert (Hnone : first_nonempty
                    (map (λ s, find_elements_css s Examples.crowded_results)
                         listing_selectors) = [])
    by (vm_compute; reflexivity).
  exact (proj2 (proj2 (proj2
           (autodeal_inspects_at_most_50 default_target_model
              Examples.crowded_results))) Hnone).
Defined.

(** What a completed run stores. *)
Lemma autodeal_run_store (target_model : string) p (t : string) d :
  let r := run target_model {| loaded := Some p; now := t |} d in
  last_total r.1 = get_total_count p
  ∧ last_fabia_count r.1 = length (fabia_listings target_model p)
  ∧ last_fabia_ids r.1 = id <$> fabia_listings target_model p
  ∧ history r.1 = push_history (history d) (entry_of target_model p t).
Proof. done. Qed.

(** What a completed run sends. *)
Lemma autodeal_run_sent (target_model : string) p (t : string) d :
  let r := run target_model {| loaded := Some p; now := t |} d in
  let current : gset string := list_to_set (id <$> fabia_listings target_model p) in
  let stored : gset string := list_to_set (last_fabia_ids d) in
  r.2 =
    (if (last_fabia_count d =? 0) && (length (history d) =? 0)
     then [Send (MonitoringStarted (length (fabia_listings target_model p)))]
     else if bool_decide (current ∖ stored ≠ ∅)
          then [Send (NewListings
                        (filter (λ f, bool_decide (id f ∈ current ∖ stored))
                                (fabia_listings target_model p)))]
          else [])
    ++ [Save r.1].
Proof. done. Qed.

(** A run that could not load the page changes nothing and reports it. *)
Lemma autodeal_run_failed (target_model : string) (t : string) d :
  run target_model {| loaded := None; now := t |} d = (d, [Send ErrorMessage]).
Proof. done. Qed.

(** The history after any number of runs is the last 100 of what was
    there followed by what the completed runs appended, in order. *)
Lemma autodeal_runs_history (target_model : string) (inputs : list run_input) d :
  length (history d) ≤ history_bound →
  history (runs target_model inputs d) =
    Py.last_n history_bound (history d ++ appended target_model inputs).
Proof.
  revert d. induction inputs as [|[[p|] t] inputs IH]; intros d Hlen.
  - cbn [runs fold_left appended omap list_omap]. by rewrite app_nil_r, last_n_all.
  - unfold runs, appended in *. cbn [fold_left omap list_omap loaded now fmap option_fmap option_map].
    rewrite IH.
    + cbn [run loaded fst history now]. rewrite autodeal_push_history_last_n.
      by rewrite last_n_app, <- app_assoc.
    + cbn [run loaded fst history now]. rewrite autodeal_push_history_last_n.
      rewrite last_n_length. lia.
  - unfold runs, appended in *. cbn [fold_left omap list_omap loaded now fmap option_fmap option_map].
    rewrite autodeal_run_failed. cbn [fst]. by apply IH.
Qed.

(** C2, as stated, fails at the single-model monitor: on the example page,
    which has no heading with a total, the fetched total is null; the run
    reports no error, stores the null as [last_total], replaces the
    identity list and appends a history entry. *)
Lemma autodeal_null_total_counterexample :
  let d := Examples.autodeal_store in
  let r := run default_target_model
             {| loaded := Some Examples.two_fabias; now := "t1" |} d in
  get_total_count Examples.two_fabias = None
  ∧ last_total r.1 = None
  ∧ last_fabia_ids r.1 = ["פאביה_2019_45,000"; "פאביה_2021_72,000"]
  ∧ history r.1 = history d ++ [{| timestamp := "t1"; total := None; fabias := 2 |}]
  ∧ r.2 = [Save r.1].
Proof. split; [|split; [|split; [|split]]]; vm_compute; reflexivity. Qed.

(** C3, as stated, fails at the single-model monitor: a run on the example
    page, where the third stored listing no longer shows, drops its identity
    from the stored list; when the listing shows again on the next run it
    is reported as new. *)
Lemma autodeal_forgets_counterexample :
  let d := Examples.autodeal_store in
  let d1 := (run default_target_model
               {| loaded := Some Examples.two_fabias; now := "t1" |} d).1 in
  let r2 := run default_target_model
              {| loaded := Some Examples.three_fabias; now := "t2" |} d1 in
  last_fabia_ids d = ["פאביה_2019_45,000"; "פאביה_2021_72,000"; "פאביה_2017_38,000"]
  ∧ last_fabia_ids d1 = ["פאביה_2019_45,000"; "פאביה_2021_72,000"]
  ∧ (id <$> mjoin (omap (λ e, match e with Send (NewListings l) => Some l | _ => None end) r2.2))
    = ["פאביה_2017_38,000"].
Proof. split; [|split]; vm_compute; reflexivity. Qed.

End AutoDealProperties.

(** ** First-run classification in the two counter-based monitors *)

(** The multi-URL monitor classifies a target as first-run exactly when
    its key has no slot, and then reports no change for it. *)
Lemma yad2_first_run_classification (st : Yad2.loop_state)
    (cfg : Yad2.url_config) (w : Yad2.probe) (c : Z) :
  Yad2.fetched w = Some c →
  let st' := Yad2.check_url st (cfg, w) in
  (Yad2.st_searches st !! Yad2.search_key (Yad2.url cfg) = None
   ∧ Yad2.first_run_searches st' =
       Yad2.first_run_searches st
       ++ [{| Yad2.f_name := Yad2.name cfg; Yad2.f_total := c;
              Yad2.f_url := Yad2.url cfg |}]
   ∧ Yad2.all_changes st' = Yad2.all_changes st)
  ∨ (is_Some (Yad2.st_searches st !! Yad2.search_key (Yad2.url cfg))
     ∧ Yad2.first_run_searches st' = Yad2.first_run_searches st).
Proof.
  intros Hw st'. subst st'.
  destruct (Yad2.st_searches st !! Yad2.search_key (Yad2.url cfg)) as [s|] eqn:Hs.
  - right. split; [by eexists|].
    destruct (decide ((c - Yad2.last_total s)%Z = 0%Z)) as [Hd|Hd].
    + by rewrite (yad2_check_url_unchanged st cfg w c s).
    + by rewrite (yad2_check_url_changed st cfg w c s).
  - left. by rewrite (yad2_check_url_first_run st cfg w c).
Qed.

(** The single-model monitor: a run on the default store announces the
    start and no new listing; the store a completed run leaves is never
    taken for a first run again. *)
Lemma autodeal_first_run_once (target_model : string) (p : AutoDeal.page)
    (t : string) (d : AutoDeal.data) :
  let r := AutoDeal.run target_model {| AutoDeal.loaded := Some p; AutoDeal.now := t |} d in
  (AutoDeal.run target_model {| AutoDeal.loaded := Some p; AutoDeal.now := t |}
     (AutoDeal.load_data None)).2
   = [ AutoDeal.Send (AutoDeal.MonitoringStarted
                        (length (AutoDeal.fabia_listings target_model p)));
       AutoDeal.Save (AutoDeal.run target_model
                        {| AutoDeal.loaded := Some p; AutoDeal.now := t |}
                        (AutoDeal.load_data None)).1 ]
  ∧ (length (AutoDeal.history r.1) =? 0) = false.
Proof.
  intros r. split; [done|]. subst r.
  destruct (autodeal_run_store target_model p t d) as (_ & _ & _ & ->).
  rewrite autodeal_push_history_last_n, last_n_length, length_app.
  unfold AutoDeal.history_bound. cbn [length].
  apply Nat.eqb_neq. lia.
Qed.

(** ** Claims that span several monitors *)

(** C3 (amended). In the set-based scraper, for every run with current
    identities C and stored set S, the empty set of a first run included:
    the new cars carry exactly the identities of C \ S, each once; their
    number is the run's result; the stored set after the run is S ∪ C, so
    it contains S; and over any sequence of later runs an identity of S
    stays stored and is not reported again.  In the single-model monitor the identities reported as
    new are those of C \ S as well (outside the first run), but the stored
    identity list after a completed run is the current list, not the
    union. *)
Theorem snapshot_growth (urljoin_fails : string → string → bool)
    (url : string) (cars : list CarScraper.car)
    (now : string) (seen : gset string) (x : string)
    (inputs : list (option CarScraper.node * string))
    (target_model : string) (p : AutoDeal.page) (t : string) (d : AutoDeal.data) :
  (let r := CarScraper.run_on url cars now seen in
   let new_cars := (CarScraper.find_new cars seen).1 in
   list_to_set (CarScraper.id <$> new_cars) = CarScraper.ids_of cars ∖ seen
   ∧ NoDup (CarScraper.id <$> new_cars)
   ∧ r.2 = length new_cars
   ∧ r.1.1 = seen ∪ CarScraper.ids_of cars
   ∧ seen ⊆ r.1.1
   ∧ (x ∈ seen →
      x ∈ (CarScraper.runs urljoin_fails url inputs seen).1
      ∧ ∀ c, c ∈ CarScraper.reported_new
                   (CarScraper.runs urljoin_fails url inputs seen).2 →
             CarScraper.id c ≠ x))
  ∧ (let r := AutoDeal.run target_model
                {| AutoDeal.loaded := Some p; AutoDeal.now := t |} d in
     let current : gset string :=
       list_to_set (AutoDeal.id <$> AutoDeal.fabia_listings target_model p) in
     let stored : gset string := list_to_set (AutoDeal.last_fabia_ids d) in
     AutoDeal.last_fabia_ids r.1 = AutoDeal.id <$> AutoDeal.fabia_listings target_model p
     ∧ filter (λ e, AutoDeal.is_new_listings e) r.2 =
         if (AutoDeal.last_fabia_count d =? 0) && (length (AutoDeal.history d) =? 0)
         then []
         else if bool_decide (current ∖ stored ≠ ∅)
              then [AutoDeal.Send
                      (AutoDeal.NewListings
                         (filter (λ f, bool_decide (AutoDeal.id f ∈ current ∖ stored))
                                 (AutoDeal.fabia_listings target_model p)))]
              else []).
Proof.
  split.
  - destruct (scraper_diff url cars now seen) as (Hs & Hn & Hset & Hnd).
    cbn zeta. rewrite Hs.
    split; [done|]. split; [done|]. split; [done|]. split; [done|].
    split; [set_solver|].
    intros Hx. exact (scraper_runs_never_forget urljoin_fails url inputs seen x Hx).
  - cbn zeta. split; [done|]. rewrite autodeal_run_sent.
    rewrite filter_app.
    destruct ((AutoDeal.last_fabia_count d =? 0) && (length (AutoDeal.history d) =? 0));
      [done|].
    by case_bool_decide.
Qed.

(** The theorem at the example page of the scraper, whose listing is in
    the stored set, and at the example page of the single-model monitor. *)
Lemma snapshot_growth_witness :
  let car := CarScraper.extract_car_data Examples.scraper_url Examples.fabia_listing in
  CarScraper.id car
    ∈ (CarScraper.runs Examples.urljoin_returns Examples.scraper_url
         [(Some Examples.one_car_page, "t1"); (None, "t2")] {[ CarScraper.id car ]}).1.
Proof.
  intros car.
  assert (Hx : CarScraper.id car ∈ ({[ CarScraper.id car ]} : gset string))
    by (apply elem_of_singleton; reflexivity).
  exact (proj1 (proj2 (proj2 (proj2 (proj2 (proj2
           (proj1 (snapshot_growth Examples.urljoin_returns
                     Examples.scraper_url [car] "t0"
                     {[ CarScraper.id car ]} (CarScraper.id car)
                     [(Some Examples.one_car_page, "t1"); (None, "t2")]
                     AutoDeal.default_target_model Examples.two_fabias "t1"
                     Examples.autodeal_store)))))) Hx)).
Defined.

(** The multi-URL monitor saves once, between the fetches and the
    messages. *)
Lemma yad2_saves_once (i : Yad2.run_input) (d : Yad2.data) :
  Yad2.driver_ok i = true →
  filter (λ e, Yad2.is_save e) (Yad2.trace (Yad2.run i d).2)
  = [Yad2.Save (Yad2.run i d).1].
Proof.
  intros Hok. destruct (yad2_run_ok i d Hok) as (_ & _ & _ & _ & _ & ->).
  rewrite !filter_app.
  change (map ?f ?l) with (f <$> l).
  rewrite (filter_fmap_none Yad2.is_save) by done.
  rewrite (filter_fmap_none Yad2.is_save) by done.
  by rewrite app_nil_r.
Qed.

(** C4 (amended). A run of the multi-URL monitor that could start its
    browser driver saves the store exactly once, after every target was
    fetched and before any message is sent, whether or not anything
    changed.  A run of the set-based scraper saves at most once, after its
    per-record messages and the summary, and only when it found a new
    record. *)
Theorem persistence_per_run (i : Yad2.run_input) (d : Yad2.data)
    (url : string) (cars : list CarScraper.car) (now : string) (seen : gset string) :
  Yad2.driver_ok i = true →
  (Yad2.trace (Yad2.run i d).2 =
     map (λ t, Yad2.Fetch (Yad2.url t.1)) (Yad2.targets i)
     ++ [Yad2.Save (Yad2.run i d).1]
     ++ map Yad2.Send
          (Yad2.notifications (length (Yad2.targets i))
             (Yad2.check_all d (Yad2.targets i)))
   ∧ filter (λ e, Yad2.is_save e) (Yad2.trace (Yad2.run i d).2)
     = [Yad2.Save (Yad2.run i d).1]
   ∧ Yad2.searches (Yad2.run i d).1
     = Yad2.st_searches (Yad2.check_all d (Yad2.targets i)))
  ∧ (let r := CarScraper.run_on url cars now seen in
     let new_cars := (CarScraper.find_new cars seen).1 in
     r.1.2 =
       ((λ c, CarScraper.Send (CarScraper.NewCarListed c)) <$> take 5 new_cars)
       ++ (if 5 <? length new_cars
           then [CarScraper.Send (CarScraper.NewCarsSummary (length new_cars) url)]
           else [])
       ++ (match new_cars with [] => [] | _ => [CarScraper.Save r.1.1 now] end)
       ++ (if size r.1.1 <=? length cars
           then [CarScraper.Send (CarScraper.MonitorInitialized (length cars) url)]
           else [])
     ∧ filter (λ e, CarScraper.is_save e) r.1.2 =
         match new_cars with [] => [] | _ => [CarScraper.Save r.1.1 now] end).
Proof.
  intros Hok. split.
  - destruct (yad2_run_ok i d Hok) as (Hd & _ & _ & _ & _ & Htr).
    split; [exact Htr|]. split; [by apply yad2_saves_once|]. by rewrite Hd.
  - cbn zeta. rewrite scraper_saves. rewrite scraper_run_on_eq. by cbn [fst snd].
Qed.

(** The theorem at a first run over the two example searches. *)
Lemma persistence_per_run_witness :
  filter (λ e, Yad2.is_save e)
         (Yad2.trace (Yad2.run Examples.yad2_two_searches (Yad2.load_data None)).2)
  = [Yad2.Save (Yad2.run Examples.yad2_two_searches (Yad2.load_data None)).1].
Proof.
  exact (proj1 (proj2 (proj1
           (persistence_per_run Examples.yad2_two_searches (Yad2.load_data None)
              Examples.scraper_url [] "t0" ∅ eq_refl)))).
Defined.

(** C6. Whatever the runs since the first one (the default store): in the
    multi-URL monitor the history stored under any key has at most 50
    entries and records exactly the last 50 changes reported for that key,
    in the order they were reported; in the single-model monitor the
    history has at most 100 entries and is exactly the last 100 entries
    that the completed runs appended, in that order. *)
Theorem history_bounded_and_recent (inputs : list Yad2.run_input) (k : string)
    (target_model : string) (autodeal_inputs : list AutoDeal.run_input) :
  (let r := Yad2.runs inputs (Yad2.load_data None) in
   length (Yad2.history_of (Yad2.searches r.1) k) ≤ 50
   ∧ Yad2.entry_record <$> Yad2.history_of (Yad2.searches r.1) k
     = Py.last_n 50 (Yad2.change_record <$> Yad2.changes_of k r.2))
  ∧ (let d := AutoDeal.runs target_model autodeal_inputs (AutoDeal.load_data None) in
     length (AutoDeal.history d) ≤ 100
     ∧ AutoDeal.history d = Py.last_n 100 (AutoDeal.appended target_model autodeal_inputs)).
Proof.
  split.
  - cbn zeta.
    assert (Hinit : ∀ k', length (Yad2.history_of (Yad2.searches (Yad2.load_data None)) k')
                          ≤ Yad2.history_bound).
    { intros k'. unfold Yad2.history_of. cbn [Yad2.load_data Yad2.searches].
      rewrite lookup_empty. cbn. lia. }
    pose proof (yad2_runs_history inputs (Yad2.load_data None) Hinit k) as H.
    assert (Hnil : Yad2.history_of (Yad2.searches (Yad2.load_data None)) k = []).
    { unfold Yad2.history_of. cbn [Yad2.load_data Yad2.searches].
      by rewrite lookup_empty. }
    rewrite Hnil in H. cbn [fmap list_fmap app] in H.
    split; [|exact H]. eapply yad2_history_bounded_by_record, H.
  - cbn zeta.
    assert (Hlen : length (AutoDeal.history (AutoDeal.load_data None))
                   ≤ AutoDeal.history_bound) by (cbn; lia).
    rewrite (autodeal_runs_history target_model autodeal_inputs
               (AutoDeal.load_data None) Hlen).
    change (AutoDeal.history (AutoDeal.load_data None)) with (@nil AutoDeal.history_entry).
    cbn [app]. split; [|done].
    rewrite last_n_length. unfold AutoDeal.history_bound. lia.
Qed.

(** C8. The identity of a record is a function of its text and of nothing
    else: in the set-based scraper two containers with the same text get
    the same identity, the MD5 digest of that text, whatever their markup
    and whatever the scraper is configured with; in the single-model
    monitor two containers with the same text are both skipped or get the
    same composite key, whatever the target model. *)
Theorem identity_depends_on_text_only (url1 url2 : string)
    (e1 e2 : CarScraper.node) (target1 target2 : string)
    (a1 a2 : AutoDeal.element) :
  CarScraper.get_text e1 = CarScraper.get_text e2 →
  AutoDeal.e_text a1 = AutoDeal.e_text a2 →
  CarScraper.id (CarScraper.extract_car_data url1 e1)
  = CarScraper.id (CarScraper.extract_car_data url2 e2)
  ∧ CarScraper.id (CarScraper.extract_car_data url1 e1)
    = Md5.hexdigest (CarScraper.get_text e1)
  ∧ AutoDeal.id <$> AutoDeal.extract_listing target1 a1
    = AutoDeal.id <$> AutoDeal.extract_listing target2 a2.
Proof.
  intros Htext Htext'. split; [|split].
  - cbn [CarScraper.extract_car_data CarScraper.id]. by rewrite Htext.
  - reflexivity.
  - unfold AutoDeal.extract_listing. rewrite Htext'.
    by destruct (negb _ || _).
Qed.

(** The theorem at the example listings and their restyled copies. *)
Lemma identity_depends_on_text_only_witness :
  CarScraper.id (CarScraper.extract_car_data "https://a.example" Examples.fabia_listing)
  = CarScraper.id (CarScraper.extract_car_data "https://b.example"
                     Examples.fabia_listing_restyled)
  ∧ AutoDeal.id <$> AutoDeal.extract_listing "פאביה" Examples.fabia_2019
    = AutoDeal.id <$> AutoDeal.extract_listing "אוקטביה" Examples.fabia_2019_restyled.
Proof.
  assert (H1 : CarScraper.get_text Examples.fabia_listing
               = CarScraper.get_text Examples.fabia_listing_restyled)
    by (vm_compute; reflexivity).
  assert (H2 : AutoDeal.e_text Examples.fabia_2019
               = AutoDeal.e_text Examples.fabia_2019_restyled)
    by reflexivity.
  destruct (identity_depends_on_text_only "https://a.example" "https://b.example"
              Examples.fabia_listing Examples.fabia_listing_restyled
              "פאביה" "אוקטביה" Examples.fabia_2019 Examples.fabia_2019_restyled
              H1 H2) as (Hid & _ & Hkey).
  split; [exact Hid | exact Hkey].
Defined.

(** * Further properties of the three monitors *)

(** ** Strings and their characters *)

Section Characters.

Implicit Types (s a b : string) (c : ascii) (l : list string).

Lemma str_app_nil_l s : "" +:+ s = s.
Proof. reflexivity. Qed.

Lemma str_app_cons c s1 s2 : String c s1 +:+ s2 = String c (s1 +:+ s2).
Proof. reflexivity. Qed.

Lemma str_app_nil_r s : s +:+ "" = s.
Proof. induction s as [|c s IH]; [done|]. by rewrite str_app_cons, IH. Qed.

Lemma str_app_assoc s1 s2 s3 : (s1 +:+ s2) +:+ s3 = s1 +:+ s2 +:+ s3.
Proof. induction s1 as [|c s1 IH]; [done|]. by rewrite !str_app_cons, IH. Qed.

Lemma str_length_app s1 s2 :
  String.length (s1 +:+ s2) = String.length s1 + String.length s2.
Proof.
  induction s1 as [|c s1 IH]; [done|]. rewrite str_app_cons. cbn [String.length].
  by rewrite IH.
Qed.

Lemma py_concat_app l1 l2 : Py.concat (l1 ++ l2) = Py.concat l1 +:+ Py.concat l2.
Proof.
  induction l1 as [|x l1 IH]; [done|]. cbn [app Py.concat].
  by rewrite IH, str_app_assoc.
Qed.

Lemma py_chars_cons c s :
  Py.chars (String c s) =
    match Py.chars s with
    | ch :: rest =>
        if Py.starts_with_continuation ch then String c ch :: rest
        else String c "" :: ch :: rest
    | [] => [String c ""]
    end.
Proof. reflexivity. Qed.

(** The characters of a string are its pieces, in order. *)
Lemma py_concat_chars s : Py.concat (Py.chars s) = s.
Proof.
  induction s as [|c s IH]; [done|]. rewrite py_chars_cons.
  destruct (Py.chars s) as [|ch rest]; [by rewrite <- IH|].
  destruct (Py.starts_with_continuation ch); by rewrite <- IH.
Qed.

Lemma py_chars_nil s : Py.chars s = [] → s = "".
Proof. intros H. by rewrite <- (py_concat_chars s), H. Qed.

Lemma py_chars_nonempty s : Forall (λ ch, ch ≠ "") (Py.chars s).
Proof.
  induction s as [|c s IH]; [constructor|]. rewrite py_chars_cons.
  destruct IH as [|ch rest Hch Hrest]; [by repeat constructor|].
  destruct (Py.starts_with_continuation ch); by repeat constructor.
Qed.

(** The first character starts where the string starts. *)
Lemma py_chars_head s :
  match Py.chars s with
  | ch :: _ => Py.starts_with_continuation ch
  | [] => false
  end = Py.starts_with_continuation s.
Proof.
  destruct s as [|c s]; [done|]. rewrite py_chars_cons.
  destruct (Py.chars s) as [|ch rest]; [done|].
  by destruct (Py.starts_with_continuation ch).
Qed.

(** Cutting a string where a character starts cuts its characters. *)
Lemma py_chars_app a b :
  Py.starts_with_continuation b = false →
  Py.chars (a +:+ b) = Py.chars a ++ Py.chars b.
Proof.
  intros Hb. induction a as [|c a IH]; [done|].
  rewrite str_app_cons, !py_chars_cons, IH.
  destruct (Py.chars a) as [|ch rest].
  - cbn [app]. pose proof (py_chars_head b) as Hhead. rewrite Hb in Hhead.
    destruct (Py.chars b) as [|ch rest]; [done|]. by rewrite Hhead.
  - cbn [app]. by destruct (Py.starts_with_continuation ch).
Qed.

Lemma py_lead_byte c :
  (N_of_ascii c <? 128)%N || (192 <=? N_of_ascii c)%N = true →
  Py.is_continuation c = false.
Proof.
  destruct c as [[] [] [] [] [] [] [] []]; vm_compute; intros H;
    first [reflexivity | discriminate H].
Qed.

(** What has a code point is one character. *)
Lemma py_ord_char (ch : string) (cp : N) :
  Py.ord ch = Some cp →
  Py.chars ch = [ch] ∧ Py.starts_with_continuation ch = false ∧ ch ≠ "".
Proof.
  unfold Py.ord.
  destruct ch as [|a [|b [|c [|d [|e ch]]]]]; cbn [list_ascii_of_string]; try done.
  - destruct (N_of_ascii a <? 128)%N eqn:Ha; [|done]. intros _.
    split; [done|]. split; [|done]. apply py_lead_byte. by rewrite Ha.
  - destruct (_ && _) eqn:Ha; [|done].
    destruct (Py.is_continuation b) eqn:Hb; [|done]. intros _.
    split; [|split; [|done]].
    + cbn [Py.chars Py.starts_with_continuation]. by rewrite Hb.
    + apply py_lead_byte. apply andb_true_iff in Ha as [Ha _].
      apply N.leb_le in Ha. apply orb_true_iff. right. apply N.leb_le. lia.
  - destruct (_ && _) eqn:Ha; [|done].
    destruct (Py.is_continuation b) eqn:Hb; [|done].
    destruct (Py.is_continuation c) eqn:Hc; [|done]. intros _.
    split; [|split; [|done]].
    + cbn [Py.chars Py.starts_with_continuation]. rewrite Hc.
      cbn [Py.starts_with_continuation]. by rewrite Hb.
    + apply py_lead_byte. apply andb_true_iff in Ha as [Ha _].
      apply N.leb_le in Ha. apply orb_true_iff. right. apply N.leb_le. lia.
  - destruct (_ && _) eqn:Ha; [|done].
    destruct (Py.is_continuation b) eqn:Hb; [|done].
    destruct (Py.is_continuation c) eqn:Hc; [|done].
    destruct (Py.is_continuation d) eqn:Hd; [|done]. intros _.
    split; [|split; [|done]].
    + cbn [Py.chars Py.starts_with_continuation]. rewrite Hd.
      cbn [Py.starts_with_continuation]. rewrite Hc.
      cbn [Py.starts_with_continuation]. by rewrite Hb.
    + apply py_lead_byte. apply andb_true_iff in Ha as [Ha _].
      apply N.leb_le in Ha. apply orb_true_iff. right. apply N.leb_le. lia.
Qed.

(** Characters with a code point, put together and taken apart again. *)
Lemma py_chars_concat l :
  Forall (λ ch, is_Some (Py.ord ch)) l → Py.chars (Py.concat l) = l.
Proof.
  induction 1 as [|ch l [cp Hch] Hl IH]; [done|]. cbn [Py.concat].
  destruct (py_ord_char ch cp Hch) as (Hone & _ & _).
  rewrite py_chars_app, Hone, IH; [done|].
  destruct Hl as [|ch' l' [cp' Hch'] _]; [done|]. cbn [Py.concat].
  destruct (py_ord_char ch' cp' Hch') as (_ & Hstart & Hne).
  destruct ch'; [done|]. by rewrite str_app_cons.
Qed.

Lemma py_is_space_ord (ch : string) : Py.is_space ch = true → is_Some (Py.ord ch).
Proof. unfold Py.is_space. destruct (Py.ord ch); [by eexists|done]. Qed.

Lemma py_is_decimal_ord (ch : string) : Py.is_decimal ch = true → is_Some (Py.ord ch).
Proof.
  unfold Py.is_decimal, Py.decimal. destruct (Py.ord ch); [by eexists|done].
Qed.

(** A byte below 128 is a character of its own. *)
Lemma py_ord_byte c :
  (N_of_ascii c <? 128)%N = true → Py.ord (String c "") = Some (N_of_ascii c).
Proof. intros H. unfold Py.ord. cbn [list_ascii_of_string]. by rewrite H. Qed.

Lemma py_chars_byte c s :
  Py.starts_with_continuation s = false →
  Py.chars (String c s) = String c "" :: Py.chars s.
Proof.
  intros Hs. change (String c s) with (String c "" +:+ s). by rewrite py_chars_app.
Qed.

End Characters.

(** ** Patterns *)

Section Patterns.
Import Re.

Implicit Types (s w r : list string) (p : string → bool).

Lemma consumed_app w r : consumed (w ++ r) r = w.
Proof.
  unfold consumed. rewrite length_app.
  replace (length w + length r - length r) with (length w) by lia.
  by rewrite take_app_length.
Qed.

(** What [runs] holds at position [k]: the subject without [k] leading
    characters of the class. *)
Lemma runs_lookup p s (k : nat) r :
  runs p s !! k = Some r →
  ∃ w, s = w ++ r ∧ length w = k ∧ forallb p w = true.
Proof.
  revert s. induction k as [|k IH]; intros s Hk.
  - destruct s; cbn in Hk; injection Hk as <-; by exists [].
  - destruct s as [|c s]; [done|]. cbn in Hk.
    destruct (p c) eqn:Hc; [|done].
    destruct (IH s Hk) as (w & -> & Hlen & Hall).
    exists (c :: w). cbn [length forallb app]. by rewrite Hc, Hall, Hlen.
Qed.

Lemma match_atom_sound lo hi p s r :
  r ∈ match_atom (Many lo hi p) s →
  ∃ w, s = w ++ r ∧ forallb p w = true ∧ lo ≤ length w
       ∧ match hi with Some k => length w ≤ k | None => True end.
Proof.
  unfold match_atom. intros Hr.
  apply list_elem_of_In in Hr. apply <- in_rev in Hr. apply list_elem_of_In in Hr.
  apply list_elem_of_lookup in Hr as [i Hi]. rewrite lookup_drop in Hi.
  destruct hi as [k|].
  - apply lookup_take_Some in Hi as [Hi Hlt].
    destruct (runs_lookup p s _ r Hi) as (w & -> & Hlen & Hall).
    exists w. repeat split; try done; lia.
  - destruct (runs_lookup p s _ r Hi) as (w & -> & Hlen & Hall).
    exists w. repeat split; try done; lia.
Qed.

(** Soundness of the matcher: what it consumed is in the language of the
    pattern. *)
Lemma match_re_sound (re : re) s r :
  r ∈ match_re re s → ∃ w, s = w ++ r ∧ accepts re w.
Proof.
  revert s. induction re as [|[lo hi p] re IH]; intros s Hr.
  - cbn in Hr. apply list_elem_of_singleton in Hr as ->. by exists [].
  - cbn [match_re] in Hr. apply list_elem_of_In, in_flat_map in Hr as (mid & Hmid & Hr).
    apply list_elem_of_In in Hmid, Hr.
    destruct (match_atom_sound lo hi p s mid Hmid) as (w1 & -> & Hall & Hlo & Hhi).
    destruct (IH mid Hr) as (w2 & -> & Hacc).
    exists (w1 ++ w2). split; [by rewrite app_assoc|].
    cbn [accepts]. by exists w1, w2.
Qed.

Lemma match_here_sound (pre grp post : re) s whole g :
  match_here pre grp post s = Some (whole, g) →
  ∃ wpre wpost after,
    s = whole ++ after ∧ whole = wpre ++ g ++ wpost
    ∧ accepts pre wpre ∧ accepts grp g ∧ accepts post wpost.
Proof.
  unfold match_here. intros H. apply head_Some_elem_of in H.
  apply list_elem_of_In, in_flat_map in H as (r1 & Hr1 & H).
  apply in_flat_map in H as (r2 & Hr2 & H).
  apply in_map_iff in H as (r3 & Heq & Hr3).
  apply list_elem_of_In in Hr1, Hr2, Hr3.
  destruct (match_re_sound pre s r1 Hr1) as (wpre & -> & Hpre).
  destruct (match_re_sound grp r1 r2 Hr2) as (wg & -> & Hgrp).
  destruct (match_re_sound post r2 r3 Hr3) as (wpost & -> & Hpost).
  injection Heq as <- <-.
  rewrite consumed_app.
  replace (wpre ++ wg ++ wpost ++ r3) with ((wpre ++ wg ++ wpost) ++ r3)
    by (by rewrite <- !app_assoc).
  rewrite consumed_app.
  by exists wpre, wpost, r3.
Qed.

Lemma search_chars_sound (pre grp post : re) s whole g :
  search_chars pre grp post s = Some (whole, g) →
  ∃ before wpre wpost after,
    s = before ++ whole ++ after ∧ whole = wpre ++ g ++ wpost
    ∧ accepts pre wpre ∧ accepts grp g ∧ accepts post wpost.
Proof.
  induction s as [|c s IH]; cbn [search_chars]; intros H.
  - destruct (match_here pre grp post []) as [m|] eqn:Hm; [|done].
    injection H as ->.
    destruct (match_here_sound _ _ _ _ _ _ Hm) as (wpre & wpost & after & ? & ? & ?).
    by exists [], wpre, wpost, after.
  - destruct (match_here pre grp post (c :: s)) as [m|] eqn:Hm.
    + injection H as ->.
      destruct (match_here_sound _ _ _ _ _ _ Hm) as (wpre & wpost & after & ? & ? & ?).
      by exists [], wpre, wpost, after.
    + destruct (IH H) as (before & wpre & wpost & after & -> & ? & ?).
      by exists (c :: before), wpre, wpost, after.
Qed.

(** Soundness of [search]: the match is a piece of the subject, made of
    whole characters, and it splits into what the three parts of the
    pattern accept. *)
Lemma search_sound (pre grp post : re) (text whole g : string) :
  search pre grp post text = Some (whole, g) →
  ∃ before wpre wg wpost after,
    Py.chars text = before ++ (wpre ++ wg ++ wpost) ++ after
    ∧ text = Py.concat before +:+ whole +:+ Py.concat after
    ∧ whole = Py.concat (wpre ++ wg ++ wpost)
    ∧ g = Py.concat wg
    ∧ accepts pre wpre ∧ accepts grp wg ∧ accepts post wpost.
Proof.
  unfold search.
  destruct (search_chars pre grp post (Py.chars text)) as [[w wg]|] eqn:Hs; [|done].
  cbn. intros [= <- <-].
  destruct (search_chars_sound _ _ _ _ _ _ Hs)
    as (before & wpre & wpost & after & Htext & -> & Hpre & Hg & Hpost).
  exists before, wpre, wg, wpost, after. split; [done|]. split; [|done].
  by rewrite <- !py_concat_app, <- Htext, py_concat_chars.
Qed.

(** A pattern without prefix and tail. *)
Lemma group0_sound (grp : re) (text y : string) :
  group0 [] grp [] text = Some y →
  ∃ w, y = Py.concat w ∧ accepts grp w
       ∧ ∃ before after, text = before +:+ y +:+ after.
Proof.
  unfold group0. destruct (search [] grp [] text) as [[whole g]|] eqn:Hs; [|done].
  cbn. intros [= ->].
  destruct (search_sound _ _ _ _ _ _ Hs)
    as (before & wpre & wg & wpost & after & _ & Htext & -> & _ & Hpre & Hg & Hpost).
  cbn in Hpre, Hpost. subst wpre wpost. rewrite app_nil_l, app_nil_r in *.
  exists wg. split; [done|]. split; [done|]. by eexists _, _.
Qed.

Lemma group1_sound (pre grp post : re) (text g : string) :
  group1 pre grp post text = Some g → ∃ w, g = Py.concat w ∧ accepts grp w.
Proof.
  unfold group1. destruct (search pre grp post text) as [[whole g']|] eqn:Hs; [|done].
  cbn. intros [= ->].
  destruct (search_sound _ _ _ _ _ _ Hs)
    as (_ & _ & wg & _ & _ & _ & _ & _ & -> & _ & Hg & _).
  by exists wg.
Qed.

(** What a one-character atom accepts. *)
Lemma accepts_one p (re : re) w :
  accepts (Many 1 (Some 1) p :: re) w →
  ∃ c w', w = c :: w' ∧ p c = true ∧ accepts re w'.
Proof.
  cbn [accepts]. intros (w1 & w2 & -> & Hall & Hlo & Hhi & Hacc).
  destruct w1 as [|c [|c' w1]]; cbn in Hlo, Hhi; try lia.
  cbn in Hall. rewrite andb_true_r in Hall. by exists c, w2.
Qed.

(** What a repetition that ends the pattern accepts. *)
Lemma accepts_last lo hi p w :
  accepts [Many lo hi p] w →
  forallb p w = true ∧ lo ≤ length w
  ∧ match hi with Some k => length w ≤ k | None => True end.
Proof.
  cbn [accepts]. intros (w1 & w2 & -> & Hall & Hlo & Hhi & ->).
  by rewrite app_nil_r.
Qed.

(** One step of [accepts], kept folded. *)
Lemma accepts_cons lo hi p (re : re) w :
  accepts (Many lo hi p :: re) w →
  ∃ w1 w2, w = w1 ++ w2 ∧ forallb p w1 = true ∧ lo ≤ length w1
           ∧ match hi with Some k => length w1 ≤ k | None => True end
           ∧ accepts re w2.
Proof. done. Qed.

End Patterns.

(** ** Slices count characters *)

Section CharacterSlices.

Lemma py_len_take (n : nat) (s : string) : Py.len (Py.str_take n s) ≤ n.
Proof.
  revert n. induction s as [|c s IH]; intros n; cbn [Py.str_take]; [cbn; lia|].
  destruct (Py.is_continuation c) eqn:Hc.
  - cbn [Py.len]. rewrite Hc. specialize (IH n). lia.
  - destruct n as [|n]; [cbn; lia|]. cbn [Py.len]. rewrite Hc.
    specialize (IH n). lia.
Qed.

Lemma py_take_all (n : nat) (s : string) : Py.len s ≤ n → Py.str_take n s = s.
Proof.
  revert n. induction s as [|c s IH]; intros n Hlen; [done|].
  cbn [Py.str_take Py.len] in *. destruct (Py.is_continuation c).
  - f_equal. apply IH. lia.
  - destruct n as [|n]; [lia|]. f_equal. apply IH. lia.
Qed.

Lemma py_take_prefix (n : nat) (s : string) : ∃ rest, s = Py.str_take n s +:+ rest.
Proof.
  revert n. induction s as [|c s IH]; intros n; [by exists ""|].
  cbn [Py.str_take]. destruct (Py.is_continuation c).
  - destruct (IH n) as [rest Hrest]. exists rest. by rewrite str_app_cons, <- Hrest.
  - destruct n as [|n]; [by exists (String c s)|].
    destruct (IH n) as [rest Hrest]. exists rest. by rewrite str_app_cons, <- Hrest.
Qed.

(** A slice is the whole string, or it is full. *)
Lemma py_take_whole_or_full (n : nat) (s : string) :
  Py.str_take n s = s ∨ Py.len (Py.str_take n s) = n.
Proof.
  revert n. induction s as [|c s IH]; intros n; [by left|].
  cbn [Py.str_take]. destruct (Py.is_continuation c) eqn:Hc.
  - destruct (IH n) as [->|H]; [by left|right]. cbn [Py.len]. by rewrite Hc.
  - destruct n as [|n]; [by right|].
    destruct (IH n) as [->|H]; [by left|right]. cbn [Py.len]. rewrite Hc. lia.
Qed.

End CharacterSlices.

(** ** The digest has 32 hexadecimal digits *)

Section Digest.
Import Md5.
#[local] Open Scope Z_scope.








End Digest.

(** ** More on the set-based scraper *)

Section ScraperFurther.
Import CarScraper.

(** The first non-empty attempt wins; the attempts before it were empty,
    and the attempts after it do not count. *)
Lemma first_nonempty_map {A B} (f : A → list B) (l : list A) :
  (first_nonempty (map f l) = [] ∧ Forall (λ x, f x = []) l)
  ∨ (∃ before x after,
       l = before ++ x :: after
       ∧ Forall (λ x', f x' = []) before
       ∧ f x ≠ []
       ∧ first_nonempty (map f l) = f x).
Proof.
  induction l as [|x l IH]; [by left|]. cbn [map first_nonempty].
  destruct (f x) as [|y r] eqn:Hx.
  - destruct IH as [[H1 H2]|(before & x' & after & -> & H2 & H3 & H4)].
    + left. split; [done|]. by constructor.
    + right. exists (x :: before), x', after. split; [done|].
      split; [by constructor|done].
  - right. exists [], x, l. rewrite Hx. by repeat split.
Qed.

Lemma py_take_drop_while {A} (p : A → bool) (l : list A) :
  Py.take_while p l ++ Py.drop_while p l = l.
Proof.
  induction l as [|x l IH]; [done|]. cbn [Py.take_while Py.drop_while].
  destruct (p x); [|done]. cbn [app]. by rewrite IH.
Qed.

Lemma py_drop_while_head {A} (p : A → bool) (l : list A) :
  match Py.drop_while p l with x :: _ => p x = false | [] => True end.
Proof.
  induction l as [|x l IH]; [done|]. cbn [Py.drop_while].
  by destruct (p x) eqn:Hx.
Qed.


Lemma py_take_while_forall {A} (p : A → bool) (l : list A) :
  forallb p (Py.take_while p l) = true.
Proof.
  induction l as [|x l IH]; [done|]. cbn [Py.take_while].
  destruct (p x) eqn:Hx; [|done]. cbn [forallb]. by rewrite Hx, IH.
Qed.


(** X2. The stored snippet of a record is the start of the container's
    text, at most 500 characters of it: the whole text, or exactly 500
    characters. *)
Theorem scraper_snippet_bounded (url : string) (e : node) :
  let c := extract_car_data url e in
  Py.len (raw_text c) ≤ 500
  ∧ (∃ rest, get_text e = raw_text c +:+ rest)
  ∧ (raw_text c = get_text e ∨ Py.len (raw_text c) = 500).
Proof.
  cbn [extract_car_data raw_text]. split; [apply py_len_take|].
  split; [apply py_take_prefix | apply py_take_whole_or_full].
Qed.

Lemma py_range_byte (lo hi : ascii) (ch : string) :
  Re.range lo hi ch = true →
  ∃ c, ch = String c "" ∧ nat_of_ascii lo ≤ nat_of_ascii c ≤ nat_of_ascii hi.
Proof.
  unfold Re.range. destruct ch as [|c [|c' ch]]; try done.
  intros [H1 H2]%andb_true_iff. apply Nat.leb_le in H1, H2. by exists c.
Qed.

(** The ten digits of one byte and their values. *)
Lemma py_digit_value_byte (c : ascii) :
  48 ≤ nat_of_ascii c ≤ 57 →
  Py.digit_value (String c "") = (Z.of_nat (nat_of_ascii c) - 48)%Z
  ∧ Py.is_continuation c = false.
Proof.
  intros [H1 H2]. apply Nat.leb_le in H1, H2. revert H1 H2.
  destruct c as [[] [] [] [] [] [] [] []]; vm_compute; intros H1 H2;
    first [discriminate H1 | discriminate H2 | (split; reflexivity)].
Qed.

(** X3. A year that is extracted is a piece of the container's text made
    of four digits that denote a year from 1950 to 2029. *)
Theorem scraper_year_in_range (url : string) (e : node) (y : string) :
  year (extract_car_data url e) = Some y →
  String.length y = 4
  ∧ (1950 ≤ Py.int_of_digits y ≤ 2029)%Z
  ∧ ∃ before after, get_text e = before +:+ y +:+ after.
Proof.
  cbn [extract_car_data year year_patterns map first_some].
  set (text := get_text e).
  change (Re.lit "20") with [Re.chr "2"; Re.chr "0"].
  change (Re.lit "19") with [Re.chr "1"; Re.chr "9"].
  intros Hy.
  assert (Hcase :
    Re.group0 [] ([Re.chr "2"; Re.chr "0"]
                  ++ [Re.cls (Re.range "0" "2"); Re.cls (Re.range "0" "9")])
              [] text = Some y
    ∨ Re.group0 [] ([Re.chr "1"; Re.chr "9"]
                    ++ [Re.cls (Re.range "5" "9"); Re.cls (Re.range "0" "9")])
                [] text = Some y).
  { destruct (Re.group0 [] ([Re.chr "2"; Re.chr "0"] ++ _) [] text); [by left|].
    destruct (Re.group0 [] ([Re.chr "1"; Re.chr "9"] ++ _) [] text); [by right|done]. }
  clear Hy.
  destruct Hcase as [H|H]; apply group0_sound in H as (w & -> & Hacc & Hsub);
    (split; [|split; [|done]]);
    cbn [app Re.chr Re.cls] in Hacc;
    apply accepts_one in Hacc as (c1 & w1 & -> & Hc1 & Hacc);
    apply accepts_one in Hacc as (c2 & w2 & -> & Hc2 & Hacc);
    apply accepts_one in Hacc as (c3 & w3 & -> & Hc3 & Hacc);
    apply accepts_one in Hacc as (c4 & w4 & -> & Hc4 & Hacc);
    cbn [Re.accepts] in Hacc; subst w4;
    apply String.eqb_eq in Hc1, Hc2; subst c1 c2;
    apply py_range_byte in Hc3 as (a3 & -> & Ha3);
    apply py_range_byte in Hc4 as (a4 & -> & Ha4);
    try reflexivity;
    change (nat_of_ascii "2") with 50 in *; change (nat_of_ascii "0") with 48 in *;
    change (nat_of_ascii "9") with 57 in *; change (nat_of_ascii "5") with 53 in *;
    (destruct (py_digit_value_byte a3) as [Hv3 Hk3]; [lia|]);
    (destruct (py_digit_value_byte a4) as [Hv4 Hk4]; [lia|]);
    cbn [Py.concat]; rewrite !str_app_cons, !str_app_nil_l;
    unfold Py.int_of_digits;
    rewrite (py_chars_byte _ (String _ (String a3 (String a4 "")))) by done;
    rewrite (py_chars_byte _ (String a3 (String a4 ""))) by done;
    rewrite (py_chars_byte a3 (String a4 "")) by done;
    cbn [Py.chars];
    unfold Py.int_of_chars; cbn [fold_left]; rewrite Hv3, Hv4;
    [change (Py.digit_value "2") with 2%Z; change (Py.digit_value "0") with 0%Z
    |change (Py.digit_value "1") with 1%Z; change (Py.digit_value "9") with 9%Z];
    lia.
Qed.

(** The theorem at the example listing, whose year is 2019. *)
Lemma scraper_year_in_range_witness :
  (1950 ≤ Py.int_of_digits "2019" ≤ 2029)%Z.
Proof.
  assert (H : year (extract_car_data Examples.scraper_url Examples.fabia_listing)
              = Some "2019") by (vm_compute; reflexivity).
  exact (proj1 (proj2 (scraper_year_in_range Examples.scraper_url
                         Examples.fabia_listing "2019" H))).
Defined.

End ScraperFurther.

Section ScraperRuns.
Import CarScraper.

Implicit Types (cars : list car) (seen : gset string).

(** When every identity of the batch is already stored, the loop finds
    nothing and the run only decides on the initialization message. *)
Lemma scraper_run_on_known (url : string) cars (now : string) seen :
  ids_of cars ⊆ seen →
  run_on url cars now seen =
    (seen,
     if size seen <=? length cars
     then [Send (MonitorInitialized (length cars) url)] else [],
     0).
Proof.
  intros Hsub. rewrite scraper_run_on_eq.
  destruct (scraper_find_new cars seen) as (Hseen & Hnew & _ & _).
  assert (Hnil : (find_new cars seen).1 = []).
  { destruct (find_new cars seen).1 as [|c new]; [done|]. exfalso.
    assert (Hc : id c ∈ (list_to_set (id <$> c :: new) : gset string)).
    { apply elem_of_list_to_set. cbn. left. }
    rewrite Hnew in Hc. clear -Hc Hsub. set_solver. }
  assert (Hsame : (find_new cars seen).2 = seen).
  { rewrite Hseen. clear -Hsub. set_solver. }
  cbn zeta. by rewrite Hnil, Hsame.
Qed.

Lemma scraper_ids_after_run (url : string) cars (now : string) seen :
  ids_of cars ⊆ (run_on url cars now seen).1.1.
Proof.
  destruct (scraper_diff url cars now seen) as (-> & _). set_solver.
Qed.

(** X4. A run that scrapes only identities that are already stored leaves
    the stored set as it is, reports nothing as new, saves nothing and
    returns 0; all it may send is the initialization message. *)
Theorem scraper_nothing_new (urljoin_fails : string → string → bool)
    (url : string) (response : option node) (now : string) seen :
  ids_of (scrape_cars urljoin_fails url response) ⊆ seen →
  let r := run urljoin_fails url response now seen in
  r.1.1 = seen
  ∧ r.2 = 0
  ∧ reported_new r.1.2 = []
  ∧ filter (λ e, is_save e) r.1.2 = []
  ∧ filter (λ e, is_new_record_message e) r.1.2 = [].
Proof.
  intros Hsub. unfold run. cbn zeta.
  rewrite (scraper_run_on_known url _ now seen Hsub). cbn [fst snd].
  by destruct (size seen <=? _).
Qed.

(** The theorem at the example page, whose listing is stored. *)
Lemma scraper_nothing_new_witness :
  let car := extract_car_data Examples.scraper_url Examples.fabia_listing in
  (run Examples.urljoin_returns Examples.scraper_url
     (Some Examples.one_car_page) "t2" {[ id car ]}).2 = 0.
Proof.
  intros car.
  assert (Hsub : ids_of (scrape_cars Examples.urljoin_returns Examples.scraper_url
                           (Some Examples.one_car_page))
                 ⊆ ({[ id car ]} : gset string)).
  { vm_compute. intros x Hx. exact Hx. }
  exact (proj1 (proj2 (scraper_nothing_new Examples.urljoin_returns
                         Examples.scraper_url
                         (Some Examples.one_car_page) "t2" {[ id car ]} Hsub))).
Defined.

(** X5. Running the scraper again on the same extraction is quiet: the
    second run reports no new car, sends no new-record message, saves
    nothing and keeps the stored set. *)
Theorem scraper_rerun_is_quiet (url : string) cars (t1 t2 : string) seen :
  let r1 := run_on url cars t1 seen in
  let r2 := run_on url cars t2 r1.1.1 in
  r2.1.1 = r1.1.1
  ∧ r2.2 = 0
  ∧ reported_new r2.1.2 = []
  ∧ filter (λ e, is_save e) r2.1.2 = []
  ∧ filter (λ e, is_new_record_message e) r2.1.2 = [].
Proof.
  cbn zeta.
  rewrite (scraper_run_on_known url cars t2 _ (scraper_ids_after_run url cars t1 seen)).
  cbn [fst snd]. by destruct (size _ <=? _).
Qed.

(** X6. A run whose request failed scrapes nothing: the stored set is
    kept, nothing is saved, the result is 0; and the initialization message
    is sent, for 0 listings, exactly when the stored set is empty. *)
Theorem scraper_failed_request (urljoin_fails : string → string → bool)
    (url : string) (now : string) seen :
  scrape_cars urljoin_fails url None = []
  ∧ run urljoin_fails url None now seen =
      (seen,
       if bool_decide (seen = ∅) then [Send (MonitorInitialized 0 url)] else [],
       0).
Proof.
  split; [done|]. unfold run. cbn [scrape_cars].
  rewrite scraper_run_on_known by (unfold ids_of; cbn; set_solver).
  cbn [length]. f_equal. f_equal.
  case_bool_decide as He.
  - subst seen. by rewrite size_empty.
  - destruct (Nat.leb_spec (size seen) 0) as [Hle|]; [|done].
    apply Nat.le_0_r, size_empty_iff in Hle. by apply leibniz_equiv in Hle.
Qed.

End ScraperRuns.

(** ** More on the multi-URL monitor *)

Section Yad2Further.
Import Yad2.
#[local] Open Scope Z_scope.

Implicit Types (st : loop_state) (t : url_config * probe) (d : data)
  (ts : list (url_config * probe)).

(** What one URL adds to the three result lists. *)
Lemma yad2_check_url_outcome st t :
  let st' := check_url st t in
  (fetched t.2 = None
   ∧ errors st' = errors st ++ [name t.1]
   ∧ all_changes st' = all_changes st
   ∧ first_run_searches st' = first_run_searches st
   ∧ st_searches st' = st_searches st)
  ∨ (∃ c, fetched t.2 = Some c
      ∧ errors st' = errors st
      ∧ ((st_searches st !! search_key (url t.1) = None
          ∧ all_changes st' = all_changes st
          ∧ first_run_searches st' =
              first_run_searches st
              ++ [{| f_name := name t.1; f_total := c; f_url := url t.1 |}]
          ∧ st_searches st' =
              <[search_key (url t.1) :=
                  {| s_name := name t.1; s_url := url t.1; last_total := c;
                     history := [] |}]> (st_searches st))
         ∨ (∃ s, st_searches st !! search_key (url t.1) = Some s
             ∧ first_run_searches st' = first_run_searches st
             ∧ ((c - last_total s = 0
                 ∧ all_changes st' = all_changes st
                 ∧ st_searches st' = st_searches st)
                ∨ (c - last_total s ≠ 0
                   ∧ all_changes st' =
                       all_changes st
                       ++ [{| c_name := name t.1; c_url := url t.1;
                              c_previous := last_total s; c_current := c;
                              c_diff := c - last_total s |}]
                   ∧ st_searches st' =
                       <[search_key (url t.1) :=
                           {| s_name := s_name s; s_url := s_url s;
                              last_total := c;
                              history :=
                                push_history (history s)
                                  {| h_time := now t.2; h_total := c;
                                     h_change := c - last_total s |} |}]>
                         (st_searches st)))))).
Proof.
  destruct t as [cfg w]. cbn [fst snd]. cbn zeta.
  destruct (fetched w) as [c|] eqn:Hw.
  - right. exists c. split; [done|].
    destruct (st_searches st !! search_key (url cfg)) as [s|] eqn:Hs.
    + destruct (decide (c - last_total s = 0)) as [Hd|Hd].
      * rewrite (yad2_check_url_unchanged st cfg w c s) by done.
        split; [done|]. right. exists s. split; [done|]. split; [done|]. by left.
      * rewrite (yad2_check_url_changed st cfg w c s) by done.
        split; [done|]. right. exists s. split; [done|]. split; [done|]. by right.
    + rewrite (yad2_check_url_first_run st cfg w c) by done.
      split; [done|]. by left.
  - left. by rewrite (yad2_check_url_error st cfg w).
Qed.

(** The errors of the loop are the names of the targets whose fetch
    failed, in order. *)
Lemma yad2_fold_errors ts st :
  errors (fold_left check_url ts st)
  = errors st ++ ((λ t, name t.1) <$> filter (λ t, is_failed t) ts).
Proof.
  revert st. induction ts as [|t ts IH]; intros st.
  - cbn. by rewrite app_nil_r.
  - cbn [fold_left]. rewrite IH.
    destruct (yad2_check_url_outcome st t) as [(Hw & -> & _)|(c & Hw & -> & _)].
    + rewrite filter_cons_True by (unfold is_failed; by rewrite Hw).
      cbn [fmap list_fmap]. by rewrite <- app_assoc.
    + rewrite filter_cons_False; [done|]. unfold is_failed. rewrite Hw. by intros [].
Qed.

(** Every target ends in at most one of the three result lists. *)
Lemma yad2_fold_counts ts st :
  (length (errors (fold_left check_url ts st))
   + length (first_run_searches (fold_left check_url ts st))
   + length (all_changes (fold_left check_url ts st))
   ≤ length (errors st) + length (first_run_searches st)
     + length (all_changes st) + length ts)%nat.
Proof.
  revert st. induction ts as [|t ts IH]; intros st; cbn [fold_left length]; [lia|].
  specialize (IH (check_url st t)).
  destruct (yad2_check_url_outcome st t)
    as [(_ & He & Hc & Hf & _)
       |(c & _ & He & [(_ & Hc & Hf & _)|(s & _ & Hf & [(_ & Hc & _)|(_ & Hc & _)])])];
    rewrite He, Hc, Hf in IH; rewrite ?length_app in IH; cbn [length] in IH; lia.
Qed.

(** What the messages of a run can be. *)
Lemma yad2_notifications_inv (n : nat) st (m : message) :
  m ∈ notifications n st →
  (m = MonitoringStarted (first_run_searches st) ∧ first_run_searches st ≠ [])
  ∨ (format_changes_message (all_changes st) = Some m ∧ all_changes st ≠ [])
  ∨ (m = FetchErrors (errors st) ∧ errors st ≠ [])
  ∨ (m = Status n (total_checks (st_searches st))
     ∧ (0 < total_checks (st_searches st))%nat
     ∧ (total_checks (st_searches st) mod 50 = 0)%nat).
Proof.
  unfold notifications. rewrite !elem_of_app. intros [H|[H|[H|H]]].
  - left. destruct (first_run_searches st); [by apply elem_of_nil in H|].
    by apply list_elem_of_singleton in H as ->.
  - right. left. destruct (all_changes st) as [|c cs]; [by apply elem_of_nil in H|].
    cbn [format_changes_message] in *. by apply list_elem_of_singleton in H as ->.
  - right. right. left. destruct (errors st); [by apply elem_of_nil in H|].
    by apply list_elem_of_singleton in H as ->.
  - right. right. right.
    destruct (Nat.ltb_spec 0 (total_checks (st_searches st))) as [Hpos|];
      [|by apply elem_of_nil in H].
    destruct (Nat.eqb_spec (total_checks (st_searches st) mod 50) 0) as [Hmod|];
      [|by apply elem_of_nil in H].
    cbn [andb] in H. by apply list_elem_of_singleton in H as ->.
Qed.

(** The messages in the trace of a run that started its driver. *)
Lemma yad2_sent_inv (i : run_input) d (m : message) :
  driver_ok i = true →
  Send m ∈ trace (run i d).2 ↔
  m ∈ notifications (length (targets i)) (check_all d (targets i)).
Proof.
  intros Hok. destruct (yad2_run_ok i d Hok) as (_ & _ & _ & _ & _ & ->).
  rewrite !elem_of_app. split.
  - intros [H|[H|H]].
    + apply list_elem_of_In, in_map_iff in H as (t & Ht & _). done.
    + by apply list_elem_of_singleton in H.
    + apply list_elem_of_In, in_map_iff in H as (m' & [= ->] & H).
      by apply list_elem_of_In.
  - intros H. right. right. apply list_elem_of_In, in_map_iff.
    exists m. split; [done|]. by apply list_elem_of_In.
Qed.

(** X8. The error list of a run is exactly the names of the targets whose
    fetch yielded no total, in the order of the targets; the error message,
    if one is sent, carries that list, and one is sent exactly when a fetch
    failed; and no target counts twice: errors, initialized searches and
    changes together are at most the targets. *)
Theorem yad2_errors_are_the_failed_targets (i : run_input) d :
  driver_ok i = true →
  let failed := (λ t, name t.1) <$> filter (λ t, is_failed t) (targets i) in
  errors (run i d).2 = failed
  ∧ (length (errors (run i d).2) + length (first_run_searches (run i d).2)
     + length (all_changes (run i d).2) ≤ length (targets i))%nat
  ∧ (∀ names, Send (FetchErrors names) ∈ trace (run i d).2 ↔
              names = failed ∧ failed ≠ []).
Proof.
  intros Hok failed.
  destruct (yad2_run_ok i d Hok) as (_ & _ & Hc & Hf & He & _).
  assert (Herr : errors (check_all d (targets i)) = failed).
  { unfold check_all. by rewrite yad2_fold_errors. }
  split; [by rewrite He|]. split.
  { rewrite He, Hf, Hc. unfold check_all.
    pose proof (yad2_fold_counts (targets i) (initial_state d)) as H.
    cbn [initial_state errors first_run_searches all_changes length] in H. lia. }
  intros names. rewrite yad2_sent_inv by done. split.
  - intros H. apply yad2_notifications_inv in H as [[H _]|[[H _]|[[H Hne]|[H _]]]];
      try done.
    + clear -H. destruct (all_changes (check_all d (targets i))); [done|].
      cbn [format_changes_message] in H. discriminate H.
    + injection H as ->. by rewrite <- Herr.
  - intros [-> Hne]. rewrite <- Herr. apply yad2_errors_notified. by rewrite Herr.
Qed.

(** The theorem at the first run over the two example searches. *)
Lemma yad2_errors_are_the_failed_targets_witness :
  errors (run Examples.yad2_two_searches (load_data None)).2 = [].
Proof.
  exact (proj1 (yad2_errors_are_the_failed_targets Examples.yad2_two_searches
                  (load_data None) eq_refl)).
Defined.

End Yad2Further.

Section Yad2Changes.
Import Yad2.
#[local] Open Scope Z_scope.

Implicit Types (st : loop_state) (t : url_config * probe) (d : data)
  (ts : list (url_config * probe)).

(** Every change the loop records is a real one. *)
Lemma yad2_fold_changes_real ts st :
  Forall (λ c, c_diff c ≠ 0 ∧ c_current c = c_previous c + c_diff c) (all_changes st) →
  Forall (λ c, c_diff c ≠ 0 ∧ c_current c = c_previous c + c_diff c)
         (all_changes (fold_left check_url ts st)).
Proof.
  revert st. induction ts as [|t ts IH]; intros st Hst; [done|].
  cbn [fold_left]. apply IH.
  destruct (yad2_check_url_outcome st t)
    as [(_ & _ & -> & _)
       |(c & _ & _ & [(_ & -> & _)|(s & _ & _ & [(_ & -> & _)|(Hd & -> & _)])])];
    try done.
  apply Forall_app. split; [done|]. constructor; [|done]. cbn. split; [done|lia].
Qed.

Lemma yad2_sum_positive (l : list Z) : Forall (λ x, 0 < x) l → 0 ≤ sum_Z l.
Proof. unfold sum_Z. induction 1; cbn [fold_right]; lia. Qed.

Lemma yad2_sum_negative (l : list Z) : Forall (λ x, x < 0) l → sum_Z l ≤ 0.
Proof. unfold sum_Z. induction 1; cbn [fold_right]; lia. Qed.

(** The two totals of the message split the sum of the deltas. *)
Lemma yad2_totals_split (cs : list change) :
  Forall (λ c, c_diff c ≠ 0) cs →
  sum_Z (map c_diff (filter (λ c, 0 <? c_diff c) cs))
  + sum_Z (map c_diff (filter (λ c, c_diff c <? 0) cs))
  = sum_Z (map c_diff cs).
Proof.
  induction 1 as [|c cs Hc _ IH]; [done|].
  destruct (Z.ltb_spec 0 (c_diff c)) as [Hpos|Hneg].
  - rewrite (filter_cons_True (λ c, 0 <? c_diff c))
      by (by apply Is_true_true, Z.ltb_lt).
    rewrite (filter_cons_False (λ c, c_diff c <? 0))
      by (intros H%Is_true_true%Z.ltb_lt; lia).
    unfold sum_Z in *. cbn [map fold_right] in *. lia.
  - rewrite (filter_cons_False (λ c, 0 <? c_diff c))
      by (intros H%Is_true_true%Z.ltb_lt; lia).
    rewrite (filter_cons_True (λ c, c_diff c <? 0))
      by (apply Is_true_true, Z.ltb_lt; lia).
    unfold sum_Z in *. cbn [map fold_right] in *. lia.
Qed.

(** X9. The change message of a run carries all the changes of the run,
    at least one of them; every one is a real change (its delta is not
    zero and leads from the previous to the current total); the total of
    new listings is not negative, the total of removed ones not positive,
    together they are the sum of the deltas, and one of the two summary
    lines is always there. *)
Theorem yad2_change_message_is_consistent (i : run_input) d
    (total_new total_removed : Z) (details : list change) :
  driver_ok i = true →
  Send (Changes total_new total_removed details) ∈ trace (run i d).2 →
  details = all_changes (run i d).2
  ∧ details ≠ []
  ∧ Forall (λ c, c_diff c ≠ 0 ∧ c_current c = c_previous c + c_diff c) details
  ∧ 0 ≤ total_new
  ∧ total_removed ≤ 0
  ∧ total_new + total_removed = sum_Z (map c_diff details)
  ∧ (0 < total_new ∨ total_removed < 0).
Proof.
  intros Hok Hsent.
  destruct (yad2_run_ok i d Hok) as (_ & _ & Hc & _).
  apply (yad2_sent_inv i d _ Hok) in Hsent.
  assert (Hreal : Forall (λ c, c_diff c ≠ 0 ∧ c_current c = c_previous c + c_diff c)
                    (all_changes (check_all d (targets i)))).
  { unfold check_all. apply yad2_fold_changes_real. cbn. constructor. }
  apply yad2_notifications_inv in Hsent as [[H _]|[[H Hne]|[[H _]|[H _]]]]; try done.
  rewrite Hc. set (cs := all_changes (check_all d (targets i))) in *.
  assert (Hfmt : format_changes_message cs
            = Some (Changes (sum_Z (map c_diff (filter (λ c, 0 <? c_diff c) cs)))
                            (sum_Z (map c_diff (filter (λ c, c_diff c <? 0) cs)))
                            cs)).
  { destruct cs; [done|reflexivity]. }
  rewrite Hfmt in H. injection H as <- <- <-.
  assert (Hnz : Forall (λ c, c_diff c ≠ 0) cs).
  { eapply Forall_impl; [exact Hreal|]. by intros c [? _]. }
  pose proof (yad2_totals_split cs Hnz) as Hsplit.
  assert (Hpos : 0 ≤ sum_Z (map c_diff (filter (λ c, 0 <? c_diff c) cs))).
  { apply yad2_sum_positive, Forall_forall. intros x Hx.
    apply list_elem_of_In, in_map_iff in Hx as (c & <- & Hin).
    apply list_elem_of_In, list_elem_of_filter in Hin as [Hin _].
    by apply Is_true_true, Z.ltb_lt in Hin. }
  assert (Hneg : sum_Z (map c_diff (filter (λ c, c_diff c <? 0) cs)) ≤ 0).
  { apply yad2_sum_negative, Forall_forall. intros x Hx.
    apply list_elem_of_In, in_map_iff in Hx as (c & <- & Hin).
    apply list_elem_of_In, list_elem_of_filter in Hin as [Hin _].
    by apply Is_true_true, Z.ltb_lt in Hin. }
  repeat split; try done.
  destruct cs as [|c cs']; [done|].
  apply Forall_cons in Hnz as [Hc0 _].
  destruct (Z.ltb_spec 0 (c_diff c)) as [Hp|Hn].
  - left. rewrite (filter_cons_True (λ c, 0 <? c_diff c))
      by (by apply Is_true_true, Z.ltb_lt).
    assert (0 ≤ sum_Z (map c_diff (filter (λ c, 0 <? c_diff c) cs')));
      [|unfold sum_Z in *; cbn [map fold_right] in *; lia].
    apply yad2_sum_positive, Forall_forall. intros x Hx.
    apply list_elem_of_In, in_map_iff in Hx as (c' & <- & Hin).
    apply list_elem_of_In, list_elem_of_filter in Hin as [Hin _].
    by apply Is_true_true, Z.ltb_lt in Hin.
  - right. rewrite (filter_cons_True (λ c, c_diff c <? 0))
      by (apply Is_true_true, Z.ltb_lt; lia).
    assert (sum_Z (map c_diff (filter (λ c, c_diff c <? 0) cs')) ≤ 0);
      [|unfold sum_Z in *; cbn [map fold_right] in *; lia].
    apply yad2_sum_negative, Forall_forall. intros x Hx.
    apply list_elem_of_In, in_map_iff in Hx as (c' & <- & Hin).
    apply list_elem_of_In, list_elem_of_filter in Hin as [Hin _].
    by apply Is_true_true, Z.ltb_lt in Hin.
Qed.

(** The theorem at the first run over the two example searches: the
    second search shares the slot of the first and reports 40 -> 43. *)
Lemma yad2_change_message_is_consistent_witness :
  (0 < 3 ∨ 0 < 0)%Z.
Proof.
  assert (Hsent :
    Send (Changes 3 0 [{| c_name := "two hands"; c_url := url Examples.two_hands;
                          c_previous := 40; c_current := 43; c_diff := 3 |}])
    ∈ trace (run Examples.yad2_two_searches (load_data None)).2).
  { apply list_elem_of_In. vm_compute. do 4 right. left. reflexivity. }
  destruct (yad2_change_message_is_consistent Examples.yad2_two_searches
              (load_data None) 3 0 _ eq_refl Hsent) as (_ & _ & _ & _ & _ & _ & H).
  exact H.
Defined.

(** *** Slots are created, never removed *)

Lemma yad2_check_url_dom st t :
  dom (st_searches (check_url st t))
  = dom (st_searches st)
    ∪ (if is_failed t then ∅ else {[ search_key (url t.1) ]}).
Proof.
  unfold is_failed.
  destruct (yad2_check_url_outcome st t)
    as [(Hw & _ & _ & _ & ->)
       |(c & Hw & _ & [(Hs & _ & _ & ->)|(s & Hs & _ & [(_ & _ & ->)|(_ & _ & ->)])])];
    rewrite Hw; rewrite ?dom_insert_L.
  - set_solver.
  - set_solver.
  - apply (elem_of_dom_2 (D := gset string)) in Hs. set_solver.
  - apply (elem_of_dom_2 (D := gset string)) in Hs. set_solver.
Qed.

Lemma yad2_fold_dom ts st :
  dom (st_searches (fold_left check_url ts st))
  = dom (st_searches st)
    ∪ list_to_set ((λ t, search_key (url t.1)) <$> filter (λ t, negb (is_failed t)) ts).
Proof.
  revert st. induction ts as [|t ts IH]; intros st.
  - cbn. set_solver.
  - cbn [fold_left]. rewrite IH, yad2_check_url_dom.
    destruct (is_failed t) eqn:Hf.
    + rewrite filter_cons_False by (rewrite Hf; by intros []). set_solver.
    + rewrite filter_cons_True by (by rewrite Hf). cbn [fmap list_fmap list_to_set].
      set_solver.
Qed.

(** X10. A run never removes a slot: the keys of the store after a run
    are the keys before it together with the keys of the targets whose
    total was fetched. *)
Theorem yad2_slots_only_grow (i : run_input) d :
  dom (searches (run i d).1)
  = dom (searches d)
    ∪ (if driver_ok i
       then list_to_set ((λ t, search_key (url t.1))
                           <$> filter (λ t, negb (is_failed t)) (targets i))
       else ∅)
  ∧ dom (searches d) ⊆ dom (searches (run i d).1).
Proof.
  assert (H : dom (searches (run i d).1)
    = dom (searches d)
      ∪ (if driver_ok i
         then list_to_set ((λ t, search_key (url t.1))
                             <$> filter (λ t, negb (is_failed t)) (targets i))
         else ∅)).
  { unfold run. destruct (driver_ok i); cbn [fst searches].
    - unfold check_all. by rewrite yad2_fold_dom.
    - set_solver. }
  split; [done|]. rewrite H. set_solver.
Qed.

(** *** A second look at unchanged totals *)

(** After the loop, the slot of every fetched target holds its total, when
    no two targets share a key. *)
Lemma yad2_fold_slots ts st :
  NoDup ((λ t, search_key (url t.1)) <$> ts) →
  ∀ t c, t ∈ ts → fetched t.2 = Some c →
    ∃ s, st_searches (fold_left check_url ts st) !! search_key (url t.1) = Some s
         ∧ last_total s = c.
Proof.
  revert st. induction ts as [|t0 ts IH]; intros st Hnd t c Ht Hc.
  - by apply elem_of_nil in Ht.
  - cbn [fmap list_fmap] in Hnd. apply NoDup_cons in Hnd as [Hfresh Hnd].
    cbn [fold_left]. apply elem_of_cons in Ht as [->|Ht].
    + rewrite yad2_check_all_other.
      * destruct t0 as [cfg w]. by apply yad2_slot_after_check.
      * intros t Ht Heq. apply Hfresh, list_elem_of_fmap. by exists t.
    + by apply IH.
Qed.

(** A loop over targets whose totals are the stored ones changes nothing. *)
Lemma yad2_fold_quiet ts st :
  (∀ t c, t ∈ ts → fetched t.2 = Some c →
     ∃ s, st_searches st !! search_key (url t.1) = Some s ∧ last_total s = c) →
  st_searches (fold_left check_url ts st) = st_searches st
  ∧ all_changes (fold_left check_url ts st) = all_changes st
  ∧ first_run_searches (fold_left check_url ts st) = first_run_searches st.
Proof.
  revert st. induction ts as [|t ts IH]; intros st Hst; [done|].
  cbn [fold_left].
  assert (Hstep : st_searches (check_url st t) = st_searches st
                  ∧ all_changes (check_url st t) = all_changes st
                  ∧ first_run_searches (check_url st t) = first_run_searches st).
  { destruct t as [cfg w]. destruct (fetched w) as [c|] eqn:Hw.
    - destruct (Hst (cfg, w) c) as (s & Hs & Hc); [by left|done|].
      rewrite (yad2_check_url_unchanged st cfg w c s) by (done || lia). done.
    - by rewrite (yad2_check_url_error st cfg w). }
  destruct Hstep as (H1 & H2 & H3).
  rewrite <- H1, <- H2, <- H3. apply IH.
  intros t' c Ht' Hc. rewrite H1. apply Hst; [by right|done].
Qed.

(** X11. When no two targets share a key, a second run that fetches the
    same totals reports no change and no initialized search, leaves every
    slot as the first run left it, and reports the same errors. *)
Theorem yad2_rerun_is_quiet (i : run_input) d (saved_again : string) :
  driver_ok i = true →
  NoDup ((λ t, search_key (url t.1)) <$> targets i) →
  let r1 := run i d in
  let r2 := run {| driver_ok := true; targets := targets i; saved_at := saved_again |}
                r1.1 in
  all_changes r2.2 = []
  ∧ first_run_searches r2.2 = []
  ∧ searches r2.1 = searches r1.1
  ∧ errors r2.2 = errors r1.2.
Proof.
  intros Hok Hnd. cbn zeta.
  set (r1 := run i d).
  set (i2 := {| driver_ok := true; targets := targets i; saved_at := saved_again |}).
  destruct (yad2_run_ok i d Hok) as (Hd1 & _ & _ & _ & He1 & _). fold r1 in Hd1, He1.
  destruct (yad2_run_ok i2 r1.1 eq_refl) as (Hd2 & _ & Hc2 & Hf2 & He2 & _).
  change (targets i2) with (targets i) in *.
  assert (Hs1 : searches r1.1 = st_searches (check_all d (targets i))) by (by rewrite Hd1).
  destruct (yad2_fold_quiet (targets i) (initial_state r1.1)) as (Hq1 & Hq2 & Hq3).
  { intros t c Ht Hc. cbn [initial_state st_searches]. rewrite Hs1.
    by apply yad2_fold_slots. }
  fold (check_all r1.1 (targets i)) in Hq1, Hq2, Hq3.
  rewrite Hc2, Hf2, Hd2, He2, He1. cbn [searches].
  split; [done|]. split; [done|]. split; [done|].
  unfold check_all. by rewrite !yad2_fold_errors.
Qed.

(** The theorem at one of the example searches. *)
Lemma yad2_rerun_is_quiet_witness :
  let i := {| driver_ok := true;
              targets := [(Examples.one_hand, {| fetched := Some 40; now := "t1" |})];
              saved_at := "t2" |} in
  all_changes (run {| driver_ok := true; targets := targets i; saved_at := "t4" |}
                   (run i (load_data None)).1).2 = [].
Proof.
  intros i.
  assert (Hnd : NoDup ((λ t, search_key (url t.1)) <$> targets i)).
  { apply NoDup_singleton. }
  exact (proj1 (yad2_rerun_is_quiet i (load_data None) "t4" eq_refl Hnd)).
Defined.

End Yad2Changes.

Section Yad2Keys.
Import Yad2.

(** X12. A URL of at most 100 characters is its own key, so two different
    such URLs never share a slot. *)
Theorem yad2_short_urls_have_own_slots (u1 u2 : string) :
  Py.len u1 ≤ 100 → Py.len u2 ≤ 100 →
  search_key u1 = u1 ∧ (u1 ≠ u2 → search_key u1 ≠ search_key u2).
Proof.
  intros H1 H2. unfold search_key. rewrite !py_take_all by done. done.
Qed.

(** The theorem at two short URLs. *)
Lemma yad2_short_urls_have_own_slots_witness :
  search_key "https://www.yad2.co.il/vehicles/cars?manufacturer=40"
  ≠ search_key "https://www.yad2.co.il/vehicles/cars?manufacturer=21".
Proof.
  assert (H1 : Py.len "https://www.yad2.co.il/vehicles/cars?manufacturer=40" ≤ 100)
    by (vm_compute; lia).
  assert (H2 : Py.len "https://www.yad2.co.il/vehicles/cars?manufacturer=21" ≤ 100)
    by (vm_compute; lia).
  apply (yad2_short_urls_have_own_slots _ _ H1 H2).
  apply String.eqb_neq. vm_compute. reflexivity.
Defined.

(** The number of stored history entries of a store with one slot. *)
Lemma yad2_total_checks_singleton (k : string) (s : search) :
  total_checks {[ k := s ]} = length (history s).
Proof. unfold total_checks. by rewrite map_fold_singleton. Qed.

(** X13. The status message counts stored history entries, not checks:
    once the only slot of the store holds 50 entries, every run over a
    target of that slot sends the status message again, whatever is
    fetched, and the count stays at 50. *)
Theorem yad2_status_repeats_when_history_is_full (d : data) (k : string) (s : search)
    (cfg : url_config) (w : probe) (saved : string) :
  searches d = {[ k := s ]} →
  length (history s) = 50 →
  search_key (url cfg) = k →
  let r := run {| driver_ok := true; targets := [(cfg, w)]; saved_at := saved |} d in
  Send (Status 1 50) ∈ trace r.2
  ∧ ∃ s', searches r.1 = {[ k := s' ]} ∧ length (history s') = 50.
Proof.
  intros Hd Hlen Hk. cbn zeta.
  set (i := {| driver_ok := true; targets := [(cfg, w)]; saved_at := saved |}).
  assert (Hstore : ∃ s', st_searches (check_all d (targets i)) = {[ k := s' ]}
                         ∧ length (history s') = 50).
  { unfold check_all. cbn [targets i fold_left].
    destruct (yad2_check_url_outcome (initial_state d) (cfg, w))
      as [(_ & _ & _ & _ & ->)
         |(c & _ & _ & [(Hs & _)|(s0 & Hs & _ & [(_ & _ & ->)|(_ & _ & ->)])])];
      cbn [fst snd initial_state st_searches] in *; rewrite ?Hd, ?Hk in *.
    - by exists s.
    - by rewrite lookup_singleton_eq in Hs.
    - by exists s.
    - rewrite lookup_singleton_eq in Hs. injection Hs as <-.
      eexists. rewrite insert_singleton_eq. split; [done|]. cbn [history].
      rewrite yad2_push_history_last_n, last_n_length, length_app, Hlen.
      unfold history_bound. cbn [length]. lia. }
  destruct Hstore as (s' & Hs' & Hlen').
  destruct (yad2_run_ok i d eq_refl) as (Hd1 & _).
  split.
  - apply (yad2_sent_inv i d _ eq_refl). unfold notifications.
    rewrite !elem_of_app. do 3 right.
    rewrite Hs', yad2_total_checks_singleton, Hlen'. cbn. left.
  - exists s'. by rewrite Hd1.
Qed.

(** The theorem at a slot with 50 entries and a fetch that fails. *)
Lemma yad2_status_repeats_when_history_is_full_witness :
  let s := {| s_name := "A"; s_url := "https://x"; last_total := 7%Z;
              history := replicate 50 {| h_time := "t"; h_total := 7%Z; h_change := 1%Z |} |} in
  let d := {| searches := {[ "https://x" := s ]}; last_check := None |} in
  Send (Status 1 50)
  ∈ trace (run {| driver_ok := true;
                  targets := [({| name := "A"; url := "https://x" |},
                               {| fetched := None; now := "t1" |})];
                  saved_at := "t2" |} d).2.
Proof.
  intros s d.
  assert (Hk : search_key "https://x" = "https://x") by (vm_compute; reflexivity).
  exact (proj1 (yad2_status_repeats_when_history_is_full d "https://x" s
                  {| name := "A"; url := "https://x" |}
                  {| fetched := None; now := "t1" |} "t2" eq_refl eq_refl Hk)).
Defined.

End Yad2Keys.

(** ** Reading a total out of a text *)

Section Totals.
#[local] Open Scope Z_scope.

Implicit Types (p : string → bool) (l run before after : list string).

(** The first run of a class in a list: what is in front of it has no
    character of the class, and the run ends where the class ends. *)
Lemma py_first_run_app p before run after :
  forallb (λ ch, negb (p ch)) before = true →
  run ≠ [] →
  forallb p run = true →
  match after with ch :: _ => p ch = false | [] => True end →
  Py.first_run p (before ++ run ++ after) = Some run.
Proof.
  intros Hb Hne Hr Ha. induction before as [|c before IH].
  - destruct run as [|c run]; [done|]. cbn [app Py.first_run].
    cbn [forallb] in Hr. apply andb_true_iff in Hr as [Hc Hr]. rewrite Hc.
    f_equal. cbn [Py.take_while]. rewrite Hc. f_equal.
    clear Hne Hc. induction run as [|d run IHr].
    + destruct after as [|a after]; [done|]. cbn [app Py.take_while]. by rewrite Ha.
    + cbn [forallb] in Hr. apply andb_true_iff in Hr as [Hd Hr].
      cbn [app Py.take_while]. by rewrite Hd, IHr.
  - cbn [forallb] in Hb. apply andb_true_iff in Hb as [Hc Hb].
    apply negb_true_iff in Hc. cbn [app Py.first_run]. rewrite Hc. by apply IH.
Qed.

Lemma py_first_run_none p l :
  forallb (λ ch, negb (p ch)) l = true → Py.first_run p l = None.
Proof.
  induction l as [|c l IH]; [done|]. cbn [forallb Py.first_run].
  intros [Hc Hl]%andb_true_iff. apply negb_true_iff in Hc. rewrite Hc. by apply IH.
Qed.

Lemma py_first_run_spec p l run :
  Py.first_run p l = Some run → run ≠ [] ∧ forallb p run = true.
Proof.
  induction l as [|c l IH]; [done|]. cbn [Py.first_run].
  destruct (p c) eqn:Hc; [|done]. intros [= <-].
  cbn [Py.take_while]. rewrite Hc. split; [done|].
  cbn [forallb]. by rewrite Hc, py_take_while_forall.
Qed.

(** A run of decimal digits is the list of the characters of its string. *)
Lemma py_chars_digits run :
  forallb Py.is_decimal run = true → Py.chars (Py.concat run) = run.
Proof.
  intros Hrun. apply py_chars_concat, Forall_forall. intros ch Hch.
  rewrite forallb_forall in Hrun. by apply py_is_decimal_ord, Hrun, list_elem_of_In.
Qed.

Lemma py_digit_value_nonneg (ch : string) : 0 ≤ Py.digit_value ch.
Proof. unfold Py.digit_value. destruct (Py.decimal ch); lia. Qed.

Lemma py_int_of_chars_nonneg l : 0 ≤ Py.int_of_chars l.
Proof.
  unfold Py.int_of_chars.
  assert (H : ∀ acc, 0 ≤ acc →
                     0 ≤ fold_left (λ acc ch, 10 * acc + Py.digit_value ch) l acc).
  { induction l as [|ch l IH]; intros a Ha; [done|]. cbn [fold_left]. apply IH.
    pose proof (py_digit_value_nonneg ch). lia. }
  by apply H.
Qed.

(** What [int] returns is the number that the digits denote; it is never
    negative, and there are at most 4300 digits. *)
Lemma py_int_spec (number : string) (n : Z) :
  Py.int number = Some n →
  n = Py.int_of_digits number ∧ 0 ≤ n ∧ (length (Py.chars number) ≤ 4300)%nat.
Proof.
  unfold Py.int, Py.max_str_digits.
  destruct (Nat.ltb_spec 4300 (length (Py.chars number))); [done|].
  intros [= <-]. split; [done|]. split; [apply py_int_of_chars_nonneg|lia].
Qed.

(** X14. The total that the multi-URL monitor reads out of the counter
    text is the number that the first maximal run of decimal digits of the
    text denotes, whatever follows the run (a thousands separator and
    more digits, say); it is never negative.  There is no total when the
    run has more than 4300 digits, which [int] refuses, when a text has
    no decimal digit, and when there is no counter element. *)
Theorem yad2_total_is_first_digit_run (text : string) (before digits after : list string) :
  Py.chars text = before ++ digits ++ after →
  forallb (λ ch, negb (Py.is_decimal ch)) before = true →
  digits ≠ [] →
  forallb Py.is_decimal digits = true →
  match after with ch :: _ => Py.is_decimal ch = false | [] => True end →
  Yad2.total_of_text (Some text)
  = (if (length digits <=? 4300)%nat then Some (Py.int_of_chars digits) else None)
  ∧ 0 ≤ Py.int_of_chars digits
  ∧ (∀ other : string,
       forallb (λ ch, negb (Py.is_decimal ch)) (Py.chars other) = true →
       Yad2.total_of_text (Some other) = None)
  ∧ Yad2.total_of_text None = None.
Proof.
  intros Htext Hb Hne Hd Ha.
  split; [|split; [apply py_int_of_chars_nonneg|split; [|done]]].
  - unfold Yad2.total_of_text, Py.first_number. rewrite Htext.
    rewrite py_first_run_app by done. cbn [fmap option_fmap option_map].
    assert (Htruthy : Py.truthy text = true).
    { destruct text; [|done]. by destruct before, digits. }
    rewrite Htruthy. unfold Py.int, Py.int_of_digits, Py.max_str_digits.
    rewrite py_chars_digits by done.
    destruct (Nat.leb_spec (length digits) 4300) as [Hle|Hgt].
    + by rewrite (proj2 (Nat.ltb_ge _ _) Hle).
    + by rewrite (proj2 (Nat.ltb_lt _ _) Hgt).
  - intros other Hother. unfold Yad2.total_of_text, Py.first_number.
    rewrite py_first_run_none by done. by destruct (Py.truthy other).
Qed.

(** The theorem at a counter with a thousands separator: 1,234 reads 1. *)
Lemma yad2_total_is_first_digit_run_witness :
  Yad2.total_of_text (Some "Found 1,234 results") = Some 1.
Proof.
  assert (H0 : Py.chars "Found 1,234 results"
               = Py.chars "Found " ++ ["1"%string] ++ Py.chars ",234 results")
    by (vm_compute; reflexivity).
  assert (H1 : forallb (λ ch, negb (Py.is_decimal ch)) (Py.chars "Found ") = true)
    by (vm_compute; reflexivity).
  assert (H2 : ["1"%string] ≠ []) by discriminate.
  assert (H3 : forallb Py.is_decimal ["1"%string] = true) by (vm_compute; reflexivity).
  assert (H4 : match Py.chars ",234 results" with
               | ch :: _ => Py.is_decimal ch = false
               | [] => True
               end) by (vm_compute; reflexivity).
  exact (proj1 (yad2_total_is_first_digit_run _ _ _ _ H0 H1 H2 H3 H4)).
Defined.

(** The loop over the headings: where its result comes from. *)
Lemma autodeal_total_of_headings (h1s : list AutoDeal.element) (n : Z) :
  AutoDeal.total_of_headings h1s = Some n →
  ∃ h1 number,
    h1 ∈ h1s
    ∧ Py.contains AutoDeal.found_marker (Py.strip (AutoDeal.e_text h1)) = true
    ∧ Py.first_number (Py.strip (AutoDeal.e_text h1)) = Some number
    ∧ Py.int number = Some n.
Proof.
  induction h1s as [|h1 h1s IH]; [done|]. cbn [AutoDeal.total_of_headings].
  destruct (Py.contains _ _) eqn:Hm; cbn [andb].
  - destruct (existsb _ _).
    + destruct (Py.first_number _) as [number|] eqn:Hnum.
      * intros Hn. exists h1, number. split; [left|done].
      * intros Hn. destruct (IH Hn) as (h & number & Hin & H). exists h, number.
        split; [by right|done].
    + intros Hn. destruct (IH Hn) as (h & number & Hin & H). exists h, number.
      split; [by right|done].
  - intros Hn. destruct (IH Hn) as (h & number & Hin & H). exists h, number.
    split; [by right|done].
Qed.

Lemma autodeal_total_nonneg (p : AutoDeal.page) (n : Z) :
  AutoDeal.get_total_count p = Some n → 0 ≤ n.
Proof.
  unfold AutoDeal.get_total_count. intros H.
  apply autodeal_total_of_headings in H as (h1 & number & _ & _ & _ & Hint).
  by apply py_int_spec in Hint as (_ & Hn & _).
Qed.

(** X15. A total that the single-model monitor reads off a results page
    comes from a heading of the page whose text has the marker; it is the
    number that the first maximal run of decimal digits of that text
    denotes, a run of at most 4300 digits, and it is never negative. *)
Theorem autodeal_total_comes_from_a_heading (p : AutoDeal.page) (n : Z) :
  AutoDeal.get_total_count p = Some n →
  0 ≤ n
  ∧ ∃ h1 number,
      h1 ∈ p ∧ AutoDeal.e_tag h1 = "h1"
      ∧ Py.contains AutoDeal.found_marker (Py.strip (AutoDeal.e_text h1)) = true
      ∧ Py.first_number (Py.strip (AutoDeal.e_text h1)) = Some number
      ∧ (length (Py.chars number) ≤ 4300)%nat
      ∧ n = Py.int_of_digits number.
Proof.
  unfold AutoDeal.get_total_count. intros H.
  apply autodeal_total_of_headings in H as (h1 & number & Hin & Hm & Hnum & Hint).
  unfold AutoDeal.find_elements_tag in Hin.
  apply list_elem_of_filter in Hin as [Htag Hin].
  apply Is_true_true, String.eqb_eq in Htag.
  apply py_int_spec in Hint as (-> & Hn & Hlen).
  split; [done|]. by exists h1, number.
Qed.

(** The theorem at a page with one heading. *)
Lemma autodeal_total_comes_from_a_heading_witness : 0 ≤ 37.
Proof.
  assert (H : AutoDeal.get_total_count
                [{| AutoDeal.e_tag := "h1"; AutoDeal.e_attrs := [];
                    AutoDeal.e_text := " נמצאו 37 רכבים " |}] = Some 37)
    by (vm_compute; reflexivity).
  exact (proj1 (autodeal_total_comes_from_a_heading _ 37 H)).
Defined.

End Totals.

(** ** The configured searches *)

Section Configuration.
Import Yad2.

Implicit Types (s a b x : string) (c : ascii).

Lemma py_has_char_app c a b :
  Py.has_char c (a +:+ b) = Py.has_char c a || Py.has_char c b.
Proof.
  induction a as [|y a IH]; [done|]. rewrite str_app_cons. cbn [Py.has_char].
  rewrite IH. by destruct (Ascii.eqb y c).
Qed.

Lemma py_replace_char_none c (r : ascii) s :
  Py.has_char c s = false → Py.replace_char c r s = s.
Proof.
  induction s as [|y s IH]; [done|]. cbn [Py.has_char Py.replace_char].
  intros [Hy Hs]%orb_false_iff. by rewrite Hy, IH.
Qed.

Lemma py_replace_char_app c (r : ascii) a b :
  Py.replace_char c r (a +:+ b) = Py.replace_char c r a +:+ Py.replace_char c r b.
Proof.
  induction a as [|y a IH]; [done|]. rewrite str_app_cons. cbn [Py.replace_char].
  by rewrite IH, str_app_cons.
Qed.

Lemma py_split_on_plain c x : Py.has_char c x = false → Py.split_on c x = [x].
Proof.
  induction x as [|y x IH]; [done|]. cbn [Py.has_char Py.split_on].
  intros [Hy Hx]%orb_false_iff. by rewrite Hy, IH.
Qed.

Lemma py_split_on_app c x rest :
  Py.has_char c x = false →
  Py.split_on c (x +:+ String c rest) = x :: Py.split_on c rest.
Proof.
  induction x as [|y x IH].
  - intros _. rewrite str_app_nil_l. cbn [Py.split_on]. by rewrite Ascii.eqb_refl.
  - cbn [Py.has_char]. intros [Hy Hx]%orb_false_iff.
    rewrite str_app_cons. cbn [Py.split_on]. by rewrite Hy, IH.
Qed.

Lemma py_join_cons (sep x y : string) (l : list string) :
  Py.join sep (x :: y :: l) = x +:+ sep +:+ Py.join sep (y :: l).
Proof. reflexivity. Qed.

(** Splitting what was joined gives the pieces back. *)
Lemma py_split_on_join c (l : list string) :
  l ≠ [] → Forall (λ x, Py.has_char c x = false) l →
  Py.split_on c (Py.join (String c "") l) = l.
Proof.
  intros Hne Hl. induction Hl as [|x l Hx Hl IH]; [done|].
  destruct l as [|y l].
  - cbn [Py.join]. by apply py_split_on_plain.
  - rewrite py_join_cons, str_app_cons, str_app_nil_l.
    rewrite py_split_on_app by done. by rewrite IH.
Qed.

Lemma py_join_has_char c (sep : string) (l : list string) :
  Py.has_char c sep = false →
  Forall (λ x, Py.has_char c x = false) l →
  Py.has_char c (Py.join sep l) = false.
Proof.
  intros Hsep Hl. induction Hl as [|x l Hx Hl IH]; [done|].
  destruct l as [|y l]; [done|].
  rewrite py_join_cons, !py_has_char_app, Hx, Hsep, IH. done.
Qed.

Lemma py_replace_join (c r : ascii) (l : list string) :
  Forall (λ x, Py.has_char c x = false) l →
  Py.replace_char c r (Py.join (String c "") l) = Py.join (String r "") l.
Proof.
  intros Hl. induction Hl as [|x l Hx Hl IH]; [done|].
  destruct l as [|y l].
  - cbn [Py.join]. by apply py_replace_char_none.
  - rewrite !py_join_cons, !py_replace_char_app, IH.
    rewrite (py_replace_char_none c r x) by done.
    cbn [Py.replace_char]. by rewrite Ascii.eqb_refl.
Qed.

Lemma py_lstrip_chars_spec (l : list string) :
  ∃ front, l = front ++ Py.lstrip_chars l
           ∧ match Py.lstrip_chars l with
             | ch :: _ => Py.is_space ch = false
             | [] => True
             end.
Proof.
  exists (Py.take_while Py.is_space l). unfold Py.lstrip_chars.
  split; [by rewrite py_take_drop_while | apply py_drop_while_head].
Qed.

Lemma py_rstrip_chars_spec (l : list string) :
  ∃ back, l = Py.rstrip_chars l ++ back
          ∧ match rev (Py.rstrip_chars l) with
            | ch :: _ => Py.is_space ch = false
            | [] => True
            end.
Proof.
  exists (rev (Py.take_while Py.is_space (rev l))). unfold Py.rstrip_chars.
  split.
  - rewrite <- rev_app_distr, py_take_drop_while. by rewrite rev_involutive.
  - rewrite rev_involutive. apply py_drop_while_head.
Qed.

Lemma py_lstrip_chars_id (l : list string) :
  match l with ch :: _ => Py.is_space ch = false | [] => True end →
  Py.lstrip_chars l = l.
Proof.
  destruct l as [|ch l]; [done|]. intros H. unfold Py.lstrip_chars.
  cbn [Py.drop_while]. by rewrite H.
Qed.

Lemma py_rstrip_chars_id (l : list string) :
  match rev l with ch :: _ => Py.is_space ch = false | [] => True end →
  Py.rstrip_chars l = l.
Proof.
  intros H. unfold Py.rstrip_chars. destruct (rev l) as [|ch r] eqn:E.
  - cbn. by rewrite <- (rev_involutive l), E.
  - cbn [Py.drop_while]. rewrite H, <- E. apply rev_involutive.
Qed.

Lemma py_concat_length_pos (l : list string) :
  Forall (λ ch, ch ≠ "") l → l ≠ [] → 0 < String.length (Py.concat l).
Proof.
  intros Hl Hne. destruct Hl as [|ch l Hch _]; [done|]. cbn [Py.concat].
  rewrite str_length_app. destruct ch; [done|]. cbn [String.length]. lia.
Qed.

(** A string that [strip] leaves alone has no white space at either end. *)
Lemma py_strip_fixed s :
  Py.strip s = s →
  match Py.chars s with ch :: _ => Py.is_space ch = false | [] => True end
  ∧ match rev (Py.chars s) with ch :: _ => Py.is_space ch = false | [] => True end.
Proof.
  unfold Py.strip, Py.strip_chars. intros Hs.
  destruct (py_lstrip_chars_spec (Py.chars s)) as (front & Hfront & Hhead).
  destruct (py_rstrip_chars_spec (Py.lstrip_chars (Py.chars s)))
    as (back & Hback & Hlast).
  pose proof (py_chars_nonempty s) as Hne.
  assert (Hlen : String.length (Py.concat front) + String.length (Py.concat back) = 0).
  { pose proof (f_equal String.length (py_concat_chars s)) as Hall.
    rewrite Hfront, Hback, !py_concat_app, !str_length_app, Hs in Hall. lia. }
  rewrite Hfront in Hne. apply Forall_app in Hne as [Hne1 Hne].
  rewrite Hback in Hne. apply Forall_app in Hne as [_ Hne2].
  assert (front = []) as ->.
  { destruct front as [|x front]; [done|]. exfalso.
    pose proof (py_concat_length_pos (x :: front) Hne1 ltac:(done)). lia. }
  assert (back = []) as ->.
  { destruct back as [|x back]; [done|]. exfalso.
    pose proof (py_concat_length_pos (x :: back) Hne2 ltac:(done)). lia. }
  cbn [app] in Hfront. rewrite app_nil_r in Hback.
  rewrite <- Hback, <- Hfront in Hlast. rewrite <- Hfront in Hhead. done.
Qed.

(** No white space at either end: [strip] changes nothing. *)
Lemma py_strip_id s :
  match Py.chars s with ch :: _ => Py.is_space ch = false | [] => True end →
  match rev (Py.chars s) with ch :: _ => Py.is_space ch = false | [] => True end →
  Py.strip s = s.
Proof.
  intros Hhead Hlast. unfold Py.strip, Py.strip_chars.
  rewrite (py_lstrip_chars_id _ Hhead), (py_rstrip_chars_id _ Hlast).
  apply py_concat_chars.
Qed.

Lemma py_split_first_app c a b :
  Py.has_char c a = false → Py.split_first c (a +:+ String c b) = (a, b).
Proof.
  induction a as [|y a IH].
  - intros _. rewrite str_app_nil_l. cbn [Py.split_first]. by rewrite Ascii.eqb_refl.
  - cbn [Py.has_char]. intros [Hy Ha]%orb_false_iff.
    rewrite str_app_cons. cbn [Py.split_first]. by rewrite Hy, IH.
Qed.

Lemma yad2_format_entry_plain (cfg : url_config) :
  well_formed cfg →
  Py.strip (format_entry cfg) = format_entry cfg
  ∧ Py.has_char ";" (format_entry cfg) = false
  ∧ Py.has_char "010" (format_entry cfg) = false.
Proof.
  intros ((Hn1 & Hn2 & Hn3 & Hn4) & (Hu1 & Hu2 & Hu3 & Hu4) & Hbar).
  unfold format_entry. rewrite str_app_cons, str_app_nil_l.
  split; [|split].
  - destruct (py_strip_fixed _ Hn4) as [Hnh Hnl].
    destruct (py_strip_fixed _ Hu4) as [Huh Hul].
    assert (Hbar_space : Py.is_space "|" = false) by (vm_compute; reflexivity).
    assert (Hchars : Py.chars (name cfg +:+ String "|" (url cfg))
                     = Py.chars (name cfg) ++ "|"%string :: Py.chars (url cfg)).
    { rewrite py_chars_app by done. by rewrite py_chars_byte. }
    apply py_strip_id; rewrite Hchars.
    + by destruct (Py.chars (name cfg)).
    + rewrite rev_app_distr. cbn [rev]. rewrite <- app_assoc. cbn [app].
      by destruct (rev (Py.chars (url cfg))).
  - rewrite py_has_char_app, Hn1. cbn [Py.has_char orb]. by rewrite Hu1.
  - rewrite py_has_char_app, Hn2. cbn [Py.has_char orb]. by rewrite Hu2.
Qed.

Lemma yad2_parse_format_entry (cfg : url_config) :
  well_formed cfg → parse_entry (format_entry cfg) = Some cfg.
Proof.
  intros Hwf. destruct (yad2_format_entry_plain cfg Hwf) as (Hstrip & _ & _).
  destruct Hwf as ((Hn1 & Hn2 & Hn3 & Hn4) & (Hu1 & Hu2 & Hu3 & Hu4) & Hbar).
  unfold parse_entry. rewrite Hstrip.
  unfold format_entry. rewrite str_app_cons, str_app_nil_l.
  assert (Htruthy : Py.truthy (name cfg +:+ String "|" (url cfg)) = true).
  { destruct (name cfg); [done|]. by rewrite str_app_cons. }
  rewrite Htruthy. cbn [negb].
  rewrite py_has_char_app. cbn [Py.has_char]. rewrite Ascii.eqb_refl, orb_true_r.
  rewrite py_split_first_app by done.
  rewrite Hn4, Hu4. by destruct cfg.
Qed.

(** X16. Parsing the textual form of a list of searches gives the list
    back, with semicolons or with newlines between the entries, provided
    names and URLs carry no separator and no white space at either end
    (none of the characters that [strip] removes) and names carry no bar;
    the empty text yields no search. *)
Theorem yad2_parse_urls_round_trip (cs : list url_config) :
  Forall well_formed cs →
  parse_urls (format_urls cs) = cs
  ∧ parse_urls (Py.join (String "010" "") (map format_entry cs)) = cs
  ∧ parse_urls "" = [].
Proof.
  intros Hwf.
  assert (Hentries : omap parse_entry (map format_entry cs) = cs).
  { induction Hwf as [|cfg cs Hc _ IH]; [done|].
    cbn [map omap list_omap]. by rewrite yad2_parse_format_entry, IH. }
  assert (Hsemi : Forall (λ x, Py.has_char ";" x = false) (map format_entry cs)).
  { apply Forall_forall. intros x Hx.
    apply list_elem_of_In, in_map_iff in Hx as (cfg & <- & Hin).
    apply list_elem_of_In in Hin. rewrite Forall_forall in Hwf.
    apply yad2_format_entry_plain. by apply Hwf. }
  assert (Hnl : Forall (λ x, Py.has_char "010" x = false) (map format_entry cs)).
  { apply Forall_forall. intros x Hx.
    apply list_elem_of_In, in_map_iff in Hx as (cfg & <- & Hin).
    apply list_elem_of_In in Hin. rewrite Forall_forall in Hwf.
    apply yad2_format_entry_plain. by apply Hwf. }
  assert (Hsplit : omap parse_entry
                     (Py.split_on ";" (Py.join ";" (map format_entry cs))) = cs).
  { destruct cs as [|cfg cs]; [done|].
    rewrite (py_split_on_join ";") by done. exact Hentries. }
  split; [|split; [|done]].
  - unfold parse_urls, format_urls.
    rewrite py_replace_char_none by (by apply py_join_has_char). exact Hsplit.
  - unfold parse_urls. rewrite py_replace_join by done. exact Hsplit.
Qed.

(** The theorem at the two example searches. *)
Lemma yad2_parse_urls_round_trip_witness :
  parse_urls (format_urls [Examples.one_hand; Examples.two_hands])
  = [Examples.one_hand; Examples.two_hands].
Proof.
  assert (Hwf : Forall well_formed [Examples.one_hand; Examples.two_hands]).
  { repeat constructor; vm_compute; reflexivity. }
  exact (proj1 (yad2_parse_urls_round_trip _ Hwf)).
Defined.

End Configuration.

Section GeneratedNames.
Import Yad2.

Lemma py_join_nonempty (sep x : string) (l : list string) :
  x ≠ "" → Py.join sep (x :: l) ≠ "".
Proof.
  intros Hx. destruct l as [|y l]; [done|]. rewrite py_join_cons.
  destruct x as [|c x]; [done|]. by rewrite str_app_cons.
Qed.

Lemma yad2_manufacturer_names_nonempty (code v : string) :
  dict_get code manufacturers = Some v → v ≠ "".
Proof.
  unfold manufacturers. cbn [dict_get].
  repeat (destruct (String.eqb _ code); [intros [= <-]; discriminate|]).
  done.
Qed.

Lemma yad2_parts_nonempty (u : string) :
  Forall (λ part, part ≠ "") (manufacturer_part u ++ price_part u ++ year_part u)
  ∧ length (manufacturer_part u ++ price_part u ++ year_part u) ≤ 3.
Proof.
  assert (Hlit : ∀ (prefix rest : string), prefix ≠ "" → prefix +:+ rest ≠ "").
  { intros [|c prefix] rest Hp; [done|]. by rewrite str_app_cons. }
  unfold manufacturer_part, price_part, year_part.
  destruct (Py.contains "manufacturer=" u);
    [destruct (Re.group1 (Re.lit "manufacturer=") _ _ u) as [code|]|];
    (destruct (Py.contains "price=" u);
      [destruct (Re.group1 (Re.lit "price=") _ _ u)|]);
    (destruct (Py.contains "year=" u);
      [destruct (Re.group1 (Re.lit "year=") _ _ u)|]);
    cbn [app length]; (split; [|lia]);
    repeat (constructor; try (by apply Hlit));
    try (destruct (dict_get code manufacturers) as [v|] eqn:Hv; cbn [default];
         [by eapply yad2_manufacturer_names_nonempty | by apply Hlit]).
Qed.

(** X17. The name generated for a URL is never empty: it is the default
    name or it is made of at most three parts, none of them empty. *)
Theorem yad2_generated_name_is_never_empty (u : string) :
  generate_name_from_url u ≠ ""
  ∧ length (manufacturer_part u ++ price_part u ++ year_part u) ≤ 3
  ∧ (generate_name_from_url u = default_name
     ∨ generate_name_from_url u
       = Py.join " " (manufacturer_part u ++ price_part u ++ year_part u)).
Proof.
  destruct (yad2_parts_nonempty u) as [Hparts Hlen].
  unfold generate_name_from_url.
  destruct (manufacturer_part u ++ price_part u ++ year_part u) as [|part parts].
  - split; [done|]. split; [done|]. by left.
  - apply Forall_cons in Hparts as [Hpart _].
    split; [by apply py_join_nonempty|]. split; [done|]. by right.
Qed.

End GeneratedNames.

(** ** More on the single-model monitor *)

Section AutoDealFurther.
Import AutoDeal.

Implicit Types (d : data) (p : page).

Lemma autodeal_head_filter {A} (P : A → bool) (l : list A) (x : A) :
  head (filter (λ y, P y) l) = Some x → x ∈ l ∧ P x = true.
Proof.
  intros H. apply head_Some_elem_of, list_elem_of_filter in H as [HP Hx].
  split; [done|]. by apply Is_true_true.
Qed.

(** X18. What a listing of the single-model monitor holds: its text had at
    least 10 characters; the stored text is the start of it, at most 500
    characters; the model is one of the known models and occurs in the
    text; the year is 20 and two decimal digits; price and mileage are
    non-empty runs of decimal digits and commas; the flag says whether the
    target model occurs in the text; and the identity is the composite key
    of model, year and price. *)
Theorem autodeal_listing_fields (target_model : string) (e : element) (l : car_info) :
  extract_listing target_model e = Some l →
  let text := Py.strip (e_text e) in
  10 ≤ Py.len text
  ∧ Py.len (full_text l) ≤ 500
  ∧ (∃ rest, text = full_text l +:+ rest)
  ∧ match model l with
    | Some m => m ∈ models ∧ Py.contains m text = true
    | None => True
    end
  ∧ match year l with
    | Some y => ∃ c1 c2 : string,
                  y = "20" +:+ c1 +:+ c2
                  ∧ Py.is_decimal c1 = true ∧ Py.is_decimal c2 = true
    | None => True
    end
  ∧ match price l with
    | Some v => ∃ w, v = Py.concat w ∧ w ≠ [] ∧ forallb digit_or_comma w = true
    | None => True
    end
  ∧ match km l with
    | Some v => ∃ w, v = Py.concat w ∧ w ≠ [] ∧ forallb digit_or_comma w = true
    | None => True
    end
  ∧ is_fabia l = Py.contains target_model text
  ∧ id l = identity (model l) (year l) (price l).
Proof.
  unfold extract_listing. cbn zeta. set (text := Py.strip (e_text e)). intros H.
  destruct (negb (Py.truthy text) || (Py.len text <? 10)) eqn:Hskip; [done|].
  apply orb_false_iff in Hskip as [_ Hlen]. apply Nat.ltb_ge in Hlen.
  injection H as <-. cbn [full_text model year price km is_fabia id].
  split; [done|]. split; [apply py_len_take|]. split; [apply py_take_prefix|].
  assert (Hrun : ∀ w, Re.accepts [Re.Many 1 None digit_or_comma] w →
                      w ≠ [] ∧ forallb digit_or_comma w = true).
  { intros w Hw. apply accepts_last in Hw as (Hall & Hlo & _).
    split; [|done]. destruct w; [cbn in Hlo; lia|done]. }
  split; [|split; [|split; [|split; [|done]]]].
  - destruct (head _) as [m|] eqn:Hm; [|done]. by apply autodeal_head_filter in Hm.
  - change (Re.lit "20") with [Re.chr "2"; Re.chr "0"].
    destruct (Re.group0 _ _ _ text) as [y|] eqn:Hy; [|done].
    apply group0_sound in Hy as (w & -> & Hacc & _).
    cbn [app Re.chr] in Hacc.
    apply accepts_one in Hacc as (c1 & w1 & -> & Hc1 & Hacc).
    apply accepts_one in Hacc as (c2 & w2 & -> & Hc2 & Hacc).
    apply accepts_last in Hacc as (Hall & Hlo & Hhi).
    destruct w2 as [|x1 [|x2 [|x3 w]]]; cbn [length] in Hlo, Hhi; try lia.
    apply String.eqb_eq in Hc1, Hc2. subst c1 c2.
    cbn [forallb] in Hall. rewrite andb_true_r in Hall.
    apply andb_true_iff in Hall as [H1 H2].
    exists x1, x2. split; [|done]. cbn [Py.concat]. by rewrite str_app_nil_r.
  - destruct (Re.group1 (Re.lit shekel) _ _ text) as [v|] eqn:Hv; [|done].
    apply group1_sound in Hv as (w & -> & Hw). exists w. split; [done|]. by apply Hrun.
  - destruct (Re.group1 [] _ _ text) as [v|] eqn:Hv; [|done].
    apply group1_sound in Hv as (w & -> & Hw). exists w. split; [done|]. by apply Hrun.
Qed.

(** The theorem at the example listing. *)
Lemma autodeal_listing_fields_witness :
  10 ≤ Py.len (Py.strip (e_text Examples.fabia_2019)).
Proof.
  assert (H : extract_listing default_target_model Examples.fabia_2019
              = Some {| full_text := "סקודה פאביה 2019 ₪45,000 30,000 ק״מ";
                        model := Some "פאביה"; price := Some "45,000";
                        year := Some "2019"; km := Some "30,000";
                        is_fabia := true; id := "פאביה_2019_45,000" |})
    by (vm_compute; reflexivity).
  exact (proj1 (autodeal_listing_fields default_target_model Examples.fabia_2019 _ H)).
Defined.

End AutoDealFurther.

Section AutoDealRuns.
Import AutoDeal.

Implicit Types (d : data) (p : page).

(** A listing whose model is the target model has the flag. *)
Lemma autodeal_model_implies_flag (target_model : string) (e : element) (l : car_info) :
  extract_listing target_model e = Some l →
  model l = Some target_model → is_fabia l = true.
Proof.
  unfold extract_listing.
  destruct (negb _ || _); [done|]. intros [= <-]. cbn [model is_fabia].
  intros Hm. by apply autodeal_head_filter in Hm as [_ Hm].
Qed.

(** X19. The listings of the target model are exactly the extracted
    listings whose text mentions the target model: the test on the
    [model] field never adds a listing. *)
Theorem autodeal_target_listings_by_flag (target_model : string) p :
  fabia_listings target_model p
  = filter (λ l, is_fabia l) (extract_car_listings target_model p)
  ∧ Forall (λ l, is_fabia l = true) (fabia_listings target_model p).
Proof.
  assert (Hall : Forall (λ l, model l = Some target_model → is_fabia l = true)
                   (extract_car_listings target_model p)).
  { unfold extract_car_listings. apply Forall_forall. intros l Hl.
    apply list_elem_of_omap in Hl as (e & _ & He).
    by apply autodeal_model_implies_flag with e. }
  assert (Heq : fabia_listings target_model p
                = filter (λ l, is_fabia l) (extract_car_listings target_model p)).
  { unfold fabia_listings.
    induction Hall as [|l ls Hl _ IH]; [done|].
    destruct (is_fabia l) eqn:Hf.
    - rewrite (filter_cons_True (λ l, is_fabia l || _)) by (by rewrite Hf).
      rewrite (filter_cons_True (λ l, is_fabia l)) by (by rewrite Hf).
      by rewrite IH.
    - rewrite (filter_cons_False (λ l, is_fabia l || _)).
      + rewrite (filter_cons_False (λ l, is_fabia l)); [done|]. rewrite Hf. by intros [].
      + rewrite Hf. cbn [orb]. intros Hm%bool_decide_unpack.
        specialize (Hl Hm). congruence. }
  split; [done|]. rewrite Heq. apply Forall_forall. intros l Hl.
  apply list_elem_of_filter in Hl as [Hl _]. by apply Is_true_true.
Qed.

Lemma autodeal_extract_bound (target_model : string) p :
  length (fabia_listings target_model p) ≤ 50.
Proof.
  unfold fabia_listings. etrans; [apply length_filter|].
  unfold extract_car_listings. etrans; [apply autodeal_omap_length|].
  unfold inspected, max_elements. rewrite length_take. lia.
Qed.

(** X20. Whatever the runs since the default store, completed or failed,
    the stored count is the number of stored identities and at most 50,
    the stored total is null or not negative, and no stored history entry
    counts more than 50 listings. *)
Theorem autodeal_store_is_consistent (target_model : string)
    (inputs : list run_input) :
  let d := runs target_model inputs (load_data None) in
  last_fabia_count d = length (last_fabia_ids d)
  ∧ last_fabia_count d ≤ 50
  ∧ match last_total d with Some n => (0 ≤ n)%Z | None => True end
  ∧ Forall (λ h, fabias h ≤ 50) (history d).
Proof.
  cbn zeta.
  assert (Hinv : ∀ d,
    (last_fabia_count d = length (last_fabia_ids d)
     ∧ last_fabia_count d ≤ 50
     ∧ match last_total d with Some n => (0 ≤ n)%Z | None => True end
     ∧ Forall (λ h, fabias h ≤ 50) (history d)) →
    last_fabia_count (runs target_model inputs d)
    = length (last_fabia_ids (runs target_model inputs d))
    ∧ last_fabia_count (runs target_model inputs d) ≤ 50
    ∧ match last_total (runs target_model inputs d) with
      | Some n => (0 ≤ n)%Z | None => True end
    ∧ Forall (λ h, fabias h ≤ 50) (history (runs target_model inputs d))).
  { induction inputs as [|[[p|] t] inputs IH]; intros d Hd; [done| |].
    - unfold runs in *. cbn [fold_left]. apply IH.
      pose proof (autodeal_extract_bound target_model p) as Hcount.
      destruct Hd as (_ & _ & _ & Hhist).
      cbn [run loaded fst last_fabia_count last_fabia_ids last_total history now].
      split; [by rewrite length_map|]. split; [done|]. split.
      + destruct (get_total_count p) as [n|] eqn:Hn; [|done].
        by apply autodeal_total_nonneg in Hn.
      + rewrite autodeal_push_history_last_n. unfold Py.last_n.
        apply Forall_drop, Forall_app. split; [done|].
        constructor; [|done]. done.
    - unfold runs in *. cbn [fold_left]. rewrite autodeal_run_failed. by apply IH. }
  apply Hinv. cbn. repeat split; try lia. constructor.
Qed.

(** X21. A run right after a completed run never announces the start
    again; and when it sees the page the completed run saw, it sends
    nothing at all: it only saves. *)
Theorem autodeal_rerun_is_quiet (target_model : string) p p' (t1 t2 : string) d :
  let d1 := (run target_model {| loaded := Some p; now := t1 |} d).1 in
  let same := run target_model {| loaded := Some p; now := t2 |} d1 in
  let other := run target_model {| loaded := Some p'; now := t2 |} d1 in
  same.2 = [Save same.1]
  ∧ last_fabia_ids same.1 = last_fabia_ids d1
  ∧ Forall (λ e, match e with Send (MonitoringStarted _) => False | _ => True end)
           other.2.
Proof.
  cbn zeta.
  set (d1 := (run target_model {| loaded := Some p; now := t1 |} d).1).
  assert (Hhist : (length (history d1) =? 0) = false).
  { apply (autodeal_first_run_once target_model p t1 d). }
  assert (Hids : last_fabia_ids d1 = id <$> fabia_listings target_model p) by done.
  split; [|split; [done|]].
  - rewrite autodeal_run_sent. rewrite Hhist, andb_false_r, Hids.
    rewrite bool_decide_eq_false_2; [done|]. intros Hne. apply Hne. set_solver.
  - rewrite autodeal_run_sent. rewrite Hhist, andb_false_r.
    case_bool_decide; by repeat constructor.
Qed.

End AutoDealRuns.

(** ** Selector tables: the first rule that matches is the only one used *)

(** X22. In both extractors the candidate containers of a page are what
    the first selector of the table that matches anything finds, and
    nothing else; the selectors before it found nothing, the selectors
    after it are not consulted; and the generic scan is used only when no
    selector of the table finds anything. *)
Theorem first_matching_selector_wins (soup : CarScraper.node) (p : AutoDeal.page) :
  ((∃ before s after,
      CarScraper.listing_selectors = before ++ s :: after
      ∧ Forall (λ s', CarScraper.select s' soup = []) before
      ∧ CarScraper.select s soup ≠ []
      ∧ CarScraper.listings_of soup = CarScraper.select s soup)
   ∨ (Forall (λ s, CarScraper.select s soup = []) CarScraper.listing_selectors
      ∧ CarScraper.listings_of soup = CarScraper.generic_listings soup))
  ∧ ((∃ before s after,
        AutoDeal.listing_selectors = before ++ s :: after
        ∧ Forall (λ s', AutoDeal.find_elements_css s' p = []) before
        ∧ AutoDeal.find_elements_css s p ≠ []
        ∧ AutoDeal.elements_of p = AutoDeal.find_elements_css s p)
     ∨ (Forall (λ s, AutoDeal.find_elements_css s p = []) AutoDeal.listing_selectors
        ∧ AutoDeal.elements_of p = AutoDeal.generic_elements p)).
Proof.
  split.
  - unfold CarScraper.listings_of.
    destruct (first_nonempty_map (λ s, CarScraper.select s soup)
                CarScraper.listing_selectors)
      as [[-> Hall]|(before & s & after & Hsel & Hbefore & Hne & ->)].
    + by right.
    + left. exists before, s, after. repeat split; try done.
      by destruct (CarScraper.select s soup).
  - unfold AutoDeal.elements_of.
    destruct (first_nonempty_map (λ s, AutoDeal.find_elements_css s p)
                AutoDeal.listing_selectors)
      as [[-> Hall]|(before & s & after & Hsel & Hbefore & Hne & ->)].
    + by right.
    + left. exists before, s, after. repeat split; try done.
      by destruct (AutoDeal.find_elements_css s p).
Qed.

(** ** The mileage of a record *)

(** X23. A mileage that the set-based scraper extracts is a piece of the
    container's text: a number of at most seven characters that starts
    with a decimal digit, then white space, if any, then the unit [km] in
    either case. *)
Theorem scraper_mileage_shape (url : string) (e : CarScraper.node) (v : string) :
  CarScraper.mileage (CarScraper.extract_car_data url e) = Some v →
  (∃ before after, CarScraper.get_text e = before +:+ v +:+ after)
  ∧ ∃ (d : string) (number spaces : list string) (k m : string),
      v = d +:+ Py.concat number +:+ Py.concat spaces +:+ k +:+ m
      ∧ Py.is_decimal d = true
      ∧ length number ≤ 6
      ∧ forallb Py.is_space spaces = true
      ∧ (k = "k" ∨ k = "K")
      ∧ (m = "m" ∨ m = "M").
Proof.
  cbn [CarScraper.extract_car_data CarScraper.mileage].
  unfold Re.group0.
  destruct (Re.search [] CarScraper.km_group CarScraper.km_tail _)
    as [[whole g]|] eqn:Hs; [|done].
  cbn. intros [= ->].
  destruct (search_sound _ _ _ _ _ _ Hs)
    as (before & wpre & wg & wpost & after & _ & Htext & -> & _ & Hpre & Hg & Hpost).
  cbn in Hpre. subst wpre. rewrite app_nil_l.
  split; [by eexists _, _|].
  unfold CarScraper.km_group in Hg.
  apply accepts_cons in Hg as (w1 & r1 & -> & Hd1 & Hlo1 & Hhi1 & Hg).
  apply accepts_cons in Hg as (w2 & r2 & -> & _ & _ & Hhi2 & Hg).
  apply accepts_last in Hg as (_ & _ & Hhi3).
  unfold CarScraper.km_tail, Re.cls in Hpost.
  apply accepts_cons in Hpost as (sp & t1 & -> & Hsp & _ & _ & Hpost).
  apply accepts_one in Hpost as (k & t2 & -> & Hk & Hpost).
  apply accepts_one in Hpost as (m & t3 & -> & Hm & Hpost).
  cbn [Re.accepts] in Hpost. subst t3.
  destruct w1 as [|d w1]; [cbn in Hlo1; lia|].
  cbn [forallb] in Hd1. apply andb_true_iff in Hd1 as [Hd _].
  exists d, (w1 ++ w2 ++ r2), sp, k, m.
  split; [|split; [done|split; [|split; [done|split]]]].
  - rewrite !py_concat_app. cbn [Py.concat app].
    by rewrite ?py_concat_app, ?str_app_assoc, ?str_app_nil_r.
  - rewrite !length_app. cbn [length] in Hhi1. lia.
  - change (Re.one_of "kK" k) with (String.eqb k "k" || (String.eqb k "K" || false)) in Hk.
    rewrite orb_false_r in Hk.
    apply orb_true_iff in Hk as [Hk|Hk]; apply String.eqb_eq in Hk; auto.
  - change (Re.one_of "mM" m) with (String.eqb m "m" || (String.eqb m "M" || false)) in Hm.
    rewrite orb_false_r in Hm.
    apply orb_true_iff in Hm as [Hm|Hm]; apply String.eqb_eq in Hm; auto.
Qed.

(** The theorem at the example listing, whose mileage is 60,000 km. *)
Lemma scraper_mileage_shape_witness :
  ∃ before after,
    CarScraper.get_text Examples.fabia_listing = before +:+ "60,000 km" +:+ after.
Proof.
  assert (H : CarScraper.mileage
                (CarScraper.extract_car_data Examples.scraper_url Examples.fabia_listing)
              = Some "60,000 km") by (vm_compute; reflexivity).
  exact (proj1 (scraper_mileage_shape Examples.scraper_url Examples.fabia_listing _ H)).
Defined.
